(** * World clocks on a circular doubly linked list

    A shallow embedding of [clock_project/main.py]: the [ClockNode] and
    [CircularClockList] classes, the [timedelta]/[datetime] values they
    compute with and the binary64 arithmetic of the analytics, followed by
    the properties of the registry that the specification states. *)

From Stdlib Require Import ZArith QArith Lia DecimalString.
From Stdlib Require Import Floats.SpecFloat.
From stdpp Require Import base list strings sorting.

Local Open Scope Z_scope.

(** ** Exceptions

    The Python exceptions the modelled code can raise, and the outcome of a
    call: a value or a raised exception. *)

Inductive exn : Set :=
| UnknownTimeZoneError   (* pytz.timezone on an unknown identifier *)
| OverflowError          (* timedelta out of range, int() of an infinity *)
| ValueError             (* int() of a NaN, datetime.replace out of range *)
| AttributeError.        (* attribute access on None *)

Inductive result (A : Type) : Type :=
| Ok (a : A)
| Raise (e : exn).
Arguments Ok {A} a.
Arguments Raise {A} e.

(** ** Python floats

    Python's [float] is IEEE 754 binary64.  The operations are those of the
    standard library's executable specification [SpecFloat] at precision 53
    and maximal exponent 1024, all rounding to nearest, ties to even. *)

Module Float64.

Definition prec : Z := 53.
Definition emax : Z := 1024.

Definition float : Set := spec_float.

(** [float(z)] for a Python int: the nearest double (exact below 2^53). *)
Definition of_int (z : Z) : float := binary_normalize prec emax z 0 false.

Definition add : float -> float -> float := SFadd prec emax.
Definition sub : float -> float -> float := SFsub prec emax.
Definition mul : float -> float -> float := SFmul prec emax.
Definition div : float -> float -> float := SFdiv prec emax.
Definition abs : float -> float := SFabs.
Definition ltb : float -> float -> bool := SFltb.

Definition zero : float := S754_zero false.

(** The literal [0.5]. *)
Definition half : float := S754_finite false 4503599627370496 (-53).

(** [a / b] on two Python ints of magnitude below 2^53: both convert
    exactly, and the quotient is the correctly rounded one. *)
Definition int_truediv (a b : Z) : float := div (of_int a) (of_int b).

(** The integer part of [m * 2^e], towards zero. *)
Definition trunc_mag (m : positive) (e : Z) : Z :=
  match e with
  | Zneg p => Z.shiftr (Zpos m) (Zpos p)
  | _ => Z.shiftl (Zpos m) e
  end.

(** [int(x)]: truncation towards zero; raises on NaN and infinities. *)
Definition to_int (x : float) : result Z :=
  match x with
  | S754_zero _ => Ok 0
  | S754_finite s m e => Ok (cond_Zopp s (trunc_mag m e))
  | S754_infinity _ => Raise OverflowError
  | S754_nan => Raise ValueError
  end.

(** [math.floor(x)]: the largest integer not above [x]. *)
Definition floor (x : float) : result Z :=
  match x with
  | S754_zero _ => Ok 0
  | S754_finite false m e => Ok (trunc_mag m e)
  | S754_finite true m e =>
      match e with
      | Zneg p => Ok (- ((Zpos m + 2 ^ Zpos p - 1) / 2 ^ Zpos p))
      | _ => Ok (- trunc_mag m e)
      end
  | S754_infinity _ => Raise OverflowError
  | S754_nan => Raise ValueError
  end.

(** The integer nearest to [n * 2^e] for [n >= 0], ties to even. *)
Definition nearest_even (n : Z) (e : Z) : Z :=
  match e with
  | Zneg p =>
      let d := 2 ^ Zpos p in
      let q := n / d in
      match Z.compare (2 * (n mod d)) d with
      | Lt => q
      | Gt => q + 1
      | Eq => if Z.even q then q else q + 1
      end
  | _ => n * 2 ^ e
  end.

(** [round(x, 2)]: the exact binary value of [x] is rounded to two
    decimals (ties to even), and the result is the double nearest to that
    decimal; NaN and infinities round to themselves. *)
Definition round2 (x : float) : float :=
  match x with
  | S754_finite s m e =>
      match nearest_even (100 * Zpos m) e with
      | Zpos q => div (S754_finite s q 0) (of_int 100)
      | _ => S754_zero s
      end
  | _ => x
  end.

Definition is_finite (x : float) : bool :=
  match x with
  | S754_zero _ | S754_finite _ _ _ => true
  | _ => false
  end.

(** The exact rational value of a finite double (0 on the others). *)
Definition to_Q (x : float) : Q :=
  match x with
  | S754_finite s m e =>
      match e with
      | Zneg p => Qmake (cond_Zopp s (Zpos m)) (2 ^ p)
      | _ => inject_Z (cond_Zopp s (Zpos m * 2 ^ e))
      end
  | _ => 0%Q
  end.

End Float64.

(** ** Decimal rendering of a Python int, as [str] and f-strings give it. *)

Definition str (z : Z) : string := NilZero.string_of_int (Z.to_int z).

(** ** [datetime.timedelta]

    Python keeps a duration normalised as days, seconds in [0, 86400) and
    microseconds in [0, 10^6), and refuses more than 999999999 days. *)

Record timedelta : Set := mk_timedelta
  { days : Z; seconds : Z; microseconds : Z }.

Definition MAX_DELTA_DAYS : Z := 999999999.

(** [timedelta(0)] *)
Definition timedelta_zero : timedelta := mk_timedelta 0 0 0.

(** [timedelta(hours=hours, minutes=minutes)] on two ints. *)
Definition timedelta_of (hours minutes : Z) : result timedelta :=
  let s := hours * 3600 + minutes * 60 in
  let d := s / 86400 in
  if Z.abs d >? MAX_DELTA_DAYS then Raise OverflowError
  else Ok (mk_timedelta d (s mod 86400) 0).

(** [td.total_seconds()].  Python returns the double nearest to
    [((days * 86400 + seconds) * 10^6 + microseconds) / 10^6].  The durations
    built here have no microseconds and, by the bound on [days], fewer than
    2^53 seconds (lemma [total_seconds_exact_range]), so that double is this
    integer, and [//] and [%] on it are the floor division and the modulo of
    integers. *)
Definition total_seconds (td : timedelta) : Z :=
  days td * 86400 + seconds td.

(** The two offset entries of [ClockNode.get_clock_data]:
    [int(total_seconds() // 3600)] and [int((total_seconds() % 3600) // 60)]. *)
Definition offset_hours (td : timedelta) : Z := total_seconds td / 3600.
Definition offset_minutes (td : timedelta) : Z :=
  (total_seconds td mod 3600) / 60.

(** ** [datetime.datetime]

    A wall-clock time, counted in whole seconds from 0001-01-01 00:00:00 of
    its own zone; the fields read from it are the time of day.  Python
    restricts dates to the years 1 to 9999: a [datetime] object holds a
    count below [MAX_WALL], and arithmetic that leaves the range raises
    [OverflowError]. *)

Module Datetime.

Record datetime : Set := mk_datetime { wall : Z }.

Definition hour (t : datetime) : Z := (wall t / 3600) mod 24.
Definition minute (t : datetime) : Z := (wall t / 60) mod 60.
Definition second (t : datetime) : Z := wall t mod 60.

(** The seconds of the 3652059 days from 0001-01-01 to 9999-12-31. *)
Definition MAX_WALL : Z := 3652059 * 86400.

Definition in_range (w : Z) : bool := (0 <=? w) && (w <? MAX_WALL).

(** What a [datetime] object can hold. *)
Definition valid (t : datetime) : Prop := in_range (wall t) = true.

(** The time [td] after [t] on the unbounded time line. *)
Definition shift (t : datetime) (td : timedelta) : datetime :=
  mk_datetime (wall t + total_seconds td).

(** [t + td]: [OverflowError] when the date leaves the years 1 to 9999. *)
Definition add (t : datetime) (td : timedelta) : result datetime :=
  if in_range (wall (shift t td)) then Ok (shift t td)
  else Raise OverflowError.

(** A count of seconds as a [datetime] object: the count itself within the
    range, and noon of 2025-12-16 out of it. *)
Definition checked (t : datetime) : { t' : datetime | valid t' } :=
  match in_range (wall t) as b
        return in_range (wall t) = b -> { t' : datetime | valid t' } with
  | true => fun H => exist _ t H
  | false => fun _ => exist _ (mk_datetime (86400 * 739600 + 43200)) eq_refl
  end eq_refl.

(** The date of [t] with another time of day. *)
Definition at_time (t : datetime) (h mi s : Z) : datetime :=
  mk_datetime (86400 * (wall t / 86400) + 3600 * h + 60 * mi + s).

(** [t.replace(hour=h, minute=mi, second=s)]; a field out of range is a
    [ValueError]. *)
Definition replace (t : datetime) (h mi s : Z) : result datetime :=
  if (0 <=? h) && (h <? 24) && (0 <=? mi) && (mi <? 60)
     && (0 <=? s) && (s <? 60)
  then Ok (at_time t h mi s)
  else Raise ValueError.

End Datetime.

Abbreviation datetime := Datetime.datetime.

(** ** The monad of the engine

    [result] is the exception monad of the pure helpers. *)

#[export] Instance result_ret : MRet result := fun _ a => Ok a.
#[export] Instance result_bind : MBind result := fun _ _ f r =>
  match r with
  | Ok a => f a
  | Raise e => Raise e
  end.

(** ** A sample world

    Zones with a fixed offset from UTC in seconds, the three identifiers the
    application registers at start-up, a system clock that advances by one
    second per reading from 14:00:00 UTC, and the one [strftime] format the
    analytics print. *)

Definition sample_timezone (tzs : string) : option Z :=
  if String.eqb tzs "America/Bogota" then Some (-18000)
  else if String.eqb tzs "Europe/London" then Some 0
  else if String.eqb tzs "Asia/Shanghai" then Some 28800
  else None.

Definition sample_now (k : nat) (utcoffset : Z) : datetime :=
  Datetime.mk_datetime
    (86400 * 739600 + 50400 + Z.of_nat k + utcoffset).

Definition sample_clock (k : nat) (utcoffset : Z)
  : { t : datetime | Datetime.valid t } :=
  Datetime.checked (sample_now k utcoffset).

Definition two_digits (z : Z) : string :=
  if z <? 10 then "0" +:+ str z else str z.

Definition sample_strftime (t : datetime) (format : string) : string :=
  if String.eqb format "%I:%M %p"
  then two_digits (if Datetime.hour t mod 12 =? 0 then 12
                   else Datetime.hour t mod 12)
       +:+ ":" +:+ two_digits (Datetime.minute t)
       +:+ (if Datetime.hour t <? 12 then " AM" else " PM")
  else format.

Section Engine.

(** The world outside the program: the zone database behind
    [pytz.timezone] ([None] for an identifier it does not know), the
    system clock as [datetime.now(tz)] shows it at its k-th reading, a
    [datetime] object and so a time of the years 1 to 9999, and
    [datetime.strftime]. *)
Context {tzinfo : Type}.
Variable pytz_timezone : string -> option tzinfo.
Variable system_clock : nat -> tzinfo -> { t : datetime | Datetime.valid t }.
Variable strftime : datetime -> string -> string.

Definition datetime_now (k : nat) (tz : tzinfo) : datetime :=
  proj1_sig (system_clock k tz).

(** *** Objects

    A [ClockNode] object lives in a store and is known by its address;
    [next_clock] and [previous_clock] hold an address or [None]. *)

Abbreviation addr := nat (only parsing).

Record ClockNode : Type := mk_ClockNode
  { city_name : string;
    timezone_str : string;
    timezone : tzinfo;
    image_filename : string;
    next_clock : option addr;
    previous_clock : option addr;
    time_offset : timedelta;
    is_modified : bool }.

Definition with_next_clock (v : option addr) (c : ClockNode) : ClockNode :=
  mk_ClockNode (city_name c) (timezone_str c) (timezone c)
    (image_filename c) v (previous_clock c) (time_offset c) (is_modified c).

Definition with_previous_clock (v : option addr) (c : ClockNode)
  : ClockNode :=
  mk_ClockNode (city_name c) (timezone_str c) (timezone c)
    (image_filename c) (next_clock c) v (time_offset c) (is_modified c).

Definition with_time_offset (v : timedelta) (c : ClockNode) : ClockNode :=
  mk_ClockNode (city_name c) (timezone_str c) (timezone c)
    (image_filename c) (next_clock c) (previous_clock c) v (is_modified c).

Definition with_is_modified (v : bool) (c : ClockNode) : ClockNode :=
  mk_ClockNode (city_name c) (timezone_str c) (timezone c)
    (image_filename c) (next_clock c) (previous_clock c) (time_offset c) v.

(** The state a call runs in: the store of nodes, the two attributes of
    the [CircularClockList] object, and how often the system clock has
    been read. *)
Record state : Type := mk_state
  { heap : list ClockNode;
    head_clock : option addr;
    clock_count : nat;
    ticks : nat }.

(** A call returns or raises, and leaves a state behind either way. *)
Definition M (A : Type) : Type := state -> result A * state.

#[local] Instance M_ret : MRet M := fun _ a s => (Ok a, s).
#[local] Instance M_bind : MBind M := fun _ _ f m s =>
  match m s with
  | (Ok a, s') => f a s'
  | (Raise e, s') => (Raise e, s')
  end.

Definition raise {A} (e : exn) : M A := fun s => (Raise e, s).

Definition lift {A} (r : result A) : M A := fun s => (r, s).

Definition get_head : M (option addr) := fun s => (Ok (head_clock s), s).

Definition get_count : M nat := fun s => (Ok (clock_count s), s).

Definition set_head (v : option addr) : M unit := fun s =>
  (Ok tt, mk_state (heap s) v (clock_count s) (ticks s)).

Definition incr_count : M unit := fun s =>
  (Ok tt, mk_state (heap s) (head_clock s) (S (clock_count s)) (ticks s)).

(** A new object takes the next free address. *)
Definition alloc (c : ClockNode) : M addr := fun s =>
  (Ok (length (heap s)),
   mk_state (heap s ++ [c]) (head_clock s) (clock_count s) (ticks s)).

(** Reading an object through a reference.  A Python reference always
    leads to an object; the other case only makes the function total. *)
Definition deref (a : addr) : M ClockNode := fun s =>
  match heap s !! a with
  | Some c => (Ok c, s)
  | None => (Raise AttributeError, s)
  end.

(** Assigning to an attribute of an object. *)
Definition update (a : addr) (f : ClockNode -> ClockNode) : M unit :=
  fun s =>
    (Ok tt,
     mk_state (alter f a (heap s)) (head_clock s) (clock_count s) (ticks s)).

(** A variable that may hold [None], used as an object. *)
Definition as_object (o : option addr) : M addr :=
  match o with
  | Some a => mret a
  | None => raise AttributeError
  end.

Definition getattr (o : option addr) : M ClockNode :=
  a ← as_object o; deref a.

Definition setattr (o : option addr) (f : ClockNode -> ClockNode)
  : M unit :=
  a ← as_object o; update a f.

(** [datetime.now(tz)]: one more reading of the system clock. *)
Definition now (tz : tzinfo) : M datetime := fun s =>
  (Ok (datetime_now (ticks s) tz),
   mk_state (heap s) (head_clock s) (clock_count s) (S (ticks s))).

(** *** class ClockNode *)

(** [ClockNode(city_name, timezone_str, image_filename)].  When
    [pytz.timezone] raises, the object under construction is dropped and
    never reaches the caller; otherwise it is complete, with no links, a
    zero offset and [is_modified] false. *)
Definition ClockNode_init (city tzs image : string) : M addr :=
  match pytz_timezone tzs with
  | None => raise UnknownTimeZoneError
  | Some tz =>
      alloc (mk_ClockNode city tzs tz image None None timedelta_zero false)
  end.

Definition get_current_time (self : addr) : M datetime :=
  c ← deref self;
  base_time ← now (timezone c);
  lift (Datetime.add base_time (time_offset c)).

Definition set_time_offset (self : addr) (hours minutes : Z) : M unit :=
  td ← lift (timedelta_of hours minutes);
  update self (with_time_offset td);;
  update self
    (with_is_modified (negb (hours =? 0) || negb (minutes =? 0))).

Definition reset_time_offset (self : addr) : M unit :=
  update self (with_time_offset timedelta_zero);;
  update self (with_is_modified false).

Definition is_daytime (self : addr) : M bool :=
  current_time ← get_current_time self;
  let current_hour := Datetime.hour current_time in
  mret ((6 <=? current_hour) && (current_hour <? 18)).

Definition calculate_hour_angle (time : datetime) : Float64.float :=
  let hour := Datetime.hour time mod 12 in
  let minute := Datetime.minute time in
  Float64.add (Float64.of_int (hour * 30))
    (Float64.mul (Float64.of_int minute) Float64.half).

Definition calculate_minute_angle (time : datetime) : Z :=
  Datetime.minute time * 6.

Definition calculate_second_angle (time : datetime) : Z :=
  Datetime.second time * 6.

Record clock_data : Type := mk_clock_data
  { cd_city : string;
    cd_timezone : string;
    cd_hour : Z;
    cd_minute : Z;
    cd_second : Z;
    cd_is_day : bool;
    cd_image : string;
    cd_hour_angle : Float64.float;
    cd_minute_angle : Z;
    cd_second_angle : Z;
    cd_formatted_time : string;
    cd_date : string;
    cd_day_of_week : string;
    cd_is_modified : bool;
    cd_offset_hours : Z;
    cd_offset_minutes : Z }.

Definition get_clock_data (self : addr) : M clock_data :=
  current_time ← get_current_time self;
  is_day ← is_daytime self;
  c ← deref self;
  mret (mk_clock_data (city_name c) (timezone_str c)
          (Datetime.hour current_time) (Datetime.minute current_time)
          (Datetime.second current_time)
          is_day (image_filename c)
          (calculate_hour_angle current_time)
          (calculate_minute_angle current_time)
          (calculate_second_angle current_time)
          (strftime current_time "%I:%M %p")
          (strftime current_time "%B %d, %Y")
          (strftime current_time "%A")
          (is_modified c)
          (offset_hours (time_offset c))
          (offset_minutes (time_offset c))).

(** *** class CircularClockList *)

(** [CircularClockList()] *)
Definition CircularClockList_init (k : nat) : state := mk_state [] None 0 k.

Definition add_clock (city tzs image : string) : M unit :=
  new_clock ← ClockNode_init city tzs image;
  head ← get_head;
  match head with
  | None =>
      update new_clock (with_next_clock (Some new_clock));;
      update new_clock (with_previous_clock (Some new_clock));;
      set_head (Some new_clock)
  | Some _ =>
      h ← getattr head;
      let tail_clock := previous_clock h in
      setattr tail_clock (with_next_clock (Some new_clock));;
      update new_clock (with_previous_clock tail_clock);;
      update new_clock (with_next_clock head);;
      setattr head (with_previous_clock (Some new_clock))
  end;;
  incr_count.

(** The loop of [get_dominant_theme], [n] iterations still to run. *)
Fixpoint theme_loop (n : nat) (current_clock : option addr) (day_count : nat)
  : M nat :=
  match n with
  | O => mret day_count
  | S n' =>
      self ← as_object current_clock;
      d ← is_daytime self;
      c ← deref self;
      theme_loop n' (next_clock c) (if (d : bool) then S day_count else day_count)
  end.

(** [day_count >= clock_count / 2]: Python compares the int with the
    quotient exactly, and the quotient of a count below 2^53 by 2 is exact. *)
Definition at_least_half (day_count count : nat) : bool :=
  Qle_bool (Z.of_nat count # 2) (inject_Z (Z.of_nat day_count)).

Definition get_dominant_theme : M string :=
  head ← get_head;
  match head with
  | None => mret "day"%string
  | Some _ =>
      n ← get_count;
      day_count ← theme_loop n head 0%nat;
      count ← get_count;
      mret (if at_least_half day_count count then "day" else "night")%string
  end.

(** The loop of [get_clock_at_index], [k] iterations still to run. *)
Fixpoint index_loop (k : nat) (current_clock : option addr)
  : M (option addr) :=
  match k with
  | O => mret current_clock
  | S k' =>
      c ← getattr current_clock;
      index_loop k' (next_clock c)
  end.

Definition get_clock_at_index (index : Z) : M (option addr) :=
  head ← get_head;
  count ← get_count;
  if bool_decide (head = None) || (index <? 0) || (index >=? Z.of_nat count)
  then mret None
  else index_loop (Z.to_nat index) head.

Definition _format_time_difference (hours : Float64.float) : result string :=
  let abs_hours := Float64.abs hours in
  whole_hours ← Float64.to_int abs_hours;
  minutes ← Float64.to_int
    (Float64.mul (Float64.sub abs_hours (Float64.of_int whole_hours))
       (Float64.of_int 60));
  let direction :=
    (if Float64.ltb Float64.zero hours then "ahead" else "behind")%string in
  if minutes =? 0
  then mret (str whole_hours +:+ " hours " +:+ direction)
  else mret (str whole_hours +:+ "h " +:+ str minutes +:+ "m " +:+ direction).

Record time_difference : Type := mk_time_difference
  { td_clock1 : string;
    td_clock2 : string;
    difference_hours : Float64.float;
    difference_text : string }.

Definition calculate_time_difference (index1 index2 : Z)
  : M (option time_difference) :=
  clock1 ← get_clock_at_index index1;
  clock2 ← get_clock_at_index index2;
  match clock1, clock2 with
  | Some clock1, Some clock2 =>
      time1 ← get_current_time clock1;
      time2 ← get_current_time clock2;
      let diff :=
        Float64.add
          (Float64.of_int (Datetime.hour time2 - Datetime.hour time1))
          (Float64.int_truediv
             (Datetime.minute time2 - Datetime.minute time1) 60) in
      c1 ← deref clock1;
      c2 ← deref clock2;
      text ← lift (_format_time_difference diff);
      mret (Some (mk_time_difference (city_name c1) (city_name c2)
                    (Float64.round2 diff) text))
  | _, _ => mret None
  end.

Record time_entry : Type := mk_time_entry
  { te_city : string; te_time : string; te_hour : Z }.

Record meeting_option : Type := mk_meeting_option
  { reference_hour : Z; times : list time_entry; quality : string }.

(** The inner loop of [find_optimal_meeting_time], over the clocks. *)
Fixpoint clocks_loop (n : nat) (current_clock : option addr)
  (hour start_hour end_hour : Z)
  (all_in_range : bool) (times_for_hour : list time_entry)
  : M (bool * list time_entry) :=
  match n with
  | O => mret (all_in_range, times_for_hour)
  | S n' =>
      self ← as_object current_clock;
      current_time ← get_current_time self;
      test_time ← lift (Datetime.replace current_time hour 0 0);
      c ← deref self;
      let times_for_hour :=
        times_for_hour ++
          [mk_time_entry (city_name c) (strftime test_time "%I:%M %p")
             (Datetime.hour test_time)] in
      let all_in_range :=
        if (Datetime.hour test_time <? start_hour)
           || (Datetime.hour test_time >=? end_hour)
        then false else all_in_range in
      clocks_loop n' (next_clock c) hour start_hour end_hour
        all_in_range times_for_hour
  end.

(** The outer loop, over the hours of the day still to check. *)
Fixpoint hours_loop (hours : list Z) (start_hour end_hour : Z)
  (optimal_times : list meeting_option) : M (list meeting_option) :=
  match hours with
  | [] => mret optimal_times
  | hour :: hours' =>
      head ← get_head;
      count ← get_count;
      r ← clocks_loop count head hour start_hour end_hour true [];
      let all_in_range : bool := fst r in
      let times_for_hour : list time_entry := snd r in
      hours_loop hours' start_hour end_hour
        (if all_in_range
         then optimal_times ++
                [mk_meeting_option hour times_for_hour "excellent"]
         else optimal_times)
  end.

(** [range(24)] *)
Definition range24 : list Z := Z.of_nat <$> seq 0 24.

Definition find_optimal_meeting_time (start_hour end_hour : Z)
  : M (list meeting_option) :=
  head ← get_head;
  match head with
  | None => mret []
  | Some _ => hours_loop range24 start_hour end_hour []
  end.

(** *** The calls that change the registry

    Between two queries the registry is changed by [add_clock] and, on the
    node at an index, by [set_time_offset] and [reset_time_offset].  A call
    that raises leaves the state it reached. *)

Inductive request : Set :=
| AddClock (city tzs image : string)
| SetOffset (index hours minutes : Z)
| ResetOffset (index : Z).

Definition handle (r : request) : M unit :=
  match r with
  | AddClock city tzs image => add_clock city tzs image
  | SetOffset index hours minutes =>
      clock ← get_clock_at_index index;
      match clock with
      | Some clock => set_time_offset clock hours minutes
      | None => mret tt
      end
  | ResetOffset index =>
      clock ← get_clock_at_index index;
      match clock with
      | Some clock => reset_time_offset clock
      | None => mret tt
      end
  end.

Definition run (rs : list request) (s : state) : state :=
  fold_left (fun s r => snd (handle r s)) rs s.

(** The registry after the requests [rs], read at system-clock tick [k]. *)
Definition registry (rs : list request) (k : nat) : state :=
  run rs (CircularClockList_init k).

(** *** Reading the link structure *)

Definition node_at (s : state) (o : option addr) : option ClockNode :=
  a ← o; heap s !! a.

Definition next_of (s : state) (o : option addr) : option addr :=
  c ← node_at s o; next_clock c.

Definition previous_of (s : state) (o : option addr) : option addr :=
  c ← node_at s o; previous_clock c.

Definition city_of (s : state) (o : option addr) : option string :=
  city_name <$> node_at s o.

(** The records met from [current] on by following [next_clock] until it
    leads back to [start]. *)
Fixpoint traverse (s : state) (fuel : nat) (start current : addr)
  : list addr :=
  match fuel with
  | O => []
  | S fuel' =>
      current ::
        match next_of s (Some current) with
        | Some a => if decide (a = start) then [] else traverse s fuel' start a
        | None => []
        end
  end.

(** The records linked into the ring: those met from the head. *)
Definition ring_members (s : state) : list addr :=
  match head_clock s with
  | Some h => traverse s (length (heap s)) h h
  | None => []
  end.

(** Successor and predecessor among the addresses [0 .. n-1], cyclically. *)
Definition succ_in (n a : nat) : nat := if decide (S a = n) then 0%nat else S a.
Definition pred_in (n a : nat) : nat := if decide (a = 0%nat) then pred n else pred a.

(** The ring as [add_clock] builds it: the nodes sit at the addresses
    [0 .. n-1] in the order of their insertion, the head is the first, and
    each is linked to its two neighbours. *)
Definition linked (s : state) : Prop :=
  clock_count s = length (heap s) ∧
  head_clock s
  = (if decide (length (heap s) = 0%nat) then None else Some 0%nat) ∧
  ∀ a c, heap s !! a = Some c →
    next_clock c = Some (succ_in (length (heap s)) a) ∧
    previous_clock c = Some (pred_in (length (heap s)) a).

(** What a node is apart from its two links. *)
Definition same_data (c c' : ClockNode) : Prop :=
  city_name c' = city_name c ∧ timezone_str c' = timezone_str c ∧
  timezone c' = timezone c ∧ image_filename c' = image_filename c ∧
  time_offset c' = time_offset c ∧ is_modified c' = is_modified c.

(** *** Reading the clocks

    The records of the ring, in ring order from the head. *)
Definition ring_nodes (s : state) : list ClockNode :=
  omap (fun a => heap s !! a) (ring_members s).

(** The time the record [c] shows at the [k]-th reading of the system
    clock, when its offset leaves it within the years 1 to 9999:
    [on_time] says that it does. *)
Definition reading (k : nat) (c : ClockNode) : datetime :=
  Datetime.shift (datetime_now k (timezone c)) (time_offset c).

Definition on_time (k : nat) (c : ClockNode) : bool :=
  Datetime.in_range (Datetime.wall (reading k c)).

(** The record [c] is on time at each of the [n] readings of the system
    clock from the [k]-th on. *)
Definition readable (k n : nat) (c : ClockNode) : bool :=
  forallb (fun j => on_time j c) (seq k n).

(** Every record is on time at the [n] readings of the system clock from
    the [k]-th on. *)
Definition in_time (k n : nat) (s : state) : bool :=
  forallb (fun j => forallb (on_time j) (heap s)) (seq k n).

Definition daytime (t : datetime) : bool :=
  (6 <=? Datetime.hour t) && (Datetime.hour t <? 18).

(** How many of [nodes] are in daytime, each asked in turn, the first at
    the [k]-th reading of the system clock. *)
Fixpoint count_daytime (k : nat) (nodes : list ClockNode) : nat :=
  match nodes with
  | [] => 0
  | c :: nodes' =>
      ((if daytime (reading k c) then 1 else 0)
       + count_daytime (S k) nodes')%nat
  end.

(** The number of records of the ring whose [is_daytime()] is true when
    they are asked in ring order from the head. *)
Definition daytime_count (s : state) : nat :=
  count_daytime (ticks s) (ring_nodes s).

(** The state after [m] more readings of the system clock. *)
Definition advance (m : nat) (s : state) : state :=
  mk_state (heap s) (head_clock s) (clock_count s) (ticks s + m).

(** What a record holds of its offset comes from the arguments of a call:
    those of the last [set_time_offset] that returned, or zeros after the
    construction or a [reset_time_offset]. *)
Definition offset_from_arguments (c : ClockNode) : Prop :=
  exists hours minutes,
    timedelta_of hours minutes = Ok (time_offset c) /\
    is_modified c = negb (hours =? 0) || negb (minutes =? 0).

(** *** The meeting search, as it is described

    The time a record is tested at for the reference hour [h]: its current
    time with the hour replaced by [h] and minute and second zeroed. *)
Definition test_time (k : nat) (h : Z) (c : ClockNode) : datetime :=
  Datetime.at_time (reading k c) h 0 0.

(** The labels of the records for the reference hour [h], the first record
    read at the [k]-th reading of the system clock. *)
Fixpoint hour_entries (k : nat) (h : Z) (nodes : list ClockNode)
  : list time_entry :=
  match nodes with
  | [] => []
  | c :: nodes' =>
      mk_time_entry (city_name c) (strftime (test_time k h c) "%I:%M %p")
        (Datetime.hour (test_time k h c))
      :: hour_entries (S k) h nodes'
  end.

(** Every record's hour, after the substitution, lies in
    [start_hour, end_hour). *)
Fixpoint hour_qualifies (k : nat) (h start_hour end_hour : Z)
  (nodes : list ClockNode) : bool :=
  match nodes with
  | [] => true
  | c :: nodes' =>
      (start_hour <=? Datetime.hour (test_time k h c))
      && (Datetime.hour (test_time k h c) <? end_hour)
      && hour_qualifies (S k) h start_hour end_hour nodes'
  end.

(** The qualifying hours among [hours], in their order, each with its
    labels. *)
Fixpoint meeting_options (k : nat) (hours : list Z) (start_hour end_hour : Z)
  (nodes : list ClockNode) : list meeting_option :=
  match hours with
  | [] => []
  | h :: hours' =>
      (if hour_qualifies k h start_hour end_hour nodes
       then [mk_meeting_option h (hour_entries k h nodes) "excellent"]
       else [])
      ++ meeting_options (k + length nodes) hours' start_hour end_hour nodes
  end.

(** *** The difference of two clocks, as it is described

    [diff_hours] from the hour and minute fields of the two times. *)
Definition diff_hours (time1 time2 : datetime) : Float64.float :=
  Float64.add
    (Float64.of_int (Datetime.hour time2 - Datetime.hour time1))
    (Float64.int_truediv (Datetime.minute time2 - Datetime.minute time1) 60).

(** The same difference in whole minutes. *)
Definition diff_minutes (time1 time2 : datetime) : Z :=
  60 * (Datetime.hour time2 - Datetime.hour time1)
  + (Datetime.minute time2 - Datetime.minute time1).

(** Equality tests, for checking tables of cases by computation. *)
Definition float_eqb (x y : Float64.float) : bool :=
  match x, y with
  | S754_zero s, S754_zero s' => Bool.eqb s s'
  | S754_infinity s, S754_infinity s' => Bool.eqb s s'
  | S754_nan, S754_nan => true
  | S754_finite s m e, S754_finite s' m' e' =>
      Bool.eqb s s' && Pos.eqb m m' && Z.eqb e e'
  | _, _ => false
  end.

Definition result_eqb {A} (eqb : A -> A -> bool) (x y : result A) : bool :=
  match x, y with
  | Ok a, Ok b => eqb a b
  | _, _ => false
  end.

(** What is checked of a difference of [dh] hours and [dm] minutes between
    the fields of two times, [n] minutes in all: the rounded number is the
    double nearest to the hundredths nearest to [n / 60], and the text
    shows the whole hours of [n], a number of minutes that is the one of
    [n] or one less, and "ahead" exactly when [n] is positive.  See
    [difference_table]. *)
Definition difference_case (dh dm : Z) : bool :=
  let n := 60 * dh + dm in
  let diff := Float64.add (Float64.of_int dh) (Float64.int_truediv dm 60) in
  let direction : string := if 0 <? n then "ahead" else "behind" in
  float_eqb (Float64.round2 diff)
    (Float64.int_truediv ((10 * n + 3) / 6) 100)
  && match Float64.floor
             (Float64.mul
                (Float64.sub (Float64.abs diff)
                   (Float64.of_int (Z.abs n / 60)))
                (Float64.of_int 60)) with
     | Ok minutes =>
         (0 <=? minutes) && (Z.abs n mod 60 - 1 <=? minutes)
         && (minutes <=? Z.abs n mod 60)
         && result_eqb String.eqb (_format_time_difference diff)
              (Ok (if minutes =? 0
                   then str (Z.abs n / 60) +:+ " hours " +:+ direction
                   else str (Z.abs n / 60) +:+ "h " +:+ str minutes
                        +:+ "m " +:+ direction))
     | Raise _ => false
     end.

(** The integers from [lo] on, [len] of them. *)
Definition Z_range (lo : Z) (len : nat) : list Z :=
  (fun i => lo + Z.of_nat i) <$> seq 0 len.

(** What is checked of the hour hand at [h] hours and [m] minutes: the
    angle is a finite double whose value is [(h mod 12) * 30 + m / 2], at
    least 0 and below 360. *)
Definition hour_angle_case (h m : Z) : bool :=
  let angle :=
    Float64.add (Float64.of_int (h mod 12 * 30))
      (Float64.mul (Float64.of_int m) Float64.half) in
  Float64.is_finite angle
  && Qeq_bool (Float64.to_Q angle) (inject_Z (h mod 12 * 30) + (m # 2))
  && Qle_bool 0 (Float64.to_Q angle)
  && negb (Qle_bool 360 (Float64.to_Q angle)).

(** *** Sample inputs

    The three clocks the application registers at start-up, and smaller
    registries. *)
Definition startup_requests : list request :=
  [AddClock "Colombia" "America/Bogota" "clock_colombia.png";
   AddClock "United Kingdom" "Europe/London" "clock_uk.png";
   AddClock "China" "Asia/Shanghai" "clock_china.png"].


Definition cancelling_offset_requests : list request :=
  [AddClock "Colombia" "America/Bogota" "clock_colombia.png";
   SetOffset 0 1 (-60)].

Definition negative_offset_requests : list request :=
  [AddClock "Colombia" "America/Bogota" "clock_colombia.png";
   SetOffset 0 (-1) (-30)].


(** The second clock of the application put 20 minutes, or 1 minute,
    ahead. *)
Definition twenty_minutes_requests : list request :=
  startup_requests ++ [SetOffset 1 0 20].

Definition one_minute_requests : list request :=
  startup_requests ++ [SetOffset 1 0 1].

(** ** The rest of the program

    *** The two listings of [CircularClockList] *)

(** The loop of [get_all_clocks_data], [n] iterations still to run. *)
Fixpoint all_clocks_loop (n : nat) (current_clock : option addr)
  (clocks_data : list clock_data) : M (list clock_data) :=
  match n with
  | O => mret clocks_data
  | S n' =>
      self ← as_object current_clock;
      d ← get_clock_data self;
      c ← deref self;
      all_clocks_loop n' (next_clock c) (clocks_data ++ [d])
  end.

Definition get_all_clocks_data : M (list clock_data) :=
  head ← get_head;
  match head with
  | None => mret []
  | Some _ =>
      count ← get_count;
      all_clocks_loop count head []
  end.

Record structure_entry : Type := mk_structure_entry
  { se_index : Z;
    se_city : string;
    se_next : string;
    se_previous : string;
    se_is_head : bool }.

(** The loop of [get_list_structure] at [i], [n] iterations still to run.
    Two [ClockNode] objects are equal when they are the same object. *)
Fixpoint structure_loop (n : nat) (i : Z) (current_clock : option addr)
  (structure : list structure_entry) : M (list structure_entry) :=
  match n with
  | O => mret structure
  | S n' =>
      c ← getattr current_clock;
      next ← getattr (next_clock c);
      previous ← getattr (previous_clock c);
      head ← get_head;
      let entry :=
        mk_structure_entry i (city_name c) (city_name next)
          (city_name previous) (bool_decide (current_clock = head)) in
      structure_loop n' (i + 1) (next_clock c) (structure ++ [entry])
  end.

Definition get_list_structure : M (list structure_entry) :=
  head ← get_head;
  match head with
  | None => mret []
  | Some _ =>
      count ← get_count;
      structure_loop count 0 head []
  end.

(** The snapshot of the record [c] when its clock is first read at the
    [k]-th reading of the system clock: the time fields come from that
    reading, [is_day] from the next one. *)
Definition snapshot (k : nat) (c : ClockNode) : clock_data :=
  let current_time := reading k c in
  mk_clock_data (city_name c) (timezone_str c)
    (Datetime.hour current_time) (Datetime.minute current_time)
    (Datetime.second current_time)
    (daytime (reading (S k) c)) (image_filename c)
    (calculate_hour_angle current_time)
    (calculate_minute_angle current_time)
    (calculate_second_angle current_time)
    (strftime current_time "%I:%M %p")
    (strftime current_time "%B %d, %Y")
    (strftime current_time "%A")
    (is_modified c)
    (offset_hours (time_offset c))
    (offset_minutes (time_offset c)).

(** The snapshots of [nodes], one after the other from the [k]-th reading
    on, two readings each. *)
Fixpoint snapshots (k : nat) (nodes : list ClockNode) : list clock_data :=
  match nodes with
  | [] => []
  | c :: nodes' => snapshot k c :: snapshots (S (S k)) nodes'
  end.

(** The city at a position of the ring, counted cyclically. *)
Definition city_at (s : state) (i : nat) : option string :=
  city_name <$> (ring_nodes s !! (i mod length (ring_nodes s))%nat).

(** The cities of the requests that add a clock, in their order; an
    [add_clock] on an identifier the zone database does not know adds
    none. *)
Definition added_cities (rs : list request) : list string :=
  omap (fun r =>
          match r with
          | AddClock city tzs _ =>
              match pytz_timezone tzs with
              | Some _ => Some city
              | None => None
              end
          | _ => None
          end) rs.

(** The same, with the empty string where there is no record. *)
Definition listed_city (s : state) (i : nat) : string :=
  default EmptyString (city_at s i).

(** The entry [get_list_structure] is to give for the record at position
    [i]. *)
Definition structure_row (s : state) (i : nat) : structure_entry :=
  mk_structure_entry (Z.of_nat i) (listed_city s i) (listed_city s (S i))
    (listed_city s (i + pred (clock_count s)))
    (bool_decide (i = 0%nat)).

(** Two states with the same ring: the same head, count and number of clock
    readings, the same records apart from the one at [a], and that one with
    its links and its city kept. *)
Definition same_ring_apart_from (a : addr) (s s' : state) : Prop :=
  head_clock s' = head_clock s /\ clock_count s' = clock_count s /\
  ticks s' = ticks s /\ length (heap s') = length (heap s) /\
  (forall b, b <> a -> heap s' !! b = heap s !! b) /\
  next_of s' (Some a) = next_of s (Some a) /\
  previous_of s' (Some a) = previous_of s (Some a) /\
  city_of s' (Some a) = city_of s (Some a).

(** *** The views of the Flask application

    The module holds the registry [clock_list] and the cursor of the
    carousel, [current_clock_index]. *)
Record app : Type := mk_app
  { clock_list : state;
    current_clock_index : Z }.

(** [datetime.now().isoformat()] at the k-th reading of the system clock. *)
Variable isoformat_now : nat -> string.

Definition timestamp : M string := fun s =>
  (Ok (isoformat_now (ticks s)),
   mk_state (heap s) (head_clock s) (clock_count s) (S (ticks s))).

(** A view returns, or an exception escapes it: one of the engine, or the
    [ZeroDivisionError] of [%]. *)
Inductive escaped : Set :=
| Raised (e : exn)
| ZeroDivisionError.

Inductive outcome (A : Type) : Type :=
| Return (a : A)
| Escape (e : escaped).
#[global] Arguments Return {A} a.
#[global] Arguments Escape {A} e.

Definition V (A : Type) : Type := app -> outcome A * app.

#[local] Instance V_ret : MRet V := fun _ a ap => (Return a, ap).
#[local] Instance V_bind : MBind V := fun _ _ f m ap =>
  match m ap with
  | (Return a, ap') => f a ap'
  | (Escape e, ap') => (Escape e, ap')
  end.

(** A call on [clock_list] or on one of its records. *)
Definition on_clock_list {A} (m : M A) : V A := fun ap =>
  match m (clock_list ap) with
  | (Ok a, s) => (Return a, mk_app s (current_clock_index ap))
  | (Raise e, s) => (Escape (Raised e), mk_app s (current_clock_index ap))
  end.

Definition get_index : V Z := fun ap => (Return (current_clock_index ap), ap).

Definition set_index (v : Z) : V unit := fun ap =>
  (Return tt, mk_app (clock_list ap) v).

(** [a % n] on ints, for a count [n]. *)
Definition py_mod (a : Z) (n : nat) : V Z := fun ap =>
  match n with
  | O => (Escape ZeroDivisionError, ap)
  | S _ => (Return (a mod Z.of_nat n), ap)
  end.

(** What a view answers: [jsonify(body)], with status 200, or
    [jsonify({'error': error}), status]. *)
Inductive response (A : Type) : Type :=
| Json (body : A)
| JsonError (error : string) (status : Z).
#[global] Arguments Json {A} body.
#[global] Arguments JsonError {A} error status.

Definition theme_of (is_day : bool) : string :=
  if is_day then "day" else "night".

Record clocks_body : Type := mk_clocks_body
  { cb_clocks : list clock_data;
    cb_theme : string;
    cb_timestamp : string }.

Definition get_clocks : V (response clocks_body) :=
  clocks_data ← on_clock_list get_all_clocks_data;
  theme ← on_clock_list get_dominant_theme;
  ts ← on_clock_list timestamp;
  mret (Json (mk_clocks_body clocks_data theme ts)).

(** The body of the three views of the carousel; [kb_direction] is [None]
    where the body has no such entry. *)
Record clock_body : Type := mk_clock_body
  { kb_clock : clock_data;
    kb_theme : string;
    kb_index : Z;
    kb_total : nat;
    kb_direction : option string;
    kb_timestamp : string }.

Definition get_current_clock : V (response clock_body) :=
  index ← get_index;
  current_clock ← on_clock_list (get_clock_at_index index);
  match current_clock with
  | None => mret (JsonError "No clocks available" 404)
  | Some current_clock =>
      clock_data ← on_clock_list (get_clock_data current_clock);
      is_day ← on_clock_list (is_daytime current_clock);
      index ← get_index;
      total ← on_clock_list get_count;
      ts ← on_clock_list timestamp;
      mret (Json (mk_clock_body clock_data (theme_of is_day) index total
                    None ts))
  end.

Definition get_next_clock : V (response clock_body) :=
  index ← get_index;
  current_clock ← on_clock_list (get_clock_at_index index);
  match current_clock with
  | None => mret (JsonError "No clocks available" 404)
  | Some current_clock =>
      index ← get_index;
      count ← on_clock_list get_count;
      index ← py_mod (index + 1) count;
      set_index index;;
      c ← on_clock_list (deref current_clock);
      next ← on_clock_list (as_object (next_clock c));
      clock_data ← on_clock_list (get_clock_data next);
      is_day ← on_clock_list (is_daytime next);
      index ← get_index;
      total ← on_clock_list get_count;
      ts ← on_clock_list timestamp;
      mret (Json (mk_clock_body clock_data (theme_of is_day) index total
                    (Some "next"%string) ts))
  end.

Definition get_previous_clock : V (response clock_body) :=
  index ← get_index;
  current_clock ← on_clock_list (get_clock_at_index index);
  match current_clock with
  | None => mret (JsonError "No clocks available" 404)
  | Some current_clock =>
      index ← get_index;
      count ← on_clock_list get_count;
      index ← py_mod (index - 1) count;
      set_index index;;
      c ← on_clock_list (deref current_clock);
      previous ← on_clock_list (as_object (previous_clock c));
      clock_data ← on_clock_list (get_clock_data previous);
      is_day ← on_clock_list (is_daytime previous);
      index ← get_index;
      total ← on_clock_list get_count;
      ts ← on_clock_list timestamp;
      mret (Json (mk_clock_body clock_data (theme_of is_day) index total
                    (Some "previous"%string) ts))
  end.

Record update_body : Type := mk_update_body
  { ub_success : bool;
    ub_clock : clock_data;
    ub_theme : string;
    ub_message : string }.

(** The two POST views.  The body of the request is a JSON object; an
    argument is the integer of the entry of that name, [None] when the
    object has no such entry. *)
Definition update_clock_time (index hours minutes : option Z)
  : V (response update_body) :=
  current ← get_index;
  let clock_index := default current index in
  let hours_offset := default 0 hours in
  let minutes_offset := default 0 minutes in
  clock ← on_clock_list (get_clock_at_index clock_index);
  match clock with
  | None => mret (JsonError "Invalid clock index" 400)
  | Some clock =>
      on_clock_list (set_time_offset clock hours_offset minutes_offset);;
      clock_data ← on_clock_list (get_clock_data clock);
      is_day ← on_clock_list (is_daytime clock);
      c ← on_clock_list (deref clock);
      mret (Json (mk_update_body true clock_data (theme_of is_day)
                    ("Time updated for " +:+ city_name c)))
  end.

Definition reset_clock_time (index : option Z) : V (response update_body) :=
  current ← get_index;
  let clock_index := default current index in
  clock ← on_clock_list (get_clock_at_index clock_index);
  match clock with
  | None => mret (JsonError "Invalid clock index" 400)
  | Some clock =>
      on_clock_list (reset_time_offset clock);;
      clock_data ← on_clock_list (get_clock_data clock);
      is_day ← on_clock_list (is_daytime clock);
      c ← on_clock_list (deref clock);
      mret (Json (mk_update_body true clock_data (theme_of is_day)
                    ("Time reset for " +:+ city_name c)))
  end.

(** The views with query arguments.  [request.args.get(name, type=int,
    default=d)] is the integer the argument reads as, and [d] when the
    argument is missing or is no integer: an argument is [None] then. *)
Definition compare_timezones (clock1 clock2 : option Z)
  : V (response time_difference) :=
  let index1 := default 0 clock1 in
  let index2 := default 1 clock2 in
  comparison ← on_clock_list (calculate_time_difference index1 index2);
  match comparison with
  | Some comparison => mret (Json comparison)
  | None => mret (JsonError "Invalid clock indices" 400)
  end.

Record meeting_body : Type := mk_meeting_body
  { optimal_times : list meeting_option;
    total_options : nat }.

Definition get_meeting_times (start_arg end_arg : option Z)
  : V (response meeting_body) :=
  let start_hour := default 9 start_arg in
  let end_hour := default 17 end_arg in
  meeting_times ← on_clock_list
    (find_optimal_meeting_time start_hour end_hour);
  mret (Json (mk_meeting_body meeting_times (length meeting_times))).

Record structure_body : Type := mk_structure_body
  { sb_structure : list structure_entry;
    total_nodes : nat;
    data_structure : string }.

Definition get_structure : V (response structure_body) :=
  structure ← on_clock_list get_list_structure;
  total ← on_clock_list get_count;
  mret (Json (mk_structure_body structure total
                "Doubly Circular Linked List")).

(** The requests the application serves with these views, and the
    application after a sequence of them, started with the registry built
    by [rs] and the cursor at 0. *)
Inductive http_request : Set :=
| GetClocks
| GetCurrentClock
| GetNextClock
| GetPreviousClock
| UpdateClockTime (index hours minutes : option Z)
| ResetClockTime (index : option Z)
| CompareTimezones (clock1 clock2 : option Z)
| GetMeetingTimes (start_arg end_arg : option Z)
| GetStructure.

Definition serve (r : http_request) (ap : app) : app :=
  match r with
  | GetClocks => snd (get_clocks ap)
  | GetCurrentClock => snd (get_current_clock ap)
  | GetNextClock => snd (get_next_clock ap)
  | GetPreviousClock => snd (get_previous_clock ap)
  | UpdateClockTime index hours minutes =>
      snd (update_clock_time index hours minutes ap)
  | ResetClockTime index => snd (reset_clock_time index ap)
  | CompareTimezones clock1 clock2 => snd (compare_timezones clock1 clock2 ap)
  | GetMeetingTimes start_arg end_arg =>
      snd (get_meeting_times start_arg end_arg ap)
  | GetStructure => snd (get_structure ap)
  end.

Definition served (rs : list request) (k : nat) (hs : list http_request)
  : app :=
  fold_left (fun ap h => serve h ap) hs (mk_app (registry rs k) 0).

(** A call that only reads: whether it returns or raises, it leaves the
    state as it was apart from the number of readings of the system
    clock. *)
Definition reads {A} (m : M A) : Prop :=
  forall s, exists j, snd (m s) = advance j s.

(** The same of a view, which then leaves the cursor where it was too. *)
Definition observes {A} (v : V A) : Prop :=
  forall ap, exists j,
    snd (v ap) = mk_app (advance j (clock_list ap)) (current_clock_index ap).

(** A sample [isoformat]: the readings of [sample_now] in UTC. *)
Definition sample_isoformat (k : nat) : string :=
  "2025-12-16T14:00:" +:+ two_digits (Z.of_nat k mod 60).
(** * Properties *)

(** ** The ring invariant

    [add_clock] keeps the registry linked, and only adds to what the
    existing records carry. *)

Lemma linked_init k : linked (CircularClockList_init k).
Proof.
  split; [done|]. split; [done|]. intros a c H. by destruct a.
Qed.

Lemma add_clock_unknown city tzs image s :
  pytz_timezone tzs = None →
  add_clock city tzs image s = (Raise UnknownTimeZoneError, s).
Proof.
  intros H. unfold add_clock, ClockNode_init, mbind, M_bind. rewrite H. done.
Qed.

Lemma lookup_alter_Some {A} (f : A → A) (i j : nat) (l : list A) (y : A) :
  alter f i l !! j = Some y →
  ∃ x, l !! j = Some x ∧ y = (if decide (i = j) then f x else x).
Proof.
  rewrite list_lookup_alter. case_decide as H; [subst j|].
  - destruct (l !! i) as [x|]; [|done]. intros [= <-]. by exists x.
  - intros Hy. by exists y.
Qed.

Lemma add_clock_linked city tzs image tz s :
  pytz_timezone tzs = Some tz → linked s →
  ∃ s', add_clock city tzs image s = (Ok tt, s') ∧ linked s' ∧
    ticks s' = ticks s ∧ length (heap s') = S (length (heap s)) ∧
    (∀ a c, heap s !! a = Some c →
       ∃ c', heap s' !! a = Some c' ∧ same_data c c') ∧
    (∃ c', heap s' !! length (heap s) = Some c' ∧
       same_data
         (mk_ClockNode city tzs tz image None None timedelta_zero false) c').
Proof.
  intros Htz (Hc & Hh & Hl).
  unfold add_clock, ClockNode_init, mbind, M_bind. rewrite Htz.
  destruct s as [hp hd cnt tk]. simpl in *.
  destruct (decide (length hp = 0%nat)) as [Hn|Hn].
  - subst hd. apply nil_length_inv in Hn. subst hp. simpl.
    eexists. split; [reflexivity|]. simpl.
    split; [|split; [done|split;[done|split]]].
    + split; [by subst|]. split; [done|]. intros [|a] c H; [|done].
      simpl in H. by inversion H.
    + by intros [|a] c H.
    + eexists. split; [done|]. done.
  - subst hd. simpl.
    destruct (lookup_lt_is_Some_2 hp 0%nat) as [h Hh]; [lia|].
    unfold getattr, setattr, as_object, deref, mbind, M_bind, mret, M_ret.
    simpl. rewrite lookup_app_l by lia. rewrite Hh. simpl.
    destruct (Hl 0%nat h Hh) as [_ Hp]. rewrite Hp. simpl.
    eexists. split; [reflexivity|]. simpl.
    set (new := mk_ClockNode city tzs tz image None None timedelta_zero false).
    set (n := length hp) in *.
    assert (Hlen : length (hp ++ [new]) = S n)
      by (rewrite length_app; simpl; lia).
    assert (Hnew : (hp ++ [new]) !! n = Some new).
    { rewrite lookup_app_r by done. by rewrite Nat.sub_diag. }
    assert (Hold : ∀ a, (a < n)%nat → (hp ++ [new]) !! a = hp !! a).
    { intros a Ha. by apply lookup_app_l. }
    replace (pred_in n 0) with (pred n) by done.
    match goal with |- context [mk_state ?l _ _ _] => set (hp' := l) end.
    assert (Hlen' : length hp' = S n)
      by (unfold hp'; by rewrite !length_alter).
    assert (Hlk : ∀ a c', hp' !! a = Some c' →
      ∃ c0, (hp ++ [new]) !! a = Some c0 ∧ same_data c0 c' ∧
        next_clock c' = Some (succ_in (S n) a) ∧
        previous_clock c' = Some (pred_in (S n) a)).
    { intros a c' H.
      assert (Ha : (a < S n)%nat) by (apply lookup_lt_Some in H; lia).
      apply lookup_alter_Some in H as (c3 & H & ->).
      apply lookup_alter_Some in H as (c2 & H & ->).
      apply lookup_alter_Some in H as (c1 & H & ->).
      apply lookup_alter_Some in H as (c0 & H & ->).
      exists c0. split; [done|].
      destruct (decide (a = n)) as [->|Hne].
      - rewrite Hnew in H. injection H as <-.
        unfold succ_in, pred_in.
        repeat case_decide; try lia; split_and!; try done; f_equal/=; lia.
      - rewrite Hold in H by lia.
        destruct (Hl a c0 H) as [Hx Hy].
        unfold succ_in, pred_in in *.
        repeat case_decide; try lia; split_and!; try done;
          simpl; rewrite ?Hx, ?Hy; f_equal; lia. }
    clearbody hp'.
    split; [|split; [done|split; [done|split]]].
    + split; [simpl; lia|]. split; [simpl; by case_decide; [lia|]|].
      simpl. intros a c' H. rewrite Hlen'.
      by destruct (Hlk a c' H) as (? & ? & ? & ?).
    + intros a c H.
      assert (Ha : (a < n)%nat) by (by apply lookup_lt_Some in H).
      destruct (lookup_lt_is_Some_2 hp' a) as [c' Hc']; [lia|].
      exists c'. split; [done|].
      destruct (Hlk a c' Hc') as (c0 & H0 & Hd & _).
      rewrite Hold in H0 by done. by simplify_eq.
    + destruct (lookup_lt_is_Some_2 hp' n) as [c' Hc']; [lia|].
      exists c'. split; [done|].
      destruct (Hlk n c' Hc') as (c0 & H0 & Hd & _). by simplify_eq.
Qed.

(** Cyclic successor and predecessor. *)

Lemma succ_in_lt n a : (a < n)%nat → (succ_in n a < n)%nat.
Proof. unfold succ_in. case_decide; lia. Qed.

Lemma pred_in_lt n a : (a < n)%nat → (pred_in n a < n)%nat.
Proof. unfold pred_in. case_decide; lia. Qed.

Lemma pred_succ_in n a : (a < n)%nat → pred_in n (succ_in n a) = a.
Proof. unfold pred_in, succ_in. repeat case_decide; lia. Qed.

Lemma succ_pred_in n a : (a < n)%nat → succ_in n (pred_in n a) = a.
Proof. unfold pred_in, succ_in. repeat case_decide; lia. Qed.

Lemma iter_succ_in_lt n k a :
  (a < n)%nat → (Nat.iter k (succ_in n) a < n)%nat.
Proof. intros Ha. induction k; simpl; [done|]. by apply succ_in_lt. Qed.

Lemma iter_succ_in_small n k a :
  (a + k < n)%nat → Nat.iter k (succ_in n) a = (a + k)%nat.
Proof.
  induction k as [|k IH]; simpl; intros H; [lia|].
  rewrite IH by lia. unfold succ_in. case_decide; lia.
Qed.

(** [n] steps forward from any address lead back to it. *)
Lemma iter_succ_in_cycle n a :
  (a < n)%nat → Nat.iter n (succ_in n) a = a.
Proof.
  intros Ha.
  pose proof (Nat.iter_add a (S (n - a - 1)) (succ_in n) a) as E.
  replace (a + S (n - a - 1))%nat with n in E by lia. rewrite E. simpl.
  rewrite (iter_succ_in_small n (n - a - 1) a) by lia.
  unfold succ_in at 2. case_decide; [|lia].
  rewrite iter_succ_in_small by lia. lia.
Qed.

Lemma iter_pred_succ_in n k a :
  (a < n)%nat → Nat.iter k (pred_in n) (Nat.iter k (succ_in n) a) = a.
Proof.
  revert a. induction k as [|k IH]; intros a Ha; [done|].
  rewrite Nat.iter_succ_r. simpl. rewrite pred_succ_in.
  - by apply IH.
  - by apply iter_succ_in_lt.
Qed.

Lemma iter_pred_in_cycle n a :
  (a < n)%nat → Nat.iter n (pred_in n) a = a.
Proof.
  intros Ha. rewrite <- (iter_succ_in_cycle n a Ha) at 1.
  by apply iter_pred_succ_in.
Qed.

(** Links of a linked state. *)

Lemma linked_next_of s a :
  linked s → (a < length (heap s))%nat →
  next_of s (Some a) = Some (succ_in (length (heap s)) a).
Proof.
  intros (_ & _ & Hl) Ha. unfold next_of, node_at. simpl.
  destruct (lookup_lt_is_Some_2 (heap s) a Ha) as [c Hc].
  rewrite Hc. simpl. by destruct (Hl a c Hc).
Qed.

Lemma linked_previous_of s a :
  linked s → (a < length (heap s))%nat →
  previous_of s (Some a) = Some (pred_in (length (heap s)) a).
Proof.
  intros (_ & _ & Hl) Ha. unfold previous_of, node_at. simpl.
  destruct (lookup_lt_is_Some_2 (heap s) a Ha) as [c Hc].
  rewrite Hc. simpl. by destruct (Hl a c Hc).
Qed.

Lemma linked_iter_next s k a :
  linked s → (a < length (heap s))%nat →
  Nat.iter k (next_of s) (Some a)
  = Some (Nat.iter k (succ_in (length (heap s))) a).
Proof.
  intros Hs Ha. induction k as [|k IH]; [done|]. simpl. rewrite IH.
  apply linked_next_of; [done|]. by apply iter_succ_in_lt.
Qed.

Lemma iter_pred_in_lt n k a :
  (a < n)%nat → (Nat.iter k (pred_in n) a < n)%nat.
Proof. intros Ha. induction k; simpl; [done|]. by apply pred_in_lt. Qed.

Lemma linked_iter_previous s k a :
  linked s → (a < length (heap s))%nat →
  Nat.iter k (previous_of s) (Some a)
  = Some (Nat.iter k (pred_in (length (heap s))) a).
Proof.
  intros Hs Ha. induction k as [|k IH]; [done|]. simpl. rewrite IH.
  apply linked_previous_of; [done|]. by apply iter_pred_in_lt.
Qed.

(** The traversal from the head meets the addresses in order. *)
Lemma linked_traverse s fuel a :
  linked s → (a + fuel = length (heap s))%nat → (0 < fuel)%nat →
  traverse s fuel 0%nat a = seq a fuel.
Proof.
  intros Hs. revert a. induction fuel as [|fuel IH]; intros a Ha Hf; [lia|].
  simpl. rewrite linked_next_of by (done || lia).
  unfold succ_in. f_equal. simpl.
  destruct (decide (S a = length (heap s))) as [H1|H1].
  - rewrite decide_True by done. destruct fuel; [done|lia].
  - rewrite decide_False by lia. apply IH; lia.
Qed.

Lemma linked_ring_members s :
  linked s → ring_members s = seq 0 (length (heap s)).
Proof.
  intros Hs. unfold ring_members. destruct Hs as (Hc & Hh & Hl) eqn:E.
  rewrite Hh. clear E. case_decide as Hn.
  - by rewrite Hn.
  - apply linked_traverse; [done|lia|lia].
Qed.

(** [get_clock_at_index] on a linked registry. *)

Lemma index_loop_linked s k a :
  linked s → (a < length (heap s))%nat →
  index_loop k (Some a) s
  = (Ok (Some (Nat.iter k (succ_in (length (heap s))) a)), s).
Proof.
  intros Hs. revert a. induction k as [|k IH]; intros a Ha; [done|].
  destruct (lookup_lt_is_Some_2 (heap s) a Ha) as [c Hc].
  pose proof Hs as (H1 & H2 & Hl). destruct (Hl a c Hc) as [Hn _].
  cbn [index_loop]. unfold getattr, as_object, deref, mbind, M_bind, mret, M_ret.
  rewrite Hc, Hn. rewrite IH by (by apply succ_in_lt).
  by rewrite Nat.iter_succ_r.
Qed.

Lemma get_clock_at_index_linked s index :
  linked s →
  get_clock_at_index index s
  = (Ok (if bool_decide (0 <= index < Z.of_nat (clock_count s))
         then Some (Z.to_nat index) else None), s).
Proof.
  intros Hs. pose proof Hs as (Hc & Hh & Hl).
  unfold get_clock_at_index, get_head, get_count, mbind, M_bind. simpl.
  rewrite Hh, Hc. case_decide as Hn.
  - rewrite Hn. simpl. rewrite bool_decide_false by lia. done.
  - rewrite Z.geb_leb. simpl.
    destruct (Z.ltb_spec index 0); simpl.
    { rewrite bool_decide_false by lia. done. }
    destruct (Z.leb_spec (Z.of_nat (length (heap s))) index); simpl.
    { rewrite bool_decide_false by lia. done. }
    rewrite bool_decide_true by lia.
    rewrite index_loop_linked by (done || lia).
    rewrite iter_succ_in_small by lia. done.
Qed.

(** Offsets: what the two setters store. *)

Lemma set_time_offset_ok self hours minutes td s :
  timedelta_of hours minutes = Ok td →
  set_time_offset self hours minutes s
  = (Ok tt,
     mk_state
       (alter (with_is_modified (negb (hours =? 0) || negb (minutes =? 0)))
          self (alter (with_time_offset td) self (heap s)))
       (head_clock s) (clock_count s) (ticks s)).
Proof.
  intros H. unfold set_time_offset, lift, mbind, M_bind. by rewrite H.
Qed.

Lemma set_time_offset_raise self hours minutes e s :
  timedelta_of hours minutes = Raise e →
  set_time_offset self hours minutes s = (Raise e, s).
Proof.
  intros H. unfold set_time_offset, lift, mbind, M_bind. by rewrite H.
Qed.

Lemma reset_time_offset_ok self s :
  reset_time_offset self s
  = (Ok tt,
     mk_state
       (alter (with_is_modified false) self
          (alter (with_time_offset timedelta_zero) self (heap s)))
       (head_clock s) (clock_count s) (ticks s)).
Proof. done. Qed.

(** Changing what the nodes carry, by functions that keep their links,
    keeps the registry linked. *)
Lemma linked_alter s a f g :
  (∀ c, next_clock (f c) = next_clock c) →
  (∀ c, previous_clock (f c) = previous_clock c) →
  (∀ c, next_clock (g c) = next_clock c) →
  (∀ c, previous_clock (g c) = previous_clock c) →
  linked s →
  linked (mk_state (alter g a (alter f a (heap s)))
            (head_clock s) (clock_count s) (ticks s)).
Proof.
  intros Hf1 Hf2 Hg1 Hg2 (Hc & Hh & Hl).
  split; [|split]; simpl; rewrite !length_alter; [done..|].
  intros b c H.
  apply lookup_alter_Some in H as (c1 & H & ->).
  apply lookup_alter_Some in H as (c0 & H & ->).
  destruct (Hl b c0 H) as [Hx Hy].
  repeat case_decide; by rewrite ?Hg1, ?Hg2, ?Hf1, ?Hf2.
Qed.

Lemma handle_linked r s :
  linked s →
  linked (snd (handle r s)) ∧ ticks (snd (handle r s)) = ticks s.
Proof.
  intros Hs. destruct r as [city tzs image|index hours minutes|index]; simpl.
  - destruct (pytz_timezone tzs) as [tz|] eqn:Htz.
    + destruct (add_clock_linked city tzs image tz s Htz Hs)
        as (s' & -> & Hs' & Ht & _). done.
    + by rewrite add_clock_unknown.
  - unfold mbind, M_bind. rewrite get_clock_at_index_linked by done.
    case_bool_decide; [|done].
    destruct (timedelta_of hours minutes) as [td|e] eqn:Htd.
    + rewrite (set_time_offset_ok _ _ _ td) by done. simpl.
      split; [|done]. by apply linked_alter.
    + by rewrite (set_time_offset_raise _ _ _ e).
  - unfold mbind, M_bind. rewrite get_clock_at_index_linked by done.
    case_bool_decide; [|done]. rewrite reset_time_offset_ok. simpl.
    split; [|done]. by apply linked_alter.
Qed.

Lemma run_linked rs s :
  linked s → linked (run rs s) ∧ ticks (run rs s) = ticks s.
Proof.
  revert s. induction rs as [|r rs IH]; intros s Hs; [done|].
  simpl. destruct (handle_linked r s Hs) as [H1 H2].
  destruct (IH _ H1) as [H3 H4]. split; [done|]. by rewrite H4.
Qed.

(** Every registry the requests can build is linked. *)
Lemma registry_linked rs k : linked (registry rs k).
Proof. apply run_linked, linked_init. Qed.

Lemma registry_ticks rs k : ticks (registry rs k) = k.
Proof.
  unfold registry. by destruct (run_linked rs _ (linked_init k)) as [_ ->].
Qed.

(** C3.  Whatever requests built the registry: [clock_count] is the number
    of records linked into the ring, which are all the records created and
    are pairwise distinct; from any of them, following [next_clock]
    [clock_count] times leads back to it, and so does following
    [previous_clock] [clock_count] times; and the two links are inverse to
    each other at every record. *)
Theorem ring_circular_and_symmetric (rs : list request) (k : nat) :
  let s := registry rs k in
  (clock_count s = length (ring_members s) ∧
   NoDup (ring_members s) ∧
   ∀ a, is_Some (heap s !! a) ↔ a ∈ ring_members s) ∧
  ∀ a, a ∈ ring_members s →
    Nat.iter (clock_count s) (next_of s) (Some a) = Some a ∧
    Nat.iter (clock_count s) (previous_of s) (Some a) = Some a ∧
    previous_of s (next_of s (Some a)) = Some a ∧
    next_of s (previous_of s (Some a)) = Some a.
Proof.
  intros s. pose proof (registry_linked rs k) as Hs. fold s in Hs.
  pose proof Hs as (Hc & _ & _).
  rewrite (linked_ring_members s Hs). split.
  - split; [by rewrite length_seq|]. split; [apply NoDup_seq|].
    intros a. rewrite lookup_lt_is_Some, elem_of_seq. lia.
  - intros a Ha. apply elem_of_seq in Ha.
    assert (Hlt : (a < length (heap s))%nat) by lia.
    rewrite Hc. split_and!.
    + rewrite linked_iter_next by done. by rewrite iter_succ_in_cycle.
    + rewrite linked_iter_previous by done. by rewrite iter_pred_in_cycle.
    + rewrite linked_next_of by done.
      rewrite linked_previous_of by (done || by apply succ_in_lt).
      by rewrite pred_succ_in.
    + rewrite linked_previous_of by done.
      rewrite linked_next_of by (done || by apply pred_in_lt).
      by rewrite succ_pred_in.
Qed.

(** C7.  [get_clock_at_index] never raises on a registry built by the
    requests, whatever the integer: it returns [None] exactly when the index
    is negative, or at least [clock_count], or the ring is empty, and
    otherwise the record reached from the head by following [next_clock]
    [index] times; the state is left as it was. *)
Theorem get_clock_at_index_total (rs : list request) (k : nat) (index : Z) :
  let s := registry rs k in
  ∃ r, get_clock_at_index index s = (Ok r, s) ∧
    (r = None ↔
       index < 0 ∨ index >= Z.of_nat (clock_count s) ∨ head_clock s = None) ∧
    (r = None ∨
     (is_Some r ∧ r = Nat.iter (Z.to_nat index) (next_of s) (head_clock s))).
Proof.
  intros s. pose proof (registry_linked rs k) as Hs. fold s in Hs.
  pose proof Hs as (Hc & Hh & _).
  rewrite (get_clock_at_index_linked s index Hs).
  eexists. split; [done|]. case_bool_decide as Hi.
  - split.
    + split; [done|]. intros [?|[?|Hn]]; [lia..|].
      rewrite Hh in Hn. case_decide; [lia|done].
    + right. split; [done|]. rewrite Hh. rewrite decide_False by lia.
      rewrite linked_iter_next by (done || lia).
      rewrite iter_succ_in_small by lia. done.
  - split; [|by left]. split; [|done]. intros _.
    destruct (decide (index < 0)); [by left|]. right.
    destruct (decide (index >= Z.of_nat (clock_count s))); [by left|lia].
Qed.

(** A successful [add_clock], seen through the links and the city names. *)
Lemma add_clock_appends city tzs image tz s :
  pytz_timezone tzs = Some tz → linked s →
  ∃ s', add_clock city tzs image s = (Ok tt, s') ∧ linked s' ∧
    ticks s' = ticks s ∧ length (heap s') = S (length (heap s)) ∧
    city_of s' (Some (length (heap s))) = Some city ∧
    ∀ a, (a < length (heap s))%nat →
      city_of s' (Some a) = city_of s (Some a).
Proof.
  intros Htz Hs.
  destruct (add_clock_linked city tzs image tz s Htz Hs)
    as (s' & Hrun & Hs' & Ht & Hlen & Hold & (c' & Hc' & Hd)).
  exists s'. split_and!; try done.
  - unfold city_of, node_at. simpl. rewrite Hc'. simpl.
    by destruct Hd as (-> & _).
  - intros a Ha. destruct (lookup_lt_is_Some_2 (heap s) a Ha) as [c Hc].
    destruct (Hold a c Hc) as (c1 & Hc1 & Hd1).
    unfold city_of, node_at. simpl. rewrite Hc, Hc1. simpl.
    by destruct Hd1 as (-> & _).
Qed.

Lemma linked_count s : linked s → clock_count s = length (heap s).
Proof. by intros (? & _). Qed.

Lemma linked_head s :
  linked s →
  head_clock s = if decide (length (heap s) = 0%nat) then None else Some 0%nat.
Proof. by intros (_ & ? & _). Qed.

(** C8.  On an identifier the zone database does not know, [add_clock]
    raises and leaves the state, whatever it is, exactly as it was.  On a
    known one, called on a registry built by the requests, it returns with
    the new record added at the end of the ring, [clock_count] one higher,
    and the two links inverse to each other at every record of the ring,
    the new one included. *)
Theorem add_clock_all_or_nothing (rs : list request) (k : nat)
  (city tzs image : string) :
  match pytz_timezone tzs with
  | None =>
      ∀ s, add_clock city tzs image s = (Raise UnknownTimeZoneError, s)
  | Some _ =>
      let s := registry rs k in
      ∃ s', add_clock city tzs image s = (Ok tt, s') ∧
        ring_members s' = ring_members s ++ [length (heap s)] ∧
        clock_count s' = S (clock_count s) ∧
        ∀ a, a ∈ ring_members s' →
          previous_of s' (next_of s' (Some a)) = Some a ∧
          next_of s' (previous_of s' (Some a)) = Some a
  end.
Proof.
  destruct (pytz_timezone tzs) as [tz|] eqn:Htz.
  - intros s. pose proof (registry_linked rs k) as Hs. fold s in Hs.
    destruct (add_clock_linked city tzs image tz s Htz Hs)
      as (s' & Hrun & Hs' & Ht & Hlen & _).
    exists s'. split; [done|].
    rewrite (linked_ring_members s Hs), (linked_ring_members s' Hs').
    rewrite (linked_count s Hs), (linked_count s' Hs'), Hlen.
    split; [by rewrite seq_S|]. split; [done|].
    intros a Ha. apply elem_of_seq in Ha.
    assert (Hlt : (a < length (heap s'))%nat) by lia. split.
    + rewrite linked_next_of by done.
      rewrite linked_previous_of by (done || by apply succ_in_lt).
      by rewrite pred_succ_in.
    + rewrite linked_previous_of by done.
      rewrite linked_next_of by (done || by apply pred_in_lt).
      by rewrite succ_pred_in.
  - intros s. by apply add_clock_unknown.
Qed.

(** C9.  A successful [add_clock] on a registry built by the requests puts
    the new record just before the head, as the new tail: on an empty ring
    it becomes the head, linked to itself both ways; otherwise the head
    stays, the new record's [next_clock] is the head, the head's
    [previous_clock] is the new record, the former tail and the new record
    are linked to each other, and no other link changes.  [clock_count]
    grows by one.  So after "Colombia", "United Kingdom" and "China" are
    added in this order, the record at index 0 has "United Kingdom" next and
    "China" before it. *)
Theorem add_clock_inserts_before_head (rs : list request) (k : nat)
  (city tzs image : string) :
  (let s := registry rs k in
   let new := Some (length (heap s)) in
   match pytz_timezone tzs with
   | None => True
   | Some _ =>
       ∃ s', add_clock city tzs image s = (Ok tt, s') ∧
         city_of s' new = Some city ∧
         clock_count s' = S (clock_count s) ∧
         match head_clock s with
         | None =>
             head_clock s' = new ∧
             next_of s' new = new ∧ previous_of s' new = new
         | Some h =>
             let tail := previous_of s (Some h) in
             head_clock s' = Some h ∧
             next_of s' new = Some h ∧ previous_of s' (Some h) = new ∧
             previous_of s' new = tail ∧ next_of s' tail = new ∧
             ∀ a, a ∈ ring_members s →
               (Some a = tail ∨ next_of s' (Some a) = next_of s (Some a)) ∧
               (a = h ∨ previous_of s' (Some a) = previous_of s (Some a))
         end
   end) ∧
  ∀ tz1 tz2 tz3 image1 image2 image3,
    is_Some (pytz_timezone tz1) → is_Some (pytz_timezone tz2) →
    is_Some (pytz_timezone tz3) →
    let s := registry [AddClock "Colombia" tz1 image1;
                       AddClock "United Kingdom" tz2 image2;
                       AddClock "China" tz3 image3] k in
    ∃ first, get_clock_at_index 0 s = (Ok first, s) ∧ is_Some first ∧
      city_of s (next_of s first) = Some "United Kingdom"%string ∧
      city_of s (previous_of s first) = Some "China"%string.
Proof.
  split.
  - intros s new. destruct (pytz_timezone tzs) as [tz|] eqn:Htz; [|done].
    pose proof (registry_linked rs k) as Hs. fold s in Hs.
    destruct (add_clock_appends city tzs image tz s Htz Hs)
      as (s' & Hrun & Hs' & Ht & Hlen & Hcity & _).
    exists s'. split; [done|]. split; [done|].
    rewrite (linked_count s Hs), (linked_count s' Hs'). split; [done|].
    rewrite (linked_head s Hs), (linked_head s' Hs'), Hlen. subst new.
    destruct (decide (S (length (heap s)) = 0%nat)); [lia|].
    destruct (decide (length (heap s) = 0%nat)) as [Hn|Hn].
    + rewrite Hn. rewrite linked_next_of, linked_previous_of by (done || lia).
      by rewrite Hlen, Hn.
    + cbv zeta.
      rewrite (linked_previous_of s) by (done || lia).
      replace (pred_in (length (heap s)) 0) with (pred (length (heap s)))
        by done.
      rewrite !(linked_next_of s'), !(linked_previous_of s')
        by (done || lia).
      rewrite Hlen. unfold succ_in, pred_in.
      split_and!; try done; repeat case_decide; try lia;
        try done; try (f_equal; lia).
      intros a Ha. rewrite (linked_ring_members s Hs) in Ha.
      apply elem_of_seq in Ha.
      rewrite linked_next_of, linked_previous_of by (done || lia).
      rewrite linked_next_of, linked_previous_of by (done || lia).
      rewrite Hlen. unfold succ_in, pred_in. split.
      * destruct (decide (a = pred (length (heap s)))) as [->|Hne];
          [by left|right].
        repeat case_decide; try lia; done.
      * destruct (decide (a = 0%nat)) as [->|Hne]; [by left|right].
        repeat case_decide; try lia; done.
  - intros tz1 tz2 tz3 image1 image2 image3 [z1 H1] [z2 H2] [z3 H3] s.
    pose proof (registry_linked
      [AddClock "Colombia" tz1 image1; AddClock "United Kingdom" tz2 image2;
       AddClock "China" tz3 image3] k) as Hs. fold s in Hs.
    assert (Hlen : length (heap s) = 3%nat ∧
                   city_of s (Some 1%nat) = Some "United Kingdom"%string ∧
                   city_of s (Some 2%nat) = Some "China"%string).
    { subst s. unfold registry, run. simpl.
      destruct (add_clock_appends "Colombia" tz1 image1 z1
                  (CircularClockList_init k) H1 (linked_init k))
        as (s1 & -> & Hs1 & _ & Hl1 & _ & _). simpl in *.
      destruct (add_clock_appends "United Kingdom" tz2 image2 z2 s1 H2 Hs1)
        as (s2 & -> & Hs2 & _ & Hl2 & Hc2 & _). simpl in *.
      destruct (add_clock_appends "China" tz3 image3 z3 s2 H3 Hs2)
        as (s3 & -> & Hs3 & _ & Hl3 & Hc3 & Ho3). simpl in *.
      rewrite Hl3, Hl2, Hl1. split; [done|]. rewrite Hl2, Hl1 in Hc3.
      split; [|done]. rewrite Ho3 by lia. by rewrite Hl1 in Hc2. }
    destruct Hlen as (Hlen & Hc1 & Hc2).
    rewrite (get_clock_at_index_linked s 0 Hs).
    rewrite (linked_count s Hs), Hlen. simpl.
    eexists. split; [done|]. split; [done|].
    rewrite linked_next_of, linked_previous_of by (done || lia).
    by rewrite Hlen.
Qed.

(** ** Offsets *)

(** Durations. *)

Lemma timedelta_of_total hours minutes td :
  timedelta_of hours minutes = Ok td →
  total_seconds td = hours * 3600 + minutes * 60.
Proof.
  unfold timedelta_of. case_match; [done|]. intros [= <-].
  unfold total_seconds. simpl.
  pose proof (Z.div_mod (hours * 3600 + minutes * 60) 86400). lia.
Qed.

Lemma timedelta_of_zero : timedelta_of 0 0 = Ok timedelta_zero.
Proof. done. Qed.

Lemma timedelta_of_nonzero hours minutes td :
  timedelta_of hours minutes = Ok td → td ≠ timedelta_zero →
  negb (hours =? 0) || negb (minutes =? 0) = true.
Proof.
  intros H Hne. destruct (Z.eqb_spec hours 0) as [->|]; [|done].
  destruct (Z.eqb_spec minutes 0) as [->|]; [|done].
  rewrite timedelta_of_zero in H. by injection H as <-.
Qed.

(** The doubles of [total_seconds] are exact: a stored duration has fewer
    than 2^53 seconds. *)
Lemma total_seconds_exact_range hours minutes td :
  timedelta_of hours minutes = Ok td → Z.abs (total_seconds td) < 2 ^ 53.
Proof.
  unfold timedelta_of, MAX_DELTA_DAYS.
  destruct (Z.gtb_spec (Z.abs ((hours * 3600 + minutes * 60) / 86400))
              999999999) as [|Hd]; [done|].
  intros [= <-]. unfold total_seconds. simpl.
  pose proof (Z.mod_pos_bound (hours * 3600 + minutes * 60) 86400).
  change (2 ^ 53) with 9007199254740992. lia.
Qed.

Lemma handle_offsets r s :
  linked s →
  (∀ a c, heap s !! a = Some c → offset_from_arguments c) →
  ∀ a c, heap (snd (handle r s)) !! a = Some c → offset_from_arguments c.
Proof.
  intros Hs Hf. destruct r as [city tzs image|index hours minutes|index];
    simpl.
  - destruct (pytz_timezone tzs) as [tz|] eqn:Htz.
    + destruct (add_clock_linked city tzs image tz s Htz Hs)
        as (s' & -> & Hs' & Ht & Hlen & Hold & (cn & Hcn & Hdn)). simpl.
      intros a c Hc.
      assert (Ha : (a < S (length (heap s)))%nat)
        by (apply lookup_lt_Some in Hc; lia).
      destruct (decide (a = length (heap s))) as [->|Hne].
      * rewrite Hcn in Hc. injection Hc as <-.
        destruct Hdn as (_ & _ & _ & _ & Ho & Hm). simpl in Ho, Hm.
        exists 0, 0. by rewrite Ho, Hm.
      * destruct (lookup_lt_is_Some_2 (heap s) a) as [c0 Hc0]; [lia|].
        destruct (Hold a c0 Hc0) as (c1 & Hc1 & Hd).
        rewrite Hc1 in Hc. injection Hc as <-.
        destruct Hd as (_ & _ & _ & _ & Ho & Hm).
        unfold offset_from_arguments. rewrite Ho, Hm. by apply (Hf a).
    + by rewrite add_clock_unknown.
  - unfold mbind, M_bind. rewrite get_clock_at_index_linked by done.
    case_bool_decide; [|done].
    destruct (timedelta_of hours minutes) as [td|e] eqn:Htd.
    + rewrite (set_time_offset_ok _ _ _ td) by done. simpl.
      intros a c Hc.
      apply lookup_alter_Some in Hc as (c1 & Hc & ->).
      apply lookup_alter_Some in Hc as (c0 & Hc & ->).
      case_decide; [subst a|by apply (Hf a)].
      by exists hours, minutes.
    + by rewrite (set_time_offset_raise _ _ _ e).
  - unfold mbind, M_bind. rewrite get_clock_at_index_linked by done.
    case_bool_decide; [|done]. rewrite reset_time_offset_ok. simpl.
    intros a c Hc.
    apply lookup_alter_Some in Hc as (c1 & Hc & ->).
    apply lookup_alter_Some in Hc as (c0 & Hc & ->).
    case_decide; [subst a|by apply (Hf a)].
    by exists 0, 0.
Qed.

Lemma run_offsets rs s :
  linked s →
  (∀ a c, heap s !! a = Some c → offset_from_arguments c) →
  ∀ a c, heap (run rs s) !! a = Some c → offset_from_arguments c.
Proof.
  revert s. induction rs as [|r rs IH]; intros s Hs Hf; [done|].
  simpl. apply IH.
  - by apply handle_linked.
  - by apply handle_offsets.
Qed.

(** Every offset of a registry built by the requests was stored by a call. *)
Lemma registry_offsets rs k a c :
  heap (registry rs k) !! a = Some c → offset_from_arguments c.
Proof.
  apply (run_offsets rs (CircularClockList_init k) (linked_init k)).
  by intros [|?] ? ?.
Qed.

(** C2, amended.  In a registry built by any sequence of additions and of
    [set_time_offset] and [reset_time_offset] calls, a record with a
    non-zero offset has [is_modified] true, so a record with [is_modified]
    false has a zero offset.  [set_time_offset hours minutes] on a record
    either raises, for a duration beyond the range of [timedelta], and
    leaves the state as it was, or stores the duration of
    [hours * 3600 + minutes * 60] seconds and sets [is_modified] to
    [hours != 0 or minutes != 0]; [reset_time_offset] stores the zero
    duration and [is_modified] false. *)
Theorem is_modified_tracks_arguments (rs : list request) (k : nat)
  (a : addr) (c : ClockNode) (hours minutes : Z) :
  let s := registry rs k in
  heap s !! a = Some c →
  (time_offset c ≠ timedelta_zero → is_modified c = true) ∧
  match timedelta_of hours minutes with
  | Ok td =>
      ∃ s' c', set_time_offset a hours minutes s = (Ok tt, s') ∧
        heap s' !! a = Some c' ∧
        time_offset c' = td ∧
        total_seconds td = hours * 3600 + minutes * 60 ∧
        is_modified c' = negb (hours =? 0) || negb (minutes =? 0)
  | Raise e => set_time_offset a hours minutes s = (Raise e, s)
  end ∧
  ∃ s' c', reset_time_offset a s = (Ok tt, s') ∧
    heap s' !! a = Some c' ∧
    time_offset c' = timedelta_zero ∧ is_modified c' = false.
Proof.
  intros s Hc. split_and!.
  - destruct (registry_offsets rs k a c Hc) as (h & m & Htd & ->).
    by apply timedelta_of_nonzero.
  - destruct (timedelta_of hours minutes) as [td|e] eqn:Htd.
    + rewrite (set_time_offset_ok _ _ _ td) by done.
      eexists _, _. split; [done|]. simpl.
      rewrite !list_lookup_alter, !decide_True by done. rewrite Hc. simpl.
      split; [done|]. split; [done|]. split; [|done].
      by apply timedelta_of_total.
    + by apply set_time_offset_raise.
  - rewrite reset_time_offset_ok. eexists _, _. split; [done|]. simpl.
    rewrite !list_lookup_alter, !decide_True by done. rewrite Hc. done.
Qed.

(** ** The analytics *)

(** Reading the clock of a record. *)

Lemma advance_0 s : advance 0 s = s.
Proof. destruct s. unfold advance. simpl. by rewrite Nat.add_0_r. Qed.

Lemma advance_advance m m' s :
  advance m' (advance m s) = advance (m + m') s.
Proof. unfold advance. simpl. by rewrite Nat.add_assoc. Qed.

Lemma linked_advance m s : linked s → linked (advance m s).
Proof. done. Qed.

Lemma in_time_spec k n s :
  in_time k n s = true ↔
  ∀ j a c, (k <= j < k + n)%nat → heap s !! a = Some c → on_time j c = true.
Proof.
  unfold in_time. rewrite forallb_forall. split.
  - intros H j a c Hj Hc.
    specialize (H j ltac:(apply in_seq; lia)).
    rewrite forallb_forall in H. apply H.
    apply list_elem_of_In, list_elem_of_lookup. by exists a.
  - intros H j Hj. apply in_seq in Hj. apply forallb_forall. intros c Hc.
    apply list_elem_of_In, list_elem_of_lookup in Hc as [a Hc].
    apply (H j a c); [lia|done].
Qed.

Lemma in_time_weaken k n k' n' s :
  in_time k n s = true → (k <= k')%nat → (k' + n' <= k + n)%nat →
  in_time k' n' s = true.
Proof.
  rewrite !in_time_spec. intros H Hk Hn j a c Hj. apply H. lia.
Qed.

Lemma in_time_head k n s a c :
  in_time k (S n) s = true → heap s !! a = Some c → on_time k c = true.
Proof. rewrite in_time_spec. intros H. apply H. lia. Qed.

Lemma in_time_tail k n s :
  in_time k (S n) s = true → in_time (S k) n s = true.
Proof. intros H. apply (in_time_weaken k (S n)); [done|lia..]. Qed.

Lemma readable_spec k n c :
  readable k n c = true ↔ ∀ j, (k <= j < k + n)%nat → on_time j c = true.
Proof.
  unfold readable. rewrite forallb_forall. split.
  - intros H j Hj. apply H, in_seq. lia.
  - intros H j Hj. apply in_seq in Hj. apply H. lia.
Qed.


Lemma readable_snoc k n c :
  readable k (S n) c = readable k n c && on_time (k + n) c.
Proof.
  unfold readable. rewrite seq_S, forallb_app. cbn [forallb].
  by rewrite andb_true_r.
Qed.

Lemma readable_3 k c :
  readable k 3 c = on_time k c && (on_time (S k) c && on_time (k + 2) c).
Proof.
  unfold readable. cbn [seq forallb]. rewrite andb_true_r.
  by replace (k + 2)%nat with (S (S k)) by lia.
Qed.

Lemma readable_cons k n c :
  readable k (S n) c = on_time k c && readable (S k) n c.
Proof. done. Qed.

(** The time of the zone itself is always in range. *)
Lemma on_time_zero_offset k c :
  time_offset c = timedelta_zero → on_time k c = true.
Proof.
  intros E. unfold on_time, reading, Datetime.shift. rewrite E.
  cbn [Datetime.wall]. change (total_seconds timedelta_zero) with 0.
  rewrite Z.add_0_r. unfold datetime_now.
  apply (proj2_sig (system_clock k (timezone c))).
Qed.

Lemma readable_zero_offset k n c :
  time_offset c = timedelta_zero → readable k n c = true.
Proof.
  intros E. apply readable_spec. intros j _. by apply on_time_zero_offset.
Qed.

Lemma get_current_time_at s a c :
  heap s !! a = Some c →
  get_current_time a s
  = (Datetime.add (datetime_now (ticks s) (timezone c)) (time_offset c),
     advance 1 s).
Proof.
  intros H. unfold get_current_time, deref, now, mbind, M_bind, advance, lift.
  rewrite H. simpl. by rewrite Nat.add_1_r.
Qed.

Lemma get_current_time_reading s a c :
  heap s !! a = Some c → on_time (ticks s) c = true →
  get_current_time a s = (Ok (reading (ticks s) c), advance 1 s).
Proof.
  intros H Ht. rewrite (get_current_time_at s a c H).
  unfold Datetime.add. fold (reading (ticks s) c).
  unfold on_time in Ht. by rewrite Ht.
Qed.

Lemma get_current_time_overflow s a c :
  heap s !! a = Some c → on_time (ticks s) c = false →
  get_current_time a s = (Raise OverflowError, advance 1 s).
Proof.
  intros H Ht. rewrite (get_current_time_at s a c H).
  unfold Datetime.add. fold (reading (ticks s) c).
  unfold on_time in Ht. by rewrite Ht.
Qed.

Lemma is_daytime_reading s a c :
  heap s !! a = Some c → on_time (ticks s) c = true →
  is_daytime a s = (Ok (daytime (reading (ticks s) c)), advance 1 s).
Proof.
  intros Hc Ht. unfold is_daytime, mbind, M_bind.
  by rewrite (get_current_time_reading s a c Hc Ht).
Qed.

Lemma is_daytime_overflow s a c :
  heap s !! a = Some c → on_time (ticks s) c = false →
  is_daytime a s = (Raise OverflowError, advance 1 s).
Proof.
  intros Hc Ht. unfold is_daytime, mbind, M_bind.
  by rewrite (get_current_time_overflow s a c Hc Ht).
Qed.

Lemma get_current_time_run s a c :
  heap s !! a = Some c →
  get_current_time a s
  = (if on_time (ticks s) c then Ok (reading (ticks s) c)
     else Raise OverflowError, advance 1 s).
Proof.
  intros Hc. destruct (on_time (ticks s) c) eqn:E.
  - by apply (get_current_time_reading s a c).
  - by apply (get_current_time_overflow s a c).
Qed.

Lemma is_daytime_run s a c :
  heap s !! a = Some c →
  is_daytime a s
  = (if on_time (ticks s) c then Ok (daytime (reading (ticks s) c))
     else Raise OverflowError, advance 1 s).
Proof.
  intros Hc. destruct (on_time (ticks s) c) eqn:E.
  - by apply (is_daytime_reading s a c).
  - by apply (is_daytime_overflow s a c).
Qed.

(** The nodes at the addresses [a .. a+m-1]. *)
Lemma omap_lookup_seq {A} (l : list A) a m :
  (a + m <= length l)%nat →
  omap (fun i => l !! i) (seq a m) = take m (drop a l).
Proof.
  revert a. induction m as [|m IH]; intros a Ha; [done|].
  destruct (lookup_lt_is_Some_2 l a) as [x Hx]; [lia|].
  simpl. rewrite Hx. rewrite (drop_S l x a Hx). simpl. f_equal.
  apply IH. lia.
Qed.

Lemma linked_ring_nodes s : linked s → ring_nodes s = heap s.
Proof.
  intros Hs. unfold ring_nodes. rewrite (linked_ring_members s Hs).
  rewrite omap_lookup_seq by lia. rewrite drop_0. by apply firstn_all.
Qed.

Lemma theme_loop_linked s m a d :
  linked s → (a + m <= length (heap s))%nat →
  in_time (ticks s) m s = true →
  theme_loop m (Some a) d s
  = (Ok (d + count_daytime (ticks s) (take m (drop a (heap s))))%nat,
     advance m s).
Proof.
  intros Hs. revert s a d Hs.
  induction m as [|m IH]; intros s a d Hs Ha Ht.
  - simpl. by rewrite advance_0, Nat.add_0_r.
  - destruct (lookup_lt_is_Some_2 (heap s) a) as [c Hc]; [lia|].
    pose proof (in_time_head _ _ _ _ _ Ht Hc) as Hon.
    apply in_time_tail in Ht.
    cbn [theme_loop]. unfold as_object, mbind, M_bind, mret, M_ret.
    rewrite (is_daytime_reading s a c Hc Hon).
    unfold deref. simpl. rewrite Hc.
    pose proof Hs as (_ & _ & Hl). destruct (Hl a c Hc) as [-> _].
    rewrite (drop_S _ c a Hc). simpl.
    destruct m as [|m].
    + simpl. rewrite Nat.add_0_r.
      by destruct (daytime (reading (ticks s) c));
        rewrite ?Nat.add_1_r, ?Nat.add_0_r.
    + unfold succ_in. rewrite decide_False by lia.
      rewrite IH;
        [|done|simpl; lia|by cbn [advance ticks]; rewrite Nat.add_1_r].
      rewrite advance_advance. simpl. rewrite Nat.add_1_r.
      f_equal. f_equal.
      destruct (daytime (reading (ticks s) c)); lia.
Qed.

Lemma get_dominant_theme_linked s :
  linked s → in_time (ticks s) (clock_count s) s = true →
  fst (get_dominant_theme s)
  = Ok (if at_least_half (daytime_count s) (clock_count s)
        then "day" else "night")%string.
Proof.
  intros Hs Ht.
  unfold get_dominant_theme, get_head, get_count, mbind, M_bind.
  unfold daytime_count. rewrite (linked_ring_nodes s Hs).
  rewrite (linked_head s Hs).
  pose proof (linked_count s Hs) as Hc.
  case_decide as Hn.
  - rewrite Hc. apply nil_length_inv in Hn. by rewrite Hn.
  - rewrite theme_loop_linked by (done || lia). simpl.
    by rewrite Hc, drop_0, firstn_all.
Qed.



(** The time of day after a substitution. *)

Lemma hour_at_time t h :
  0 <= h < 24 → Datetime.hour (Datetime.at_time t h 0 0) = h.
Proof.
  intros Hh. unfold Datetime.hour, Datetime.at_time. simpl.
  replace (86400 * (Datetime.wall t / 86400) + 3600 * h + 60 * 0 + 0)
    with ((24 * (Datetime.wall t / 86400) + h) * 3600) by lia.
  rewrite Z.div_mul by lia.
  rewrite Z.add_comm, Z.mul_comm, Z.mod_add by lia.
  by apply Z.mod_small.
Qed.

Lemma replace_hour t h :
  0 <= h < 24 → Datetime.replace t h 0 0 = Ok (Datetime.at_time t h 0 0).
Proof.
  intros Hh. unfold Datetime.replace.
  destruct (Z.leb_spec 0 h); [|lia]. destruct (Z.ltb_spec h 24); [|lia].
  done.
Qed.

(** The two loops of [find_optimal_meeting_time]. *)

Lemma clocks_loop_linked s m a h start_hour end_hour air tfh :
  linked s → (a + m <= length (heap s))%nat → 0 <= h < 24 →
  in_time (ticks s) m s = true →
  clocks_loop m (Some a) h start_hour end_hour air tfh s
  = (Ok (air && hour_qualifies (ticks s) h start_hour end_hour
                  (take m (drop a (heap s))),
         tfh ++ hour_entries (ticks s) h (take m (drop a (heap s)))),
     advance m s).
Proof.
  intros Hs Ha Hh. revert s a air tfh Hs Ha.
  induction m as [|m IH]; intros s a air tfh Hs Ha Ht.
  - simpl. by rewrite advance_0, andb_true_r, app_nil_r.
  - destruct (lookup_lt_is_Some_2 (heap s) a) as [c Hc]; [lia|].
    pose proof (in_time_head _ _ _ _ _ Ht Hc) as Hon.
    apply in_time_tail in Ht.
    cbn [clocks_loop]. unfold as_object, mbind, M_bind, mret, M_ret.
    rewrite (get_current_time_reading s a c Hc Hon).
    unfold lift. rewrite replace_hour by done.
    unfold deref. simpl. rewrite Hc.
    pose proof Hs as (_ & _ & Hl). destruct (Hl a c Hc) as [-> _].
    rewrite (drop_S _ c a Hc). simpl.
    fold (test_time (ticks s) h c).
    set (x := Datetime.hour (test_time (ticks s) h c)).
    assert (Hair : (if (x <? start_hour) || (x >=? end_hour)
                    then false else air)
                   = air && ((start_hour <=? x) && (x <? end_hour))).
    { rewrite Z.geb_leb.
      destruct (Z.ltb_spec x start_hour), (Z.leb_spec end_hour x),
        (Z.leb_spec start_hour x), (Z.ltb_spec x end_hour);
        try lia; by destruct air. }
    rewrite Hair. clear Hair.
    destruct m as [|m].
    + simpl. by rewrite !andb_true_r.
    + unfold succ_in. rewrite decide_False by lia.
      rewrite IH;
        [|done|simpl; lia|by cbn [advance ticks]; rewrite Nat.add_1_r].
      rewrite advance_advance. simpl. rewrite Nat.add_1_r.
      by rewrite <- app_assoc, !andb_assoc.
Qed.

Lemma hours_loop_linked s hours start_hour end_hour optimal :
  linked s → length (heap s) ≠ 0%nat →
  Forall (fun h => 0 <= h < 24) hours →
  in_time (ticks s) (length hours * length (heap s)) s = true →
  hours_loop hours start_hour end_hour optimal s
  = (Ok (optimal ++ meeting_options (ticks s) hours start_hour end_hour
                      (heap s)),
     advance (length hours * length (heap s)) s).
Proof.
  intros Hs Hn Hh. revert s optimal Hs Hn.
  induction Hh as [|h hours Hh _ IH]; intros s optimal Hs Hn Ht.
  - simpl. by rewrite advance_0, app_nil_r.
  - cbn [hours_loop]. unfold get_head, get_count, mbind, M_bind.
    rewrite (linked_head s Hs), (linked_count s Hs).
    rewrite decide_False by done.
    cbn [length] in Ht.
    rewrite clocks_loop_linked;
      [|done|lia|done|by apply (in_time_weaken _ _ _ _ _ Ht); lia].
    rewrite drop_0, firstn_all. simpl.
    rewrite IH;
      [|done|done|by apply (in_time_weaken _ _ _ _ _ Ht);
                   cbn [advance ticks heap]; lia].
    rewrite advance_advance. simpl.
    by destruct (hour_qualifies _ _ _ _ _); rewrite <- ?app_assoc.
Qed.

Lemma range24_bounds : Forall (fun h => 0 <= h < 24) range24.
Proof. by vm_compute; repeat constructor. Qed.


(** What the description amounts to on a ring that is not empty. *)

Lemma hour_qualifies_spec k h start_hour end_hour nodes :
  0 <= h < 24 → nodes ≠ [] →
  hour_qualifies k h start_hour end_hour nodes
  = bool_decide (start_hour <= h < end_hour).
Proof.
  intros Hh. revert k. induction nodes as [|c nodes IH]; intros k Hn; [done|].
  simpl. unfold test_time. rewrite hour_at_time by done.
  destruct nodes as [|c' nodes].
  - simpl. rewrite andb_true_r.
    destruct (Z.leb_spec start_hour h), (Z.ltb_spec h end_hour);
      by (rewrite bool_decide_true by lia)
      || by (rewrite bool_decide_false by lia).
  - rewrite IH by done.
    destruct (Z.leb_spec start_hour h), (Z.ltb_spec h end_hour);
      by (rewrite bool_decide_true by lia)
      || by (rewrite bool_decide_false by lia).
Qed.

Lemma meeting_options_hours k hours start_hour end_hour nodes :
  Forall (fun h => 0 <= h < 24) hours → nodes ≠ [] →
  reference_hour <$> meeting_options k hours start_hour end_hour nodes
  = filter (fun h => start_hour <= h < end_hour) hours.
Proof.
  intros Hh Hn. revert k. induction Hh as [|h hours Hh _ IH]; intros k;
    [done|].
  simpl. rewrite fmap_app, IH. rewrite hour_qualifies_spec by done.
  rewrite filter_cons. case_bool_decide.
  - by rewrite decide_True.
  - by rewrite decide_False.
Qed.





Lemma elem_of_range24 h : h ∈ range24 ↔ 0 <= h < 24.
Proof.
  unfold range24. rewrite list_elem_of_fmap. split.
  - intros (n & -> & Hn). apply elem_of_seq in Hn. lia.
  - intros Hh. exists (Z.to_nat h). split; [lia|]. apply elem_of_seq. lia.
Qed.


(** Tables of cases, checked by computation. *)

Lemma elem_of_Z_range lo len z :
  lo <= z < lo + Z.of_nat len → z ∈ Z_range lo len.
Proof.
  intros Hz. unfold Z_range. apply list_elem_of_fmap.
  exists (Z.to_nat (z - lo)). split; [lia|]. apply elem_of_seq. lia.
Qed.

Lemma difference_table :
  forallb (fun dh => forallb (difference_case dh) (Z_range (-59) 119))
    (Z_range (-23) 47) = true.
Proof. vm_compute. reflexivity. Qed.

Lemma difference_case_holds dh dm :
  -23 <= dh <= 23 → -59 <= dm <= 59 → difference_case dh dm = true.
Proof.
  intros Hh Hm. pose proof difference_table as H.
  rewrite forallb_forall in H.
  specialize (H dh). rewrite forallb_forall in H.
  apply H; apply list_elem_of_In, elem_of_Z_range; lia.
Qed.

Lemma float_eqb_eq x y : float_eqb x y = true → x = y.
Proof.
  destruct x as [s|s| |s m e], y as [s'|s'| |s' m' e']; simpl; try done.
  - by intros ->%Bool.eqb_prop.
  - by intros ->%Bool.eqb_prop.
  - rewrite !andb_true_iff.
    by intros [[->%Bool.eqb_prop ->%Pos.eqb_eq] ->%Z.eqb_eq].
Qed.

Lemma result_eqb_string x y :
  result_eqb String.eqb x y = true → ∃ t, x = Ok t ∧ y = Ok t.
Proof.
  destruct x as [a|], y as [b|]; simpl; try done.
  intros ->%String.eqb_eq. by exists b.
Qed.

Lemma hour_bounds t : 0 <= Datetime.hour t < 24.
Proof. apply Z.mod_pos_bound. lia. Qed.

Lemma minute_bounds t : 0 <= Datetime.minute t < 60.
Proof. apply Z.mod_pos_bound. lia. Qed.

Lemma second_bounds t : 0 <= Datetime.second t < 60.
Proof. apply Z.mod_pos_bound. lia. Qed.

(** The number and the text for the difference of two times. *)
Lemma difference_fields time1 time2 :
  let n := diff_minutes time1 time2 in
  let direction : string := if 0 <? n then "ahead" else "behind" in
  Float64.round2 (diff_hours time1 time2)
  = Float64.int_truediv ((10 * n + 3) / 6) 100 ∧
  ∃ minutes,
    0 <= minutes ∧ Z.abs n mod 60 - 1 <= minutes <= Z.abs n mod 60 ∧
    _format_time_difference (diff_hours time1 time2)
    = Ok (if minutes =? 0
          then str (Z.abs n / 60) +:+ " hours " +:+ direction
          else str (Z.abs n / 60) +:+ "h " +:+ str minutes +:+ "m "
               +:+ direction).
Proof.
  intros n direction.
  pose proof (hour_bounds time1). pose proof (hour_bounds time2).
  pose proof (minute_bounds time1). pose proof (minute_bounds time2).
  pose proof (difference_case_holds
                (Datetime.hour time2 - Datetime.hour time1)
                (Datetime.minute time2 - Datetime.minute time1)
                ltac:(lia) ltac:(lia)) as Hcase.
  unfold difference_case in Hcase.
  fold (diff_hours time1 time2) in Hcase.
  fold (diff_minutes time1 time2) in Hcase. fold n in Hcase.
  apply andb_true_iff in Hcase as [Hround Hmin].
  apply float_eqb_eq in Hround. split; [done|].
  destruct (Float64.floor (Float64.mul _ _)) as [minutes|]; [|done].
  rewrite !andb_true_iff in Hmin.
  destruct Hmin as [[[Hnn%Z.leb_le Hlo%Z.leb_le] Hhi%Z.leb_le] Htext].
  apply result_eqb_string in Htext as (text & Hfmt & Hspec).
  exists minutes. split; [done|]. split; [done|]. by rewrite Hfmt, <- Hspec.
Qed.


Lemma hour_angle_table :
  forallb (fun h => forallb (hour_angle_case h) (Z_range 0 60))
    (Z_range 0 24) = true.
Proof. vm_compute. reflexivity. Qed.

Lemma hour_angle_case_holds h m :
  0 <= h < 24 → 0 <= m < 60 → hour_angle_case h m = true.
Proof.
  intros Hh Hm. pose proof hour_angle_table as H.
  rewrite forallb_forall in H.
  specialize (H h). rewrite forallb_forall in H.
  apply H; apply list_elem_of_In, elem_of_Z_range; lia.
Qed.

(** C10.  Each choice of an hour in [0, 24), a minute in [0, 60) and a
    second in [0, 60) is the time of day of some time, and for every time
    with these fields: the hour angle is the double of value
    [(hour mod 12) * 30 + minute * 0.5], the minute angle is [minute * 6],
    the second angle is [second * 6], and all three are at least 0 and
    below 360. *)
Theorem clock_hand_angles (h m s : Z) :
  0 <= h < 24 → 0 <= m < 60 → 0 <= s < 60 →
  (∃ t, Datetime.hour t = h ∧ Datetime.minute t = m ∧ Datetime.second t = s) ∧
  ∀ t, Datetime.hour t = h → Datetime.minute t = m → Datetime.second t = s →
    Float64.is_finite (calculate_hour_angle t) = true ∧
    (Float64.to_Q (calculate_hour_angle t)
     == inject_Z (h mod 12 * 30) + inject_Z m * (1 # 2))%Q ∧
    (0 <= Float64.to_Q (calculate_hour_angle t))%Q ∧
    (Float64.to_Q (calculate_hour_angle t) < 360)%Q ∧
    calculate_minute_angle t = m * 6 ∧ 0 <= calculate_minute_angle t < 360 ∧
    calculate_second_angle t = s * 6 ∧ 0 <= calculate_second_angle t < 360.
Proof.
  intros Hh Hm Hs. split.
  - exists (Datetime.mk_datetime (3600 * h + 60 * m + s)).
    unfold Datetime.hour, Datetime.minute, Datetime.second.
    cbn [Datetime.wall]. split_and!.
    + replace (3600 * h + 60 * m + s) with (60 * m + s + h * 3600) by lia.
      rewrite Z.div_add by lia. rewrite (Z.div_small (60 * m + s)) by lia.
      by apply Z.mod_small.
    + replace (3600 * h + 60 * m + s) with (s + (60 * h + m) * 60) by lia.
      rewrite Z.div_add by lia. rewrite (Z.div_small s) by lia.
      replace (0 + (60 * h + m)) with (m + h * 60) by lia.
      rewrite Z.mod_add by lia. by apply Z.mod_small.
    + replace (3600 * h + 60 * m + s) with (s + (60 * h + m) * 60) by lia.
      rewrite Z.mod_add by lia. by apply Z.mod_small.
  - intros t <- <- <-.
    pose proof (hour_angle_case_holds _ _ Hh Hm) as Hcase.
    unfold hour_angle_case in Hcase.
    fold (calculate_hour_angle t) in Hcase.
    rewrite !andb_true_iff in Hcase.
    destruct Hcase as (((Hfin & Heq) & Hge) & Hlt).
    apply Qeq_bool_iff in Heq. apply Qle_bool_iff in Hge.
    apply negb_true_iff in Hlt.
    unfold calculate_minute_angle, calculate_second_angle.
    split_and!; try done; try lia.
    + rewrite Heq. unfold Qeq. simpl. lia.
    + apply Qnot_le_lt. intros Hle. apply Qle_bool_iff in Hle. congruence.
Qed.

(** The offset entries of a snapshot. *)

Lemma offset_entries hours minutes td :
  timedelta_of hours minutes = Ok td →
  offset_hours td = (60 * hours + minutes) / 60 ∧
  offset_minutes td = (60 * hours + minutes) mod 60.
Proof.
  intros H. unfold offset_hours, offset_minutes.
  rewrite (timedelta_of_total _ _ _ H).
  replace (hours * 3600 + minutes * 60) with (60 * (60 * hours + minutes))
    by lia.
  change 3600 with (60 * 60). split.
  - by rewrite Z.div_mul_cancel_l.
  - rewrite Z.mul_mod_distr_l by lia. rewrite Z.mul_comm.
    by rewrite Z.div_mul.
Qed.

(** The entries lose nothing of a stored offset, and the minutes entry is
    never negative. *)
Lemma offset_entries_lossless hours minutes td :
  timedelta_of hours minutes = Ok td →
  offset_hours td * 60 + offset_minutes td = hours * 60 + minutes ∧
  0 <= offset_minutes td < 60.
Proof.
  intros H. destruct (offset_entries _ _ _ H) as [-> ->].
  pose proof (Z.div_mod (60 * hours + minutes) 60).
  pose proof (Z.mod_pos_bound (60 * hours + minutes) 60). lia.
Qed.

Lemma get_clock_data_at s a c :
  heap s !! a = Some c → readable (ticks s) 2 c = true →
  ∃ d, get_clock_data a s = (Ok d, advance 2 s) ∧
    cd_city d = city_name c ∧ cd_is_modified d = is_modified c ∧
    cd_offset_hours d = offset_hours (time_offset c) ∧
    cd_offset_minutes d = offset_minutes (time_offset c).
Proof.
  intros Hc Ht. rewrite readable_spec in Ht.
  unfold get_clock_data, mbind, M_bind.
  rewrite (get_current_time_reading s a c Hc) by (apply Ht; lia).
  rewrite (is_daytime_reading (advance 1 s) a c Hc)
    by (cbn [advance ticks]; apply Ht; lia).
  unfold deref. simpl. rewrite Hc. eexists. split.
  - f_equal. unfold advance. simpl. f_equal. lia.
  - repeat split.
Qed.

(** C1, amended.  For every record of a registry built by the requests,
    whatever offset it holds, when the two readings of its time the
    snapshot makes are in range, [get_clock_data] returns a snapshot: the
    offset is a whole number of minutes, and the snapshot's [offset_hours]
    and [offset_minutes] lose nothing of it, [offset_hours * 60 +
    offset_minutes] being that number of minutes.  [offset_hours] is the
    offset in hours rounded down and carries its sign, non-negative for a
    non-negative offset and negative for a negative one; [offset_minutes]
    is never negative and below 60. *)
Theorem offset_entries_floor (rs : list request) (k : nat) (a : addr)
  (c : ClockNode) :
  let s := registry rs k in
  heap s !! a = Some c → readable k 2 c = true →
  ∃ d,
    get_clock_data a s = (Ok d, advance 2 s) ∧
    let total := total_seconds (time_offset c) in
    total mod 60 = 0 ∧
    cd_offset_hours d * 60 + cd_offset_minutes d = total / 60 ∧
    cd_offset_hours d = total / 3600 ∧
    0 <= cd_offset_minutes d < 60 ∧
    (0 <= total → 0 <= cd_offset_hours d) ∧
    (total < 0 → cd_offset_hours d < 0).
Proof.
  intros s Hc Ht.
  destruct (get_clock_data_at s a c Hc) as (d & Hd & _ & _ & Hh & Hm).
  { unfold s. by rewrite registry_ticks. }
  exists d. split; [done|].
  destruct (registry_offsets rs k a c Hc) as (hours & minutes & Htd & _).
  destruct (offset_entries_lossless _ _ _ Htd) as [Hsum Hmin].
  pose proof (timedelta_of_total _ _ _ Htd) as Htot.
  cbv zeta. rewrite Hh, Hm, Htot.
  replace (hours * 3600 + minutes * 60) with ((hours * 60 + minutes) * 60)
    by lia.
  rewrite Z.mod_mul, Z.div_mul by lia.
  split; [done|]. split; [done|].
  assert (Hfl : offset_hours (time_offset c)
                = (hours * 60 + minutes) * 60 / 3600).
  { unfold offset_hours. rewrite Htot. f_equal. lia. }
  split; [done|]. split; [done|]. rewrite Hfl.
  change 3600 with (60 * 60).
  rewrite <- Z.div_div by lia. rewrite Z.div_mul by lia.
  split; intros H.
  - apply Z.div_pos; lia.
  - apply Z.div_lt_upper_bound; lia.
Qed.

(** ** The listings *)

Lemma get_clock_data_snapshot s a c :
  heap s !! a = Some c →
  on_time (ticks s) c = true → on_time (S (ticks s)) c = true →
  get_clock_data a s = (Ok (snapshot (ticks s) c), advance 2 s).
Proof.
  intros Hc Ht1 Ht2. unfold get_clock_data, mbind, M_bind.
  rewrite (get_current_time_reading s a c Hc Ht1).
  rewrite (is_daytime_reading (advance 1 s) a c Hc)
    by (cbn [advance ticks]; by rewrite Nat.add_1_r).
  unfold deref. simpl. rewrite Hc. unfold snapshot.
  rewrite Nat.add_1_r. f_equal. unfold advance. simpl. f_equal. lia.
Qed.

Lemma get_clock_data_run s a c :
  heap s !! a = Some c →
  get_clock_data a s
  = if on_time (ticks s) c
    then if on_time (S (ticks s)) c
         then (Ok (snapshot (ticks s) c), advance 2 s)
         else (Raise OverflowError, advance 2 s)
    else (Raise OverflowError, advance 1 s).
Proof.
  intros Hc.
  destruct (on_time (ticks s) c) eqn:E1.
  - destruct (on_time (S (ticks s)) c) eqn:E2.
    + by apply get_clock_data_snapshot.
    + unfold get_clock_data, mbind, M_bind.
      rewrite (get_current_time_reading s a c Hc E1).
      rewrite (is_daytime_overflow (advance 1 s) a c Hc)
        by (cbn [advance ticks]; by rewrite Nat.add_1_r).
      by rewrite advance_advance.
  - unfold get_clock_data, mbind, M_bind.
    by rewrite (get_current_time_overflow s a c Hc E1).
Qed.

Lemma all_clocks_loop_linked s m a acc :
  linked s → (a + m <= length (heap s))%nat →
  in_time (ticks s) (2 * m) s = true →
  all_clocks_loop m (Some a) acc s
  = (Ok (acc ++ snapshots (ticks s) (take m (drop a (heap s)))),
     advance (2 * m) s).
Proof.
  intros Hs. revert s a acc Hs.
  induction m as [|m IH]; intros s a acc Hs Ha Ht.
  - simpl. by rewrite advance_0, app_nil_r.
  - destruct (lookup_lt_is_Some_2 (heap s) a) as [c Hc]; [lia|].
    rewrite in_time_spec in Ht.
    cbn [all_clocks_loop]. unfold as_object, mbind, M_bind, mret, M_ret.
    rewrite (get_clock_data_snapshot s a c Hc)
      by (apply (Ht _ a c); [lia|done]).
    unfold deref. simpl. rewrite Hc.
    pose proof Hs as (_ & _ & Hl). destruct (Hl a c Hc) as [-> _].
    rewrite (drop_S _ c a Hc). simpl.
    destruct m as [|m].
    + done.
    + unfold succ_in. rewrite decide_False by lia.
      rewrite IH;
        [|done|simpl; lia|
         apply in_time_spec; intros j b cb Hj; apply Ht;
         cbn [advance ticks] in Hj; lia].
      rewrite advance_advance. simpl.
      replace (ticks s + 2)%nat with (S (S (ticks s))) by lia.
      rewrite <- app_assoc. simpl. do 2 f_equal. lia.
Qed.

Lemma get_all_clocks_data_linked s :
  linked s → in_time (ticks s) (2 * clock_count s) s = true →
  get_all_clocks_data s
  = (Ok (snapshots (ticks s) (ring_nodes s)), advance (2 * clock_count s) s).
Proof.
  intros Hs Ht.
  unfold get_all_clocks_data, get_head, get_count, mbind, M_bind.
  rewrite (linked_ring_nodes s Hs), (linked_head s Hs).
  pose proof (linked_count s Hs) as Hc. rewrite Hc.
  case_decide as Hn.
  - rewrite Hn. apply nil_length_inv in Hn. rewrite Hn. simpl.
    by rewrite advance_0.
  - rewrite all_clocks_loop_linked; [|done|lia|exact Ht].
    by rewrite Hc, drop_0, firstn_all.
Qed.

Lemma snapshots_cities k nodes :
  cd_city <$> snapshots k nodes = city_name <$> nodes.
Proof. revert k. induction nodes; intros k; simpl; by f_equal. Qed.

Lemma snapshots_length k nodes : length (snapshots k nodes) = length nodes.
Proof. revert k. induction nodes; intros k; simpl; by f_equal. Qed.

Lemma snapshots_lookup k nodes i c :
  nodes !! i = Some c → snapshots k nodes !! i = Some (snapshot (k + 2 * i) c).
Proof.
  revert k i. induction nodes as [|c0 nodes IH]; intros k [|i] H; try done.
  - simpl in *. injection H as ->. by rewrite Nat.add_0_r.
  - simpl in *. rewrite (IH _ _ H). do 2 f_equal. lia.
Qed.

(** The cities of the ring are those of the clocks added, in order. *)

Lemma fmap_alter_same {A B} (g : A → B) (f : A → A) i (l : list A) :
  (∀ x, g (f x) = g x) → g <$> alter f i l = g <$> l.
Proof.
  intros H. apply list_eq. intros j.
  rewrite !list_lookup_fmap, list_lookup_alter.
  case_decide; [subst j|done].
  destruct (l !! i); simpl; by rewrite ?H.
Qed.

Lemma add_clock_cities city tzs image tz s :
  pytz_timezone tzs = Some tz → linked s →
  city_name <$> heap (snd (add_clock city tzs image s))
  = (city_name <$> heap s) ++ [city].
Proof.
  intros Htz Hs.
  destruct (add_clock_linked city tzs image tz s Htz Hs)
    as (s' & -> & _ & _ & Hlen & Hold & (cn & Hcn & Hdn)). simpl.
  apply list_eq. intros i. rewrite list_lookup_fmap.
  destruct (decide (i < length (heap s))%nat) as [Hi|Hi].
  - rewrite lookup_app_l by (by rewrite length_fmap).
    destruct (lookup_lt_is_Some_2 (heap s) i Hi) as [c Hc].
    destruct (Hold i c Hc) as (c' & Hc' & (Hcity & _)).
    rewrite Hc', list_lookup_fmap, Hc. simpl. by rewrite Hcity.
  - rewrite lookup_app_r by (rewrite length_fmap; lia).
    rewrite length_fmap.
    destruct (decide (i = length (heap s))) as [->|Hne].
    + rewrite Hcn, Nat.sub_diag. simpl. by destruct Hdn as (Hcity & _);
        rewrite Hcity.
    + rewrite lookup_ge_None_2 by lia.
      destruct (i - length (heap s))%nat eqn:E; [lia|done].
Qed.

Lemma handle_cities r s :
  linked s →
  city_name <$> heap (snd (handle r s))
  = (city_name <$> heap s) ++ added_cities [r].
Proof.
  intros Hs. destruct r as [city tzs image|index hours minutes|index];
    unfold added_cities; simpl.
  - destruct (pytz_timezone tzs) as [tz|] eqn:Htz.
    + by apply (add_clock_cities _ _ _ tz).
    + rewrite add_clock_unknown by done. simpl. by rewrite app_nil_r.
  - rewrite app_nil_r.
    unfold mbind, M_bind. rewrite get_clock_at_index_linked by done.
    case_bool_decide; [|done].
    destruct (timedelta_of hours minutes) as [td|e] eqn:Htd.
    + rewrite (set_time_offset_ok _ _ _ td) by done. simpl.
      by rewrite !fmap_alter_same.
    + by rewrite (set_time_offset_raise _ _ _ e).
  - rewrite app_nil_r.
    unfold mbind, M_bind. rewrite get_clock_at_index_linked by done.
    case_bool_decide; [|done]. rewrite reset_time_offset_ok. simpl.
    by rewrite !fmap_alter_same.
Qed.

Lemma added_cities_cons r rs :
  added_cities (r :: rs) = added_cities [r] ++ added_cities rs.
Proof. unfold added_cities. simpl. by case_match. Qed.

Lemma run_cities rs s :
  linked s →
  city_name <$> heap (run rs s) = (city_name <$> heap s) ++ added_cities rs.
Proof.
  revert s. induction rs as [|r rs IH]; intros s Hs.
  - simpl. by rewrite app_nil_r.
  - simpl. rewrite IH by (by apply handle_linked).
    rewrite handle_cities by done.
    by rewrite <- app_assoc, <- added_cities_cons.
Qed.

Lemma registry_cities rs k :
  city_name <$> ring_nodes (registry rs k) = added_cities rs.
Proof.
  rewrite (linked_ring_nodes _ (registry_linked rs k)).
  unfold registry. by rewrite run_cities by apply linked_init.
Qed.

(** X1.  On a registry built by the requests whose records are on time at
    the readings of the call, two for each record, [get_all_clocks_data]
    returns one snapshot for each record, in ring order from the head: the
    cities
    are those of the clocks added, in the order they were added, and the
    modified flag and the offset entries are those of each record.  It
    changes nothing but the number of readings of the system clock, two for
    each record, and gives the empty list on the empty ring. *)
Theorem all_clocks_in_insertion_order (rs : list request) (k : nat) :
  let s := registry rs k in
  in_time k (2 * clock_count s) s = true →
  ∃ clocks_data,
    get_all_clocks_data s
    = (Ok clocks_data, advance (2 * clock_count s) s) ∧
    length clocks_data = clock_count s ∧
    cd_city <$> clocks_data = added_cities rs ∧
    (head_clock s = None → clocks_data = []) ∧
    ∀ i c, ring_nodes s !! i = Some c →
      ∃ d, clocks_data !! i = Some d ∧
        cd_city d = city_name c ∧ cd_timezone d = timezone_str c ∧
        cd_image d = image_filename c ∧
        cd_is_modified d = is_modified c ∧
        cd_offset_hours d = offset_hours (time_offset c) ∧
        cd_offset_minutes d = offset_minutes (time_offset c) ∧
        cd_hour d = Datetime.hour (reading (k + 2 * i) c).
Proof.
  intros s Ht. pose proof (registry_linked rs k) as Hs. fold s in Hs.
  rewrite (get_all_clocks_data_linked s Hs)
    by (unfold s at 1; by rewrite registry_ticks).
  eexists. split; [done|].
  split_and!.
  - rewrite snapshots_length, (linked_ring_nodes s Hs).
    by rewrite (linked_count s Hs).
  - rewrite snapshots_cities. apply registry_cities.
  - intros Hh. rewrite (linked_ring_nodes s Hs).
    rewrite (linked_head s Hs) in Hh. case_decide as Hn; [|done].
    apply nil_length_inv in Hn. by rewrite Hn.
  - intros i c Hc. eexists. split; [by apply snapshots_lookup|].
    unfold s. rewrite registry_ticks. repeat split.
Qed.

Lemma succ_in_mod n a : (a < n)%nat → succ_in n a = (S a mod n)%nat.
Proof.
  intros Ha. unfold succ_in. case_decide as H.
  - rewrite H. by rewrite Nat.Div0.mod_same.
  - rewrite Nat.mod_small; lia.
Qed.

Lemma pred_in_mod n a : (a < n)%nat → pred_in n a = ((a + pred n) mod n)%nat.
Proof.
  intros Ha. unfold pred_in. case_decide as H.
  - subst a. rewrite Nat.mod_small; lia.
  - replace (a + pred n)%nat with (pred a + 1 * n)%nat by lia.
    rewrite Nat.Div0.mod_add. rewrite Nat.mod_small; lia.
Qed.

Lemma linked_city_at s i c :
  linked s → heap s !! (i mod length (heap s))%nat = Some c →
  listed_city s i = city_name c.
Proof.
  intros Hs Hc. unfold listed_city, city_at.
  rewrite (linked_ring_nodes s Hs), Hc. done.
Qed.

Lemma structure_loop_linked s m a acc :
  linked s → (a + m <= length (heap s))%nat →
  structure_loop m (Z.of_nat a) (Some a) acc s
  = (Ok (acc ++ (structure_row s <$> seq a m)), s).
Proof.
  intros Hs. revert a acc.
  induction m as [|m IH]; intros a acc Ha.
  - simpl. by rewrite app_nil_r.
  - pose proof Hs as (Hcount & Hhead & Hl).
    destruct (lookup_lt_is_Some_2 (heap s) a) as [c Hc]; [lia|].
    destruct (Hl a c Hc) as [Hn Hp].
    destruct (lookup_lt_is_Some_2 (heap s) (succ_in (length (heap s)) a))
      as [cn Hcn]; [apply succ_in_lt; lia|].
    destruct (lookup_lt_is_Some_2 (heap s) (pred_in (length (heap s)) a))
      as [cp Hcp]; [apply pred_in_lt; lia|].
    cbn [structure_loop].
    unfold getattr, as_object, deref, get_head, mbind, M_bind, mret, M_ret.
    rewrite Hc, Hn, Hp, Hcn, Hcp, Hhead. rewrite decide_False by lia.
    assert (Hrow : mk_structure_entry (Z.of_nat a) (city_name c)
                     (city_name cn) (city_name cp)
                     (bool_decide (Some a = Some 0%nat))
                   = structure_row s a).
    { unfold structure_row. rewrite Hcount.
      rewrite (linked_city_at s a c), (linked_city_at s (S a) cn),
        (linked_city_at s (a + pred (length (heap s))) cp); try done.
      - f_equal. apply bool_decide_ext. split; [by intros [= ->]|by intros ->].
      - by rewrite <- pred_in_mod by lia.
      - by rewrite <- succ_in_mod by lia.
      - rewrite Nat.mod_small by lia. done. }
    rewrite Hrow.
    destruct m as [|m].
    + done.
    + unfold succ_in. rewrite decide_False by lia.
      replace (Z.of_nat a + 1) with (Z.of_nat (S a)) by lia.
      rewrite IH by lia. by rewrite <- app_assoc.
Qed.

Lemma get_list_structure_linked s :
  linked s →
  get_list_structure s
  = (Ok (structure_row s <$> seq 0 (clock_count s)), s).
Proof.
  intros Hs. unfold get_list_structure, get_head, get_count, mbind, M_bind.
  rewrite (linked_head s Hs). pose proof (linked_count s Hs) as Hc.
  case_decide as Hn.
  - rewrite Hc, Hn. done.
  - change 0 with (Z.of_nat 0).
    by rewrite structure_loop_linked by (done || lia).
Qed.

(** X2.  On a registry built by the requests [get_list_structure] returns
    one entry for each record, in ring order and numbered from 0, with the
    city of the record, the city of the record after it and the city of the
    record before it, counted cyclically: the last entry's next is the first
    city and the first entry's previous is the last city.  Only the first
    entry is marked as head.  The call reads no clock and changes nothing. *)
Theorem list_structure_shows_ring (rs : list request) (k : nat) :
  let s := registry rs k in
  ∃ structure,
    get_list_structure s = (Ok structure, s) ∧
    length structure = clock_count s ∧
    se_city <$> structure = added_cities rs ∧
    ∀ i e, structure !! i = Some e →
      se_index e = Z.of_nat i ∧
      Some (se_city e) = city_at s i ∧
      Some (se_next e) = city_at s (S i) ∧
      Some (se_previous e) = city_at s (i + pred (clock_count s)) ∧
      (se_is_head e = true ↔ i = 0%nat).
Proof.
  intros s. pose proof (registry_linked rs k) as Hs. fold s in Hs.
  rewrite (get_list_structure_linked s Hs). eexists. split; [done|].
  pose proof (linked_count s Hs) as Hc.
  pose proof (linked_ring_nodes s Hs) as Hr.
  assert (Hcity : ∀ j, (0 < clock_count s)%nat →
            Some (listed_city s j) = city_at s j).
  { intros j Hpos. unfold listed_city, city_at. rewrite Hr.
    destruct (lookup_lt_is_Some_2 (heap s) (j mod length (heap s)))
      as [c ->]; [|done].
    apply Nat.mod_upper_bound. lia. }
  split; [by rewrite length_fmap, length_seq|]. split.
  - rewrite <- (registry_cities rs k). fold s. rewrite Hr.
    apply list_eq. intros i. rewrite !list_lookup_fmap.
    destruct (decide (i < clock_count s)%nat) as [Hi|Hi].
    + rewrite lookup_seq_lt by done. simpl.
      destruct (lookup_lt_is_Some_2 (heap s) i) as [c Hci]; [lia|].
      rewrite Hci. simpl. f_equal. apply linked_city_at; [done|].
      by rewrite Nat.mod_small by lia.
    + rewrite lookup_seq_ge by lia. rewrite lookup_ge_None_2 by lia. done.
  - intros i e He. rewrite list_lookup_fmap in He.
    destruct (seq 0 (clock_count s) !! i) as [j|] eqn:Hj; [|done].
    apply lookup_seq in Hj as [-> Hi]. simpl in He. injection He as <-.
    simpl. rewrite !Hcity by lia. split_and!; try done.
    by rewrite bool_decide_eq_true.
Qed.

(** ** More of the analytics *)

Lemma format_time_difference_fields time1 time2 :
  ∃ text, _format_time_difference (diff_hours time1 time2) = Ok text.
Proof.
  destruct (difference_fields time1 time2) as (_ & minutes & _ & _ & Hfmt).
  by eexists.
Qed.

Lemma calculate_time_difference_valid s index1 index2 :
  linked s →
  0 <= index1 < Z.of_nat (clock_count s) →
  0 <= index2 < Z.of_nat (clock_count s) →
  in_time (ticks s) 2 s = true →
  ∃ report,
    calculate_time_difference index1 index2 s
    = (Ok (Some report), advance 2 s).
Proof.
  intros Hs Hi1 Hi2 Ht. pose proof (linked_count s Hs) as Hc.
  rewrite in_time_spec in Ht.
  destruct (lookup_lt_is_Some_2 (heap s) (Z.to_nat index1)) as [c1 H1];
    [lia|].
  destruct (lookup_lt_is_Some_2 (heap s) (Z.to_nat index2)) as [c2 H2];
    [lia|].
  unfold calculate_time_difference, mbind at 1 2, M_bind.
  rewrite !get_clock_at_index_linked by done.
  rewrite !bool_decide_true by lia.
  unfold mbind at 1 2, M_bind.
  rewrite (get_current_time_reading s _ c1 H1)
    by (apply (Ht (ticks s) _ _ ltac:(lia) H1)).
  rewrite (get_current_time_reading (advance 1 s) _ c2 H2)
    by (cbn [advance ticks];
        apply (Ht (ticks s + 1)%nat _ _ ltac:(lia) H2)).
  unfold mbind at 1 2, M_bind, deref. simpl. rewrite H1.
  change (heap (advance 1 (advance 1 s))) with (heap s). rewrite H2.
  fold (diff_hours (reading (ticks s) c1) (reading (ticks s + 1) c2)).
  destruct (format_time_difference_fields (reading (ticks s) c1)
              (reading (ticks s + 1) c2)) as [text Htext].
  unfold mbind, M_bind, lift. rewrite Htext. simpl.
  eexists. f_equal. unfold advance. simpl. f_equal. lia.
Qed.

Lemma calculate_time_difference_invalid s index1 index2 :
  linked s →
  ¬ (0 <= index1 < Z.of_nat (clock_count s) ∧
     0 <= index2 < Z.of_nat (clock_count s)) →
  calculate_time_difference index1 index2 s = (Ok None, s).
Proof.
  intros Hs Hi.
  unfold calculate_time_difference, mbind, M_bind.
  rewrite !get_clock_at_index_linked by done.
  repeat case_bool_decide; try done. by exfalso; apply Hi.
Qed.



(** Counting the hours between two bounds. *)

Lemma filter_length_bool (P : Z → Prop) `{∀ x, Decision (P x)}
  (p : Z → bool) l :
  (∀ x, x ∈ l → (P x ↔ p x = true)) →
  length (filter P l) = length (List.filter p l).
Proof.
  induction l as [|x l IH]; intros Hp; [done|].
  rewrite filter_cons. simpl.
  assert (Hx : P x ↔ p x = true) by (apply Hp; left).
  assert (IH' : length (filter P l) = length (List.filter p l)).
  { apply IH. intros y Hy. apply Hp. by right. }
  case_decide as HP.
  - rewrite (proj1 Hx HP). simpl. by rewrite IH'.
  - destruct (p x) eqn:E; [by destruct HP; apply Hx|done].
Qed.

Lemma hours_between_table :
  forallb (fun a => forallb (fun b =>
     (Z.of_nat (length (List.filter (fun h => (a <=? h) && (h <? b)) range24))
      =? Z.max 0 (b - a))) (Z_range 0 25)) (Z_range 0 25) = true.
Proof. vm_compute. reflexivity. Qed.

Lemma hours_between_length a b :
  length (filter (fun h => a <= h < b) range24)
  = Z.to_nat (Z.min b 24 - Z.max a 0).
Proof.
  set (a0 := Z.max 0 (Z.min a 24)). set (b0 := Z.max 0 (Z.min b 24)).
  rewrite (filter_length_bool _ (fun h => (a0 <=? h) && (h <? b0))).
  - pose proof hours_between_table as H. rewrite forallb_forall in H.
    specialize (H a0). rewrite forallb_forall in H.
    specialize (H ltac:(apply list_elem_of_In, elem_of_Z_range; lia) b0
                  ltac:(apply list_elem_of_In, elem_of_Z_range; lia)).
    apply Z.eqb_eq in H. lia.
  - intros h Hh. apply elem_of_range24 in Hh.
    rewrite andb_true_iff, Z.leb_le, Z.ltb_lt. lia.
Qed.

Lemma hour_entries_fields k h nodes :
  0 <= h < 24 →
  Forall (fun entry => te_hour entry = h) (hour_entries k h nodes) ∧
  te_city <$> hour_entries k h nodes = city_name <$> nodes.
Proof.
  intros Hh. revert k. induction nodes as [|c nodes IH]; intros k.
  - by split; [constructor|].
  - destruct (IH (S k)) as [IH1 IH2]. split.
    + constructor; [|done]. simpl. unfold test_time. by apply hour_at_time.
    + cbn [hour_entries]. rewrite !fmap_cons. by rewrite IH2.
Qed.

Lemma meeting_options_fields k hours start_hour end_hour nodes :
  Forall (fun h => 0 <= h < 24) hours →
  Forall (fun option =>
            Forall (fun entry => te_hour entry = reference_hour option)
              (times option) ∧
            te_city <$> times option = city_name <$> nodes)
    (meeting_options k hours start_hour end_hour nodes).
Proof.
  intros Hh. revert k. induction Hh as [|h hours Hh _ IH]; intros k;
    [constructor|].
  simpl. apply Forall_app. split; [|apply IH].
  destruct (hour_qualifies _ _ _ _ _); [|constructor].
  constructor; [|constructor]. simpl. by apply hour_entries_fields.
Qed.

(** X4.  On a registry built by the requests with at least one record,
    the records on time at the readings of the call, 24 for each record,
    [find_optimal_meeting_time] returns as many entries as there are hours
    of [0, 24) from [start_hour] up to but not including [end_hour]: none
    when the bounds are in the wrong order or outside the day, 24 at most.
    In each entry every record is listed with the reference hour itself.
    Whatever it returns, it has read the system clock 24 times for each
    record. *)
Theorem meeting_times_count (rs : list request) (k : nat)
  (start_hour end_hour : Z) :
  let s := registry rs k in
  head_clock s ≠ None → in_time k (24 * clock_count s) s = true →
  ∃ result,
    find_optimal_meeting_time start_hour end_hour s
    = (Ok result, advance (24 * clock_count s) s) ∧
    length result = Z.to_nat (Z.min end_hour 24 - Z.max start_hour 0) ∧
    (end_hour <= start_hour → result = []) ∧
    Forall (fun option =>
              Forall (fun entry => te_hour entry = reference_hour option)
                (times option) ∧
              te_city <$> times option = added_cities rs) result.
Proof.
  intros s Hne Ht. pose proof (registry_linked rs k) as Hs. fold s in Hs.
  pose proof (linked_count s Hs) as Hc.
  assert (Ht' : in_time (ticks s) (length range24 * length (heap s)) s
                = true).
  { unfold s at 1. rewrite registry_ticks. by rewrite <- Hc. }
  pose proof (linked_head s Hs) as Hh.
  assert (Hn : length (heap s) ≠ 0%nat).
  { intros E. rewrite E in Hh. simpl in Hh. done. }
  assert (Hnodes : heap s ≠ []) by (intros E; by rewrite E in Hn).
  unfold find_optimal_meeting_time, get_head, mbind, M_bind.
  rewrite Hh. rewrite decide_False by done.
  rewrite hours_loop_linked by (done || apply range24_bounds).
  eexists. split.
  { f_equal. by rewrite Hc. }
  rewrite app_nil_l.
  assert (Hlen : length (meeting_options (ticks s) range24 start_hour
                           end_hour (heap s))
                 = Z.to_nat (Z.min end_hour 24 - Z.max start_hour 0)).
  { rewrite <- hours_between_length.
    rewrite <- (meeting_options_hours (ticks s) range24 start_hour end_hour
                  (heap s) range24_bounds Hnodes).
    by rewrite length_fmap. }
  split; [done|]. split.
  - intros Hle. apply nil_length_inv. rewrite Hlen. lia.
  - rewrite <- (registry_cities rs k). fold s.
    rewrite (linked_ring_nodes s Hs).
    apply meeting_options_fields, range24_bounds.
Qed.

(** ** More on offsets *)

Lemma alter2_frame s a f g :
  (∀ c, next_clock (f c) = next_clock c) →
  (∀ c, previous_clock (f c) = previous_clock c) →
  (∀ c, city_name (f c) = city_name c) →
  (∀ c, next_clock (g c) = next_clock c) →
  (∀ c, previous_clock (g c) = previous_clock c) →
  (∀ c, city_name (g c) = city_name c) →
  same_ring_apart_from a s
    (mk_state (alter g a (alter f a (heap s)))
       (head_clock s) (clock_count s) (ticks s)).
Proof.
  intros Hf1 Hf2 Hf3 Hg1 Hg2 Hg3. unfold same_ring_apart_from. simpl.
  split_and!; try done.
  - by rewrite !length_alter.
  - intros b Hb. by rewrite !list_lookup_alter_ne.
  - unfold next_of, node_at. simpl.
    rewrite !list_lookup_alter_eq.
    destruct (heap s !! a); simpl; by rewrite ?Hg1, ?Hf1.
  - unfold previous_of, node_at. simpl.
    rewrite !list_lookup_alter_eq.
    destruct (heap s !! a); simpl; by rewrite ?Hg2, ?Hf2.
  - unfold city_of, node_at. simpl.
    rewrite !list_lookup_alter_eq.
    destruct (heap s !! a); simpl; by rewrite ?Hg3, ?Hf3.
Qed.

Lemma same_ring_refl a s : same_ring_apart_from a s s.
Proof. by unfold same_ring_apart_from. Qed.

Lemma set_time_offset_frame a hours minutes s :
  same_ring_apart_from a s (snd (set_time_offset a hours minutes s)) ∧
  city_name <$> heap (snd (set_time_offset a hours minutes s))
  = city_name <$> heap s ∧
  (linked s → linked (snd (set_time_offset a hours minutes s))).
Proof.
  destruct (timedelta_of hours minutes) as [td|e] eqn:Htd.
  - rewrite (set_time_offset_ok _ _ _ td) by done. simpl. split_and!.
    + by apply alter2_frame.
    + by rewrite !fmap_alter_same.
    + by apply linked_alter.
  - rewrite (set_time_offset_raise _ _ _ e) by done. simpl.
    split_and!; [apply same_ring_refl|done..].
Qed.

Lemma reset_time_offset_frame a s :
  same_ring_apart_from a s (snd (reset_time_offset a s)) ∧
  city_name <$> heap (snd (reset_time_offset a s)) = city_name <$> heap s ∧
  (linked s → linked (snd (reset_time_offset a s))).
Proof.
  rewrite reset_time_offset_ok. simpl. split_and!.
  - by apply alter2_frame.
  - by rewrite !fmap_alter_same.
  - by apply linked_alter.
Qed.

Lemma listed_city_ext s s' :
  linked s → linked s' →
  city_name <$> heap s' = city_name <$> heap s →
  ∀ i, listed_city s' i = listed_city s i.
Proof.
  intros Hs Hs' Hcities i. unfold listed_city, city_at.
  rewrite !linked_ring_nodes by done.
  rewrite <- !list_lookup_fmap, Hcities.
  by rewrite <- (length_fmap city_name (heap s')), Hcities, length_fmap.
Qed.

Lemma listing_unchanged s s' :
  linked s → linked s' →
  clock_count s' = clock_count s →
  city_name <$> heap s' = city_name <$> heap s →
  fst (get_list_structure s') = fst (get_list_structure s) ∧
  ∀ index, fst (get_clock_at_index index s')
           = fst (get_clock_at_index index s).
Proof.
  intros Hs Hs' Hc Hcities. split.
  - rewrite !get_list_structure_linked by done. simpl. rewrite Hc.
    cut (structure_row s' <$> seq 0 (clock_count s)
         = structure_row s <$> seq 0 (clock_count s)); [by intros ->|].
    apply list_fmap_ext. intros _ i _.
    unfold structure_row. rewrite Hc.
    by rewrite !(listed_city_ext s s').
  - intros index. rewrite !get_clock_at_index_linked by done. simpl.
    by rewrite Hc.
Qed.

(** X5.  [set_time_offset] and [reset_time_offset] on a record of a registry
    built by the requests touch nothing but the offset and the flag of that
    record: the head, the count, every other record, and the links and the
    city of the record itself stay as they are, so [get_list_structure] and
    [get_clock_at_index] answer as before.  This holds whether
    [set_time_offset] returns or raises. *)
Theorem offset_calls_keep_ring (rs : list request) (k : nat) (a : addr)
  (hours minutes : Z) :
  let s := registry rs k in
  let s1 := snd (set_time_offset a hours minutes s) in
  let s2 := snd (reset_time_offset a s) in
  (same_ring_apart_from a s s1 ∧
   fst (get_list_structure s1) = fst (get_list_structure s) ∧
   ∀ index, fst (get_clock_at_index index s1)
            = fst (get_clock_at_index index s)) ∧
  (same_ring_apart_from a s s2 ∧
   fst (get_list_structure s2) = fst (get_list_structure s) ∧
   ∀ index, fst (get_clock_at_index index s2)
            = fst (get_clock_at_index index s)).
Proof.
  intros s s1 s2. pose proof (registry_linked rs k) as Hs. fold s in Hs.
  destruct (set_time_offset_frame a hours minutes s) as (Hf1 & Hc1 & Hl1).
  destruct (reset_time_offset_frame a s) as (Hf2 & Hc2 & Hl2).
  fold s1 in Hf1, Hc1, Hl1. fold s2 in Hf2, Hc2, Hl2.
  split.
  - split; [done|].
    apply (listing_unchanged s s1 Hs (Hl1 Hs)); [|done].
    by destruct Hf1 as (_ & ? & _).
  - split; [done|].
    apply (listing_unchanged s s2 Hs (Hl2 Hs)); [|done].
    by destruct Hf2 as (_ & ? & _).
Qed.

Lemma alter_fixed {A} (f : A → A) i (l : list A) x :
  l !! i = Some x → f x = x → alter f i l = l.
Proof.
  intros Hx Hf. apply list_eq. intros j. rewrite list_lookup_alter.
  case_decide; [subst j|done]. by rewrite Hx; simpl; rewrite Hf.
Qed.

Lemma list_alter_alter {A} (f g : A → A) i (l : list A) :
  alter f i (alter g i l) = alter (f ∘ g) i l.
Proof.
  apply list_eq. intros j. destruct (decide (i = j)) as [->|].
  - rewrite !list_lookup_alter_eq. by destruct (l !! j).
  - by rewrite !list_lookup_alter_ne.
Qed.

Lemma node_eta (c : ClockNode) :
  mk_ClockNode (city_name c) (timezone_str c) (timezone c)
    (image_filename c) (next_clock c) (previous_clock c) (time_offset c)
    (is_modified c) = c.
Proof. by destruct c. Qed.

(** X6.  On a record of a registry built by the requests that is not
    modified, [set_time_offset] followed by [reset_time_offset] gives back
    exactly the state before the two calls, whatever the arguments and
    whether [set_time_offset] returned or raised. *)
Theorem set_then_reset_restores (rs : list request) (k : nat) (a : addr)
  (c : ClockNode) (hours minutes : Z) :
  let s := registry rs k in
  heap s !! a = Some c → is_modified c = false →
  snd (reset_time_offset a (snd (set_time_offset a hours minutes s))) = s.
Proof.
  intros s Hc Hm.
  destruct (registry_offsets rs k a c Hc) as (h & m & Htd & Hflag).
  assert (Hzero : time_offset c = timedelta_zero).
  { rewrite Hm in Hflag. symmetry in Hflag.
    apply orb_false_iff in Hflag as [H1 H2].
    apply negb_false_iff, Z.eqb_eq in H1, H2. subst h m.
    rewrite timedelta_of_zero in Htd. by injection Htd as <-. }
  assert (Hfix : ∀ c0 : ClockNode,
            next_clock c0 = next_clock c → previous_clock c0 = previous_clock c →
            city_name c0 = city_name c → timezone_str c0 = timezone_str c →
            timezone c0 = timezone c → image_filename c0 = image_filename c →
            with_is_modified false (with_time_offset timedelta_zero c0) = c).
  { intros c0 H1 H2 H3 H4 H5 H6.
    unfold with_is_modified, with_time_offset. simpl.
    rewrite H1, H2, H3, H4, H5, H6, <- Hzero, <- Hm. apply node_eta. }
  rewrite reset_time_offset_ok.
  destruct (timedelta_of hours minutes) as [td|e] eqn:E.
  - rewrite (set_time_offset_ok _ _ _ td) by done. simpl.
    rewrite !list_alter_alter.
    rewrite (alter_fixed _ a (heap s) c Hc); [by destruct s|].
    by apply Hfix.
  - rewrite (set_time_offset_raise _ _ _ e) by done. simpl.
    rewrite !list_alter_alter.
    rewrite (alter_fixed _ a (heap s) c Hc); [by destruct s|].
    by apply Hfix.
Qed.

(** X7.  The offset entries of a snapshot give the offset back: on a record
    of a registry built by the requests that is on time at the two readings
    of its snapshot, [set_time_offset] called with the [offset_hours] and
    [offset_minutes] of the snapshot returns and stores the offset the
    record already had; [is_modified] is then true exactly when that offset
    is not zero. *)
Theorem snapshot_offset_round_trip (rs : list request) (k : nat) (a : addr)
  (c : ClockNode) :
  let s := registry rs k in
  heap s !! a = Some c → readable k 2 c = true →
  ∃ d s1 s2 c',
    get_clock_data a s = (Ok d, s1) ∧
    set_time_offset a (cd_offset_hours d) (cd_offset_minutes d) s1
    = (Ok tt, s2) ∧
    heap s2 !! a = Some c' ∧
    time_offset c' = time_offset c ∧
    (is_modified c' = true ↔ time_offset c ≠ timedelta_zero).
Proof.
  intros s Hc Hon. rewrite readable_spec in Hon.
  destruct (registry_offsets rs k a c Hc) as (h & m & Htd & _).
  destruct (offset_entries _ _ _ Htd) as [Hh Hm].
  pose proof (timedelta_of_total _ _ _ Htd) as Htot.
  set (M := 60 * h + m) in *.
  assert (Hsame : timedelta_of (M / 60) (M mod 60) = Ok (time_offset c)).
  { rewrite <- Htd. unfold timedelta_of.
    replace (M / 60 * 3600 + M mod 60 * 60) with (h * 3600 + m * 60); [done|].
    pose proof (Z.div_mod M 60). lia. }
  rewrite (get_clock_data_snapshot s a c Hc)
    by (unfold s; rewrite registry_ticks; apply Hon; lia).
  eexists _, _, _, _. split; [done|]. simpl. rewrite Hh, Hm.
  rewrite (set_time_offset_ok _ _ _ (time_offset c)) by done.
  split; [done|]. simpl.
  rewrite !list_lookup_alter_eq. rewrite Hc. simpl.
  split; [done|]. split; [done|]. split.
  - intros Hb Hz. rewrite Hz in Hsame.
    assert (HM : M = 0).
    { pose proof (timedelta_of_total _ _ _ Hsame) as Ht.
      change (total_seconds timedelta_zero) with 0 in Ht.
      pose proof (Z.div_mod M 60). lia. }
    rewrite HM in Hb. done.
  - intros Hnz. by apply (timedelta_of_nonzero _ _ _ Hsame).
Qed.

Lemma shifted_time_fields (w h m : Z) :
  (w + (h * 3600 + m * 60)) mod 60 = w mod 60 ∧
  ((w + (h * 3600 + m * 60)) / 60) mod 60 = ((w / 60) mod 60 + m) mod 60 ∧
  ((w + (h * 3600 + m * 60)) / 3600) mod 24
  = ((w / 3600) mod 24 + h + ((w / 60) mod 60 + m) / 60) mod 24.
Proof.
  assert (Hmin : (w + (h * 3600 + m * 60)) / 60 = w / 60 + m + h * 60).
  { replace (w + (h * 3600 + m * 60)) with (w + (m + h * 60) * 60) by lia.
    rewrite Z.div_add by lia. lia. }
  split_and!.
  - replace (w + (h * 3600 + m * 60)) with (w + (h * 60 + m) * 60) by lia.
    by rewrite Z.mod_add by lia.
  - rewrite Hmin. rewrite Z.mod_add by lia.
    by rewrite Zplus_mod_idemp_l.
  - replace 3600 with (60 * 60) at 2 3 by lia.
    rewrite <- !Z.div_div by lia. rewrite Hmin.
    rewrite Z.div_add by lia.
    set (q := w / 60).
    pose proof (Z.div_mod q 60 ltac:(lia)) as Hq.
    replace (q + m) with (q mod 60 + m + q / 60 * 60) at 1 by lia.
    rewrite Z.div_add by lia.
    replace (q / 60 mod 24 + h + (q mod 60 + m) / 60)
      with (q / 60 mod 24 + (h + (q mod 60 + m) / 60)) by lia.
    rewrite Zplus_mod_idemp_l. f_equal. lia.
Qed.

(** X8.  A manual offset moves the displayed time by its hours and minutes
    and leaves the seconds alone.  After [set_time_offset hours minutes] has
    returned on a record: when the zone's time moved by the offset is
    within the years 1 to 9999, [get_current_time] gives the seconds of the
    zone's time, the minutes advanced by [minutes] modulo 60, and the hours
    advanced by [hours] and by the hours the minutes carry, modulo 24;
    otherwise it raises [OverflowError].  Either way it has read the system
    clock once. *)
Theorem offset_shifts_displayed_time (rs : list request) (k : nat)
  (a : addr) (c : ClockNode) (hours minutes : Z) (td : timedelta) :
  let s := registry rs k in
  heap s !! a = Some c →
  timedelta_of hours minutes = Ok td →
  ∃ s1,
    set_time_offset a hours minutes s = (Ok tt, s1) ∧
    let base := datetime_now k (timezone c) in
    if Datetime.in_range
         (Datetime.wall base + (hours * 3600 + minutes * 60))
    then
      ∃ t, get_current_time a s1 = (Ok t, advance 1 s1) ∧
        Datetime.second t = Datetime.second base ∧
        Datetime.minute t = (Datetime.minute base + minutes) mod 60 ∧
        Datetime.hour t
        = (Datetime.hour base + hours
           + (Datetime.minute base + minutes) / 60) mod 24
    else get_current_time a s1 = (Raise OverflowError, advance 1 s1).
Proof.
  intros s Hc E.
  rewrite (set_time_offset_ok _ _ _ td) by done.
  eexists. split; [done|].
  set (c' := with_is_modified (negb (hours =? 0) || negb (minutes =? 0))
               (with_time_offset td c)).
  set (s1 := mk_state _ _ _ _).
  assert (Hc' : heap s1 !! a = Some c').
  { unfold s1. cbn [heap]. rewrite !list_lookup_alter_eq. by rewrite Hc. }
  assert (Hk : ticks s1 = k) by (unfold s1, s; apply registry_ticks).
  assert (Hon : on_time k c'
                = Datetime.in_range
                    (Datetime.wall (datetime_now k (timezone c))
                     + (hours * 3600 + minutes * 60))).
  { unfold on_time, reading, Datetime.shift. cbn [Datetime.wall].
    unfold c'. cbn [with_is_modified with_time_offset timezone time_offset].
    by rewrite (timedelta_of_total _ _ _ E). }
  cbn zeta. rewrite <- Hon.
  destruct (on_time k c') eqn:Ht.
  - rewrite (get_current_time_reading s1 a c' Hc') by (by rewrite Hk).
    eexists. split; [done|]. rewrite Hk.
    unfold reading, Datetime.shift, c'.
    cbn [with_is_modified with_time_offset timezone time_offset].
    unfold Datetime.second, Datetime.minute, Datetime.hour.
    cbn [Datetime.wall]. rewrite (timedelta_of_total _ _ _ E).
    apply shifted_time_fields.
  - by rewrite (get_current_time_overflow s1 a c' Hc') by (by rewrite Hk).
Qed.

(** ** Adding and looking up *)

(** X9.  A clock added to a registry built by the requests is found at the
    index that was the count: [get_clock_at_index] gives there a record with
    the city, the zone and the image of the call, a zero offset and no
    modified flag, and gives [None] one index further.  Every index that led
    to a record before the call leads to the same record after it, with the
    same data. *)
Theorem add_clock_then_lookup (rs : list request) (k : nat)
  (city tzs image : string) (tz : tzinfo) :
  let s := registry rs k in
  pytz_timezone tzs = Some tz →
  ∃ s' new c,
    add_clock city tzs image s = (Ok tt, s') ∧
    get_clock_at_index (Z.of_nat (clock_count s)) s' = (Ok (Some new), s') ∧
    heap s' !! new = Some c ∧
    same_data (mk_ClockNode city tzs tz image None None timedelta_zero false)
      c ∧
    get_clock_at_index (Z.of_nat (clock_count s) + 1) s' = (Ok None, s') ∧
    ∀ index a,
      get_clock_at_index index s = (Ok (Some a), s) →
      get_clock_at_index index s' = (Ok (Some a), s') ∧
      ∃ c0 c1, heap s !! a = Some c0 ∧ heap s' !! a = Some c1 ∧
               same_data c0 c1.
Proof.
  intros s Htz. pose proof (registry_linked rs k) as Hs. fold s in Hs.
  destruct (add_clock_linked city tzs image tz s Htz Hs)
    as (s' & Hrun & Hs' & Ht & Hlen & Hold & (c' & Hc' & Hd)).
  pose proof (linked_count s Hs) as Hn.
  pose proof (linked_count s' Hs') as Hn'.
  exists s', (length (heap s)), c'. split; [done|].
  rewrite !(get_clock_at_index_linked s') by done.
  rewrite Hn', Hlen, Hn.
  rewrite (bool_decide_true (0 <= Z.of_nat (length (heap s)) < _)) by lia.
  rewrite (bool_decide_false (0 <= Z.of_nat (length (heap s)) + 1 < _))
    by lia.
  rewrite Nat2Z.id. do 4 (split; [done|]).
  intros index a. rewrite (get_clock_at_index_linked s) by done.
    rewrite Hn. case_bool_decide as Hi; [|done]. intros [= <-].
    rewrite (get_clock_at_index_linked s') by done. rewrite Hn', Hlen.
  rewrite bool_decide_true by lia. split; [done|].
    destruct (lookup_lt_is_Some_2 (heap s) (Z.to_nat index)) as [c0 Hc0];
      [lia|].
  destruct (Hold _ _ Hc0) as (c1 & Hc1 & Hsame). by exists c0, c1.
Qed.

(** X10.  On a registry built by the requests the indices and the records
    of the ring correspond one to one: no record is the answer of
    [get_clock_at_index] at two indices, and every record of the ring is its
    answer at an index below the count. *)
Theorem index_lookup_one_to_one (rs : list request) (k : nat) :
  let s := registry rs k in
  (∀ i j a,
     get_clock_at_index i s = (Ok (Some a), s) →
     get_clock_at_index j s = (Ok (Some a), s) → i = j) ∧
  (∀ a, a ∈ ring_members s →
     ∃ i, 0 <= i < Z.of_nat (clock_count s) ∧
          get_clock_at_index i s = (Ok (Some a), s)).
Proof.
  intros s. pose proof (registry_linked rs k) as Hs. fold s in Hs.
  pose proof (linked_count s Hs) as Hn. split.
  - intros i j a. rewrite !(get_clock_at_index_linked s) by done.
    do 2 (case_bool_decide; [|done]). intros [= <-] [= E]. lia.
  - intros a Ha. rewrite (linked_ring_members s Hs) in Ha.
    apply elem_of_seq in Ha. exists (Z.of_nat a).
    rewrite (get_clock_at_index_linked s) by done.
    rewrite Hn. split; [lia|]. rewrite bool_decide_true by lia.
    by rewrite Nat2Z.id.
Qed.

(** ** Calls that only read *)

Lemma timestamp_run s :
  timestamp s = (Ok (isoformat_now (ticks s)), advance 1 s).
Proof. unfold timestamp, advance. by rewrite Nat.add_1_r. Qed.

Lemma reads_ret {A} (a : A) : reads (mret a).
Proof. intros s. exists 0%nat. by rewrite advance_0. Qed.

Lemma reads_raise {A} e : reads (raise (A:=A) e).
Proof. intros s. exists 0%nat. by rewrite advance_0. Qed.

Lemma reads_lift {A} (r : result A) : reads (lift r).
Proof. intros s. exists 0%nat. by rewrite advance_0. Qed.

Lemma reads_bind {A B} (m : M A) (f : A → M B) :
  reads m → (∀ a, reads (f a)) → reads (m ≫= f).
Proof.
  intros Hm Hf s. unfold mbind, M_bind.
  destruct (Hm s) as [j Hj]. destruct (m s) as [[a|e] s1]; simpl in Hj.
  - destruct (Hf a s1) as [j' Hj']. exists (j + j')%nat.
    by rewrite Hj', Hj, advance_advance.
  - by exists j.
Qed.

Lemma reads_get_head : reads get_head.
Proof. intros s. exists 0%nat. by rewrite advance_0. Qed.

Lemma reads_get_count : reads get_count.
Proof. intros s. exists 0%nat. by rewrite advance_0. Qed.

Lemma reads_deref a : reads (deref a).
Proof.
  intros s. exists 0%nat. rewrite advance_0. unfold deref.
  by destruct (heap s !! a).
Qed.

Lemma reads_as_object o : reads (as_object o).
Proof. destruct o; [apply reads_ret|apply reads_raise]. Qed.

Lemma reads_now tz : reads (now tz).
Proof.
  intros s. exists 1%nat. unfold now, advance. simpl.
  by rewrite Nat.add_1_r.
Qed.

Lemma reads_timestamp : reads timestamp.
Proof. intros s. exists 1%nat. by rewrite timestamp_run. Qed.

Ltac reads_step :=
  first
    [ apply reads_ret | apply reads_raise | apply reads_lift
    | apply reads_get_head | apply reads_get_count | apply reads_deref
    | apply reads_as_object | apply reads_now | apply reads_timestamp
    | assumption
    | apply reads_bind; [|intros ?]
    | match goal with
      | |- reads (match ?x with _ => _ end) => destruct x
      | |- reads (let _ := _ in _) => cbn zeta
      end ].

Lemma reads_getattr o : reads (getattr o).
Proof. unfold getattr. repeat reads_step. Qed.

Lemma reads_get_current_time a : reads (get_current_time a).
Proof. unfold get_current_time. repeat reads_step. Qed.

Lemma reads_is_daytime a : reads (is_daytime a).
Proof.
  unfold is_daytime. apply reads_bind; [apply reads_get_current_time|].
  intros ?. apply reads_ret.
Qed.

Lemma reads_get_clock_data a : reads (get_clock_data a).
Proof.
  unfold get_clock_data.
  apply reads_bind; [apply reads_get_current_time|]. intros ?.
  apply reads_bind; [apply reads_is_daytime|]. intros ?.
  repeat reads_step.
Qed.

Lemma reads_index_loop n o : reads (index_loop n o).
Proof.
  revert o. induction n as [|n IH]; intros o; cbn [index_loop];
    [apply reads_ret|].
  apply reads_bind; [apply reads_getattr|]. intros ?. apply IH.
Qed.

Lemma reads_get_clock_at_index index : reads (get_clock_at_index index).
Proof.
  unfold get_clock_at_index.
  apply reads_bind; [apply reads_get_head|]. intros ?.
  apply reads_bind; [apply reads_get_count|]. intros ?.
  destruct (_ || _); [apply reads_ret|apply reads_index_loop].
Qed.

Lemma reads_theme_loop n o d : reads (theme_loop n o d).
Proof.
  revert o d. induction n as [|n IH]; intros o d; cbn [theme_loop];
    [apply reads_ret|].
  apply reads_bind; [apply reads_as_object|]. intros ?.
  apply reads_bind; [apply reads_is_daytime|]. intros ?.
  apply reads_bind; [apply reads_deref|]. intros ?. apply IH.
Qed.

Lemma reads_get_dominant_theme : reads get_dominant_theme.
Proof.
  unfold get_dominant_theme.
  apply reads_bind; [apply reads_get_head|]. intros [?|]; [|apply reads_ret].
  apply reads_bind; [apply reads_get_count|]. intros ?.
  apply reads_bind; [apply reads_theme_loop|]. intros ?.
  repeat reads_step.
Qed.

Lemma reads_all_clocks_loop n o acc : reads (all_clocks_loop n o acc).
Proof.
  revert o acc. induction n as [|n IH]; intros o acc; cbn [all_clocks_loop];
    [apply reads_ret|].
  apply reads_bind; [apply reads_as_object|]. intros ?.
  apply reads_bind; [apply reads_get_clock_data|]. intros ?.
  apply reads_bind; [apply reads_deref|]. intros ?. apply IH.
Qed.

Lemma reads_get_all_clocks_data : reads get_all_clocks_data.
Proof.
  unfold get_all_clocks_data.
  apply reads_bind; [apply reads_get_head|]. intros [?|]; [|apply reads_ret].
  apply reads_bind; [apply reads_get_count|]. intros ?.
  apply reads_all_clocks_loop.
Qed.

Lemma reads_structure_loop n i o acc : reads (structure_loop n i o acc).
Proof.
  revert i o acc. induction n as [|n IH]; intros i o acc;
    cbn [structure_loop]; [apply reads_ret|].
  do 3 (apply reads_bind; [apply reads_getattr|]; intros ?).
  apply reads_bind; [apply reads_get_head|]. intros ?. apply IH.
Qed.

Lemma reads_get_list_structure : reads get_list_structure.
Proof.
  unfold get_list_structure.
  apply reads_bind; [apply reads_get_head|]. intros [?|]; [|apply reads_ret].
  apply reads_bind; [apply reads_get_count|]. intros ?.
  apply reads_structure_loop.
Qed.

Lemma reads_calculate_time_difference index1 index2 :
  reads (calculate_time_difference index1 index2).
Proof.
  unfold calculate_time_difference.
  do 2 (apply reads_bind; [apply reads_get_clock_at_index|]; intros [?|]);
    try apply reads_ret.
  do 2 (apply reads_bind; [apply reads_get_current_time|]; intros ?).
  repeat reads_step.
Qed.

Lemma reads_clocks_loop n o h start_hour end_hour air tfh :
  reads (clocks_loop n o h start_hour end_hour air tfh).
Proof.
  revert o air tfh. induction n as [|n IH]; intros o air tfh;
    cbn [clocks_loop]; [apply reads_ret|].
  apply reads_bind; [apply reads_as_object|]. intros ?.
  apply reads_bind; [apply reads_get_current_time|]. intros ?.
  apply reads_bind; [apply reads_lift|]. intros ?.
  apply reads_bind; [apply reads_deref|]. intros ?. apply IH.
Qed.

Lemma reads_hours_loop hours start_hour end_hour optimal :
  reads (hours_loop hours start_hour end_hour optimal).
Proof.
  revert optimal. induction hours as [|h hours IH]; intros optimal;
    cbn [hours_loop]; [apply reads_ret|].
  apply reads_bind; [apply reads_get_head|]. intros ?.
  apply reads_bind; [apply reads_get_count|]. intros ?.
  apply reads_bind; [apply reads_clocks_loop|]. intros ?. apply IH.
Qed.

Lemma reads_find_optimal_meeting_time start_hour end_hour :
  reads (find_optimal_meeting_time start_hour end_hour).
Proof.
  unfold find_optimal_meeting_time.
  apply reads_bind; [apply reads_get_head|]. intros [?|]; [|apply reads_ret].
  apply reads_hours_loop.
Qed.

(** The same of the views. *)

Lemma observes_ret {A} (a : A) : observes (mret a).
Proof. intros [s i]. exists 0%nat. by rewrite advance_0. Qed.

Lemma observes_bind {A B} (v : V A) (f : A → V B) :
  observes v → (∀ a, observes (f a)) → observes (v ≫= f).
Proof.
  intros Hv Hf ap. unfold mbind, V_bind.
  destruct (Hv ap) as [j Hj]. destruct (v ap) as [[a|e] ap1]; simpl in Hj.
  - destruct (Hf a ap1) as [j' Hj']. exists (j + j')%nat.
    rewrite Hj', Hj. cbn [clock_list current_clock_index].
    by rewrite advance_advance.
  - by exists j.
Qed.

Lemma observes_on_clock_list {A} (m : M A) :
  reads m → observes (on_clock_list m).
Proof.
  intros Hm [s i]. unfold on_clock_list. cbn [clock_list current_clock_index].
  destruct (Hm s) as [j Hj]. exists j.
  destruct (m s) as [[a|e] s1]; simpl in *; by rewrite Hj.
Qed.

Lemma observes_get_index : observes get_index.
Proof. intros [s i]. exists 0%nat. by rewrite advance_0. Qed.

Lemma observes_py_mod a n : observes (py_mod a n).
Proof.
  intros [s i]. exists 0%nat. rewrite advance_0. by destruct n.
Qed.

Ltac observes_step :=
  first
    [ apply observes_ret | apply observes_get_index | apply observes_py_mod
    | apply observes_on_clock_list;
      first
        [ apply reads_get_clock_at_index | apply reads_get_clock_data
        | apply reads_is_daytime | apply reads_get_count | apply reads_deref
        | apply reads_as_object | apply reads_timestamp
        | apply reads_get_all_clocks_data | apply reads_get_dominant_theme
        | apply reads_calculate_time_difference
        | apply reads_find_optimal_meeting_time
        | apply reads_get_list_structure ]
    | apply observes_bind; [|intros ?]
    | match goal with
      | |- observes (match ?x with _ => _ end) => destruct x
      | |- observes (let _ := _ in _) => cbn zeta
      end ].

Lemma observes_get_clocks : observes get_clocks.
Proof. unfold get_clocks. repeat observes_step. Qed.

Lemma observes_get_current_clock : observes get_current_clock.
Proof. unfold get_current_clock. repeat observes_step. Qed.

Lemma observes_compare_timezones clock1 clock2 :
  observes (compare_timezones clock1 clock2).
Proof. unfold compare_timezones. repeat observes_step. Qed.

Lemma observes_get_meeting_times start_arg end_arg :
  observes (get_meeting_times start_arg end_arg).
Proof. unfold get_meeting_times. repeat observes_step. Qed.

Lemma observes_get_structure : observes get_structure.
Proof. unfold get_structure. repeat observes_step. Qed.

(** ** The views *)

Lemma get_dominant_theme_run s :
  linked s → in_time (ticks s) (clock_count s) s = true →
  get_dominant_theme s
  = (Ok (if at_least_half (daytime_count s) (clock_count s)
         then "day" else "night")%string,
     advance (clock_count s) s).
Proof.
  intros Hs Ht.
  unfold get_dominant_theme, get_head, get_count, mbind, M_bind.
  unfold daytime_count. rewrite (linked_ring_nodes s Hs).
  rewrite (linked_head s Hs).
  pose proof (linked_count s Hs) as Hc.
  case_decide as Hn.
  - rewrite Hc, Hn. apply nil_length_inv in Hn. rewrite Hn.
    by rewrite advance_0.
  - rewrite theme_loop_linked by (done || lia).
    cbn [advance clock_count]. by rewrite Hc, drop_0, firstn_all.
Qed.

Lemma find_optimal_meeting_time_run s start_hour end_hour :
  linked s → in_time (ticks s) (24 * clock_count s) s = true →
  find_optimal_meeting_time start_hour end_hour s
  = (Ok (match head_clock s with
         | None => []
         | Some _ =>
             meeting_options (ticks s) range24 start_hour end_hour (heap s)
         end),
     advance (24 * clock_count s) s).
Proof.
  intros Hs Ht. unfold find_optimal_meeting_time, get_head, mbind, M_bind.
  pose proof (linked_count s Hs) as Hc. rewrite (linked_head s Hs).
  case_decide as Hn.
  - by rewrite Hc, Hn, advance_0.
  - rewrite hours_loop_linked;
      [by rewrite Hc|done..|apply range24_bounds|by rewrite <- Hc].
Qed.

Lemma linked_lookup s a :
  linked s → (a < clock_count s)%nat →
  ∃ c, heap s !! a = Some c ∧
       next_clock c = Some (succ_in (clock_count s) a) ∧
       previous_clock c = Some (pred_in (clock_count s) a).
Proof.
  intros (Hc & Hh & Hl) Ha. rewrite Hc in *.
  destruct (lookup_lt_is_Some_2 (heap s) a Ha) as [c Hx].
  exists c. split; [done|]. by apply Hl.
Qed.

Ltac view_step := cbn [clock_list current_clock_index].

Lemma carousel_views_no_clock s index :
  linked s → ¬ (0 <= index < Z.of_nat (clock_count s)) →
  get_current_clock (mk_app s index)
  = (Return (JsonError "No clocks available" 404), mk_app s index) ∧
  get_next_clock (mk_app s index)
  = (Return (JsonError "No clocks available" 404), mk_app s index) ∧
  get_previous_clock (mk_app s index)
  = (Return (JsonError "No clocks available" 404), mk_app s index).
Proof.
  intros Hs Hi.
  unfold get_current_clock, get_next_clock, get_previous_clock, mbind,
    V_bind, get_index, on_clock_list.
  view_step. rewrite get_clock_at_index_linked by done.
  by rewrite bool_decide_false by done.
Qed.

Lemma get_current_clock_eq s index c :
  linked s → 0 <= index < Z.of_nat (clock_count s) →
  heap s !! Z.to_nat index = Some c →
  get_current_clock (mk_app s index)
  = if on_time (ticks s) c
    then if on_time (S (ticks s)) c
         then if on_time (ticks s + 2) c
              then (Return
                      (Json (mk_clock_body (snapshot (ticks s) c)
                               (theme_of (daytime (reading (ticks s + 2) c)))
                               index (clock_count s) None
                               (isoformat_now (ticks s + 3)))),
                    mk_app (advance 4 s) index)
              else (Escape (Raised OverflowError), mk_app (advance 3 s) index)
         else (Escape (Raised OverflowError), mk_app (advance 2 s) index)
    else (Escape (Raised OverflowError), mk_app (advance 1 s) index).
Proof.
  intros Hs Hi Hx.
  unfold get_current_clock, mbind, V_bind, get_index, on_clock_list.
  view_step. rewrite get_clock_at_index_linked by done.
  rewrite bool_decide_true by done. view_step.
  rewrite (get_clock_data_run s _ c Hx).
  destruct (on_time (ticks s) c); [|done].
  destruct (on_time (S (ticks s)) c); [|done]. view_step.
  rewrite (is_daytime_run (advance 2 s) _ c Hx). cbn [advance ticks].
  destruct (on_time (ticks s + 2) c); view_step;
    [|by rewrite advance_advance].
  unfold get_count. view_step.
  rewrite timestamp_run. rewrite !advance_advance.
  by cbn [clock_list current_clock_index advance ticks clock_count].
Qed.

Lemma get_current_clock_run s index c :
  linked s → 0 <= index < Z.of_nat (clock_count s) →
  heap s !! Z.to_nat index = Some c →
  if readable (ticks s) 3 c
  then get_current_clock (mk_app s index)
       = (Return
            (Json (mk_clock_body (snapshot (ticks s) c)
                     (theme_of (daytime (reading (ticks s + 2) c)))
                     index (clock_count s) None
                     (isoformat_now (ticks s + 3)))),
          mk_app (advance 4 s) index)
  else ∃ j, get_current_clock (mk_app s index)
            = (Escape (Raised OverflowError), mk_app (advance j s) index).
Proof.
  intros Hs Hi Hx. rewrite (get_current_clock_eq s index c Hs Hi Hx).
  rewrite readable_3.
  destruct (on_time (ticks s) c), (on_time (S (ticks s)) c),
    (on_time (ticks s + 2) c); cbn [andb]; by eauto.
Qed.

Lemma get_next_clock_eq s index c :
  linked s → 0 <= index < Z.of_nat (clock_count s) →
  heap s !! succ_in (clock_count s) (Z.to_nat index) = Some c →
  let index' := (index + 1) mod Z.of_nat (clock_count s) in
  get_next_clock (mk_app s index)
  = if on_time (ticks s) c
    then if on_time (S (ticks s)) c
         then if on_time (ticks s + 2) c
              then (Return
                      (Json (mk_clock_body (snapshot (ticks s) c)
                               (theme_of (daytime (reading (ticks s + 2) c)))
                               index' (clock_count s) (Some "next"%string)
                               (isoformat_now (ticks s + 3)))),
                    mk_app (advance 4 s) index')
              else (Escape (Raised OverflowError), mk_app (advance 3 s) index')
         else (Escape (Raised OverflowError), mk_app (advance 2 s) index')
    else (Escape (Raised OverflowError), mk_app (advance 1 s) index').
Proof.
  intros Hs Hi Hx index'. unfold index'. clear index'.
  destruct (linked_lookup s (Z.to_nat index) Hs) as (c0 & Hx0 & Hl0);
    [lia|].
  destruct Hl0 as [Hn0 Hp0].
  unfold get_next_clock, mbind, V_bind, get_index, on_clock_list.
  view_step. rewrite get_clock_at_index_linked by done.
  rewrite bool_decide_true by done. view_step.
  unfold get_count, py_mod, set_index. view_step.
  destruct (clock_count s) as [|n] eqn:En; [lia|]. view_step.
  unfold deref at 1. rewrite Hx0. view_step. rewrite Hn0.
  cbn [as_object]. unfold mret at 1, M_ret. view_step.
  rewrite (get_clock_data_run s _ c Hx).
  destruct (on_time (ticks s) c); [|done].
  destruct (on_time (S (ticks s)) c); [|done]. view_step.
  rewrite (is_daytime_run (advance 2 s) _ c Hx). cbn [advance ticks].
  destruct (on_time (ticks s + 2) c); view_step;
    [|by rewrite advance_advance].
  rewrite timestamp_run. rewrite !advance_advance.
  cbn [clock_list current_clock_index advance ticks clock_count].
  by rewrite En.
Qed.

Lemma get_next_clock_run s index c :
  linked s → 0 <= index < Z.of_nat (clock_count s) →
  heap s !! succ_in (clock_count s) (Z.to_nat index) = Some c →
  let index' := (index + 1) mod Z.of_nat (clock_count s) in
  if readable (ticks s) 3 c
  then get_next_clock (mk_app s index)
       = (Return
            (Json (mk_clock_body (snapshot (ticks s) c)
                     (theme_of (daytime (reading (ticks s + 2) c)))
                     index' (clock_count s) (Some "next"%string)
                     (isoformat_now (ticks s + 3)))),
          mk_app (advance 4 s) index')
  else ∃ j, get_next_clock (mk_app s index)
            = (Escape (Raised OverflowError), mk_app (advance j s) index').
Proof.
  intros Hs Hi Hx index'.
  rewrite (get_next_clock_eq s index c Hs Hi Hx). fold index'.
  rewrite readable_3.
  destruct (on_time (ticks s) c), (on_time (S (ticks s)) c),
    (on_time (ticks s + 2) c); cbn [andb]; by eauto.
Qed.

Lemma get_previous_clock_eq s index c :
  linked s → 0 <= index < Z.of_nat (clock_count s) →
  heap s !! pred_in (clock_count s) (Z.to_nat index) = Some c →
  let index' := (index - 1) mod Z.of_nat (clock_count s) in
  get_previous_clock (mk_app s index)
  = if on_time (ticks s) c
    then if on_time (S (ticks s)) c
         then if on_time (ticks s + 2) c
              then (Return
                      (Json (mk_clock_body (snapshot (ticks s) c)
                               (theme_of (daytime (reading (ticks s + 2) c)))
                               index' (clock_count s) (Some "previous"%string)
                               (isoformat_now (ticks s + 3)))),
                    mk_app (advance 4 s) index')
              else (Escape (Raised OverflowError), mk_app (advance 3 s) index')
         else (Escape (Raised OverflowError), mk_app (advance 2 s) index')
    else (Escape (Raised OverflowError), mk_app (advance 1 s) index').
Proof.
  intros Hs Hi Hx index'. unfold index'. clear index'.
  destruct (linked_lookup s (Z.to_nat index) Hs) as (c0 & Hx0 & Hl0);
    [lia|].
  destruct Hl0 as [Hn0 Hp0].
  unfold get_previous_clock, mbind, V_bind, get_index, on_clock_list.
  view_step. rewrite get_clock_at_index_linked by done.
  rewrite bool_decide_true by done. view_step.
  unfold get_count, py_mod, set_index. view_step.
  destruct (clock_count s) as [|n] eqn:En; [lia|]. view_step.
  unfold deref at 1. rewrite Hx0. view_step. rewrite Hp0.
  cbn [as_object]. unfold mret at 1, M_ret. view_step.
  rewrite (get_clock_data_run s _ c Hx).
  destruct (on_time (ticks s) c); [|done].
  destruct (on_time (S (ticks s)) c); [|done]. view_step.
  rewrite (is_daytime_run (advance 2 s) _ c Hx). cbn [advance ticks].
  destruct (on_time (ticks s + 2) c); view_step;
    [|by rewrite advance_advance].
  rewrite timestamp_run. rewrite !advance_advance.
  cbn [clock_list current_clock_index advance ticks clock_count].
  by rewrite En.
Qed.

Lemma get_previous_clock_run s index c :
  linked s → 0 <= index < Z.of_nat (clock_count s) →
  heap s !! pred_in (clock_count s) (Z.to_nat index) = Some c →
  let index' := (index - 1) mod Z.of_nat (clock_count s) in
  if readable (ticks s) 3 c
  then get_previous_clock (mk_app s index)
       = (Return
            (Json (mk_clock_body (snapshot (ticks s) c)
                     (theme_of (daytime (reading (ticks s + 2) c)))
                     index' (clock_count s) (Some "previous"%string)
                     (isoformat_now (ticks s + 3)))),
          mk_app (advance 4 s) index')
  else ∃ j, get_previous_clock (mk_app s index)
            = (Escape (Raised OverflowError), mk_app (advance j s) index').
Proof.
  intros Hs Hi Hx index'.
  rewrite (get_previous_clock_eq s index c Hs Hi Hx). fold index'.
  rewrite readable_3.
  destruct (on_time (ticks s) c), (on_time (S (ticks s)) c),
    (on_time (ticks s + 2) c); cbn [andb]; by eauto.
Qed.

Lemma set_time_offset_lookup s a c hours minutes td :
  heap s !! a = Some c → timedelta_of hours minutes = Ok td →
  let s1 := snd (set_time_offset a hours minutes s) in
  set_time_offset a hours minutes s = (Ok tt, s1) ∧ ticks s1 = ticks s ∧
  heap s1 !! a
  = Some (with_is_modified (negb (hours =? 0) || negb (minutes =? 0))
            (with_time_offset td c)).
Proof.
  intros Hx Htd. rewrite (set_time_offset_ok _ _ _ td) by done.
  cbn [snd heap ticks]. split_and!; try done.
  rewrite !list_lookup_alter_eq. by rewrite Hx.
Qed.

Lemma reset_time_offset_lookup s a c :
  heap s !! a = Some c →
  let s1 := snd (reset_time_offset a s) in
  reset_time_offset a s = (Ok tt, s1) ∧ ticks s1 = ticks s ∧
  heap s1 !! a
  = Some (with_is_modified false (with_time_offset timedelta_zero c)).
Proof.
  intros Hx. rewrite reset_time_offset_ok.
  cbn [snd heap ticks]. split_and!; try done.
  rewrite !list_lookup_alter_eq. by rewrite Hx.
Qed.

Lemma post_views_invalid s current index hours minutes :
  linked s →
  ¬ (0 <= default current index < Z.of_nat (clock_count s)) →
  update_clock_time index hours minutes (mk_app s current)
  = (Return (JsonError "Invalid clock index" 400), mk_app s current) ∧
  reset_clock_time index (mk_app s current)
  = (Return (JsonError "Invalid clock index" 400), mk_app s current).
Proof.
  intros Hs Hi.
  unfold update_clock_time, reset_clock_time, mbind, V_bind, get_index,
    on_clock_list.
  view_step. rewrite get_clock_at_index_linked by done.
  by rewrite bool_decide_false by done.
Qed.

Lemma update_clock_time_raise s current index hours minutes e :
  linked s →
  0 <= default current index < Z.of_nat (clock_count s) →
  timedelta_of (default 0 hours) (default 0 minutes) = Raise e →
  update_clock_time index hours minutes (mk_app s current)
  = (Escape (Raised e), mk_app s current).
Proof.
  intros Hs Hi He.
  unfold update_clock_time, mbind, V_bind, get_index, on_clock_list.
  view_step. rewrite get_clock_at_index_linked by done.
  rewrite bool_decide_true by done. view_step.
  by rewrite (set_time_offset_raise _ _ _ e).
Qed.

Lemma update_clock_time_eq s current index hours minutes c td :
  linked s →
  0 <= default current index < Z.of_nat (clock_count s) →
  heap s !! Z.to_nat (default current index) = Some c →
  timedelta_of (default 0 hours) (default 0 minutes) = Ok td →
  let c' :=
    with_is_modified
      (negb (default 0 hours =? 0) || negb (default 0 minutes =? 0))
      (with_time_offset td c) in
  let s1 :=
    snd (set_time_offset (Z.to_nat (default current index))
           (default 0 hours) (default 0 minutes) s) in
  update_clock_time index hours minutes (mk_app s current)
  = if on_time (ticks s) c'
    then if on_time (S (ticks s)) c'
         then if on_time (ticks s + 2) c'
              then (Return
                      (Json (mk_update_body true (snapshot (ticks s) c')
                               (theme_of (daytime (reading (ticks s + 2) c')))
                               ("Time updated for " +:+ city_name c))),
                    mk_app (advance 3 s1) current)
              else (Escape (Raised OverflowError),
                    mk_app (advance 3 s1) current)
         else (Escape (Raised OverflowError), mk_app (advance 2 s1) current)
    else (Escape (Raised OverflowError), mk_app (advance 1 s1) current).
Proof.
  intros Hs Hi Hx Htd c' s1.
  destruct (set_time_offset_lookup s _ c _ _ td Hx Htd) as (Hrun & Ht & Hx').
  fold c' s1 in Hx', Hrun, Ht.
  unfold update_clock_time, mbind, V_bind, get_index, on_clock_list.
  view_step. rewrite get_clock_at_index_linked by done.
  rewrite bool_decide_true by done. view_step.
  rewrite Hrun. view_step.
  rewrite (get_clock_data_run _ _ c' Hx'), Ht.
  destruct (on_time (ticks s) c'); [|done].
  destruct (on_time (S (ticks s)) c'); [|done]. view_step.
  rewrite (is_daytime_run (advance 2 _) _ c' Hx'). cbn [advance ticks].
  rewrite Ht.
  destruct (on_time (ticks s + 2) c'); view_step;
    [|by rewrite advance_advance].
  unfold deref. cbn [advance heap]. rewrite Hx'. view_step.
  by rewrite !advance_advance.
Qed.

Lemma update_clock_time_run s current index hours minutes c td :
  linked s →
  0 <= default current index < Z.of_nat (clock_count s) →
  heap s !! Z.to_nat (default current index) = Some c →
  timedelta_of (default 0 hours) (default 0 minutes) = Ok td →
  let c' :=
    with_is_modified
      (negb (default 0 hours =? 0) || negb (default 0 minutes =? 0))
      (with_time_offset td c) in
  let s1 :=
    snd (set_time_offset (Z.to_nat (default current index))
           (default 0 hours) (default 0 minutes) s) in
  if readable (ticks s) 3 c'
  then update_clock_time index hours minutes (mk_app s current)
       = (Return
            (Json (mk_update_body true (snapshot (ticks s) c')
                     (theme_of (daytime (reading (ticks s + 2) c')))
                     ("Time updated for " +:+ city_name c))),
          mk_app (advance 3 s1) current)
  else ∃ j, update_clock_time index hours minutes (mk_app s current)
            = (Escape (Raised OverflowError), mk_app (advance j s1) current).
Proof.
  intros Hs Hi Hx Htd c' s1.
  rewrite (update_clock_time_eq s current index hours minutes c td
             Hs Hi Hx Htd).
  fold c' s1. rewrite readable_3.
  destruct (on_time (ticks s) c'), (on_time (S (ticks s)) c'),
    (on_time (ticks s + 2) c'); cbn [andb]; by eauto.
Qed.

Lemma reset_clock_time_run s current index c :
  linked s →
  0 <= default current index < Z.of_nat (clock_count s) →
  heap s !! Z.to_nat (default current index) = Some c →
  let c' := with_is_modified false (with_time_offset timedelta_zero c) in
  reset_clock_time index (mk_app s current)
  = (Return
       (Json (mk_update_body true (snapshot (ticks s) c')
                (theme_of (daytime (reading (ticks s + 2) c')))
                ("Time reset for " +:+ city_name c))),
     mk_app
       (advance 3
          (snd (reset_time_offset (Z.to_nat (default current index)) s)))
       current).
Proof.
  intros Hs Hi Hx c'.
  destruct (reset_time_offset_lookup s _ c Hx) as (Hrun & Ht & Hx').
  fold c' in Hx'.
  assert (Hon : ∀ j, on_time j c' = true)
    by (intros j; by apply on_time_zero_offset).
  unfold reset_clock_time, mbind, V_bind, get_index, on_clock_list.
  view_step. rewrite get_clock_at_index_linked by done.
  rewrite bool_decide_true by done. view_step.
  rewrite Hrun. view_step.
  rewrite (get_clock_data_snapshot _ _ c' Hx') by apply Hon. view_step.
  rewrite (is_daytime_reading (advance 2 _) _ c' Hx') by apply Hon.
  view_step.
  unfold deref. cbn [advance heap]. rewrite Hx'. view_step.
  rewrite !advance_advance. cbn [advance ticks]. by rewrite Ht.
Qed.

Lemma compare_timezones_run s current clock1 clock2 :
  linked s →
  if bool_decide (0 <= default 0 clock1 < Z.of_nat (clock_count s) ∧
                  0 <= default 1 clock2 < Z.of_nat (clock_count s))
  then in_time (ticks s) 2 s = true →
       ∃ report,
         calculate_time_difference (default 0 clock1) (default 1 clock2) s
         = (Ok (Some report), advance 2 s) ∧
         compare_timezones clock1 clock2 (mk_app s current)
         = (Return (Json report), mk_app (advance 2 s) current)
  else compare_timezones clock1 clock2 (mk_app s current)
       = (Return (JsonError "Invalid clock indices" 400), mk_app s current).
Proof.
  intros Hs. unfold compare_timezones, mbind, V_bind, on_clock_list.
  view_step. case_bool_decide as Hi.
  - destruct Hi as [H1 H2]. intros Ht.
    destruct (calculate_time_difference_valid s _ _ Hs H1 H2 Ht)
      as [report Hr].
    exists report. split; [done|]. by rewrite Hr.
  - by rewrite (calculate_time_difference_invalid s _ _ Hs Hi).
Qed.

Lemma get_meeting_times_run s current start_arg end_arg :
  linked s → in_time (ticks s) (24 * clock_count s) s = true →
  let meeting_times :=
    match head_clock s with
    | None => []
    | Some _ =>
        meeting_options (ticks s) range24 (default 9 start_arg)
          (default 17 end_arg) (heap s)
    end in
  get_meeting_times start_arg end_arg (mk_app s current)
  = (Return (Json (mk_meeting_body meeting_times (length meeting_times))),
     mk_app (advance (24 * clock_count s) s) current).
Proof.
  intros Hs Ht. unfold get_meeting_times, mbind, V_bind, on_clock_list.
  view_step. by rewrite find_optimal_meeting_time_run by done.
Qed.

Lemma get_structure_run s current :
  linked s →
  get_structure (mk_app s current)
  = (Return
       (Json (mk_structure_body (structure_row s <$> seq 0 (clock_count s))
                (clock_count s) "Doubly Circular Linked List")),
     mk_app s current).
Proof.
  intros Hs. unfold get_structure, mbind, V_bind, on_clock_list, get_count.
  view_step. by rewrite get_list_structure_linked by done.
Qed.

Lemma get_clocks_run s current :
  linked s → in_time (ticks s) (3 * clock_count s) s = true →
  get_clocks (mk_app s current)
  = (Return
       (Json (mk_clocks_body (snapshots (ticks s) (heap s))
                (if at_least_half (daytime_count (advance (2 * clock_count s) s))
                      (clock_count s)
                 then "day" else "night")%string
                (isoformat_now (ticks s + 3 * clock_count s)))),
     mk_app (advance (3 * clock_count s + 1) s) current).
Proof.
  intros Hs Ht. unfold get_clocks, mbind, V_bind, on_clock_list.
  view_step.
  rewrite get_all_clocks_data_linked
    by (done || apply (in_time_weaken _ _ _ _ _ Ht); lia).
  view_step.
  rewrite get_dominant_theme_run
    by (by apply linked_advance
        || (apply (in_time_weaken _ _ _ _ _ Ht);
            cbn [advance ticks clock_count]; lia)).
  view_step.
  rewrite timestamp_run. rewrite !advance_advance.
  rewrite (linked_ring_nodes s Hs).
  cbn [advance ticks clock_count].
  replace (2 * clock_count s + clock_count s)%nat with (3 * clock_count s)%nat
    by lia.
  done.
Qed.

(** ** The states the views reach *)

Lemma index_loop_advance n o m s :
  index_loop n o (advance m s)
  = (fst (index_loop n o s), advance m (snd (index_loop n o s))).
Proof.
  revert o. induction n as [|n IH]; intros o; [done|].
  cbn [index_loop]. unfold getattr, as_object, deref, mbind, M_bind.
  destruct o as [a|]; [|done]. unfold mret, M_ret. cbn [advance heap].
  destruct (heap s !! a) as [c|]; [|done]. apply IH.
Qed.

Lemma handle_advance r m s :
  handle r (advance m s)
  = (fst (handle r s), advance m (snd (handle r s))).
Proof.
  destruct r as [city tzs image|index hours minutes|index]; cbn [handle].
  - unfold add_clock, ClockNode_init, alloc, raise, get_head, getattr,
      setattr, update, set_head, incr_count, as_object, deref, mbind, M_bind,
      mret, M_ret, advance.
    cbn [heap head_clock clock_count ticks].
    destruct (pytz_timezone tzs) as [tz|]; [|done].
    destruct (head_clock s) as [h|]; [|done].
    cbn [heap head_clock clock_count ticks].
    destruct ((heap s ++ _) !! h) as [ch|]; [|done].
    by destruct (previous_clock ch).
  - unfold get_clock_at_index, get_head, get_count, mbind, M_bind.
    cbn [advance heap head_clock clock_count ticks].
    destruct (bool_decide _ || _ || _); [done|].
    fold (advance m s). rewrite index_loop_advance.
    destruct (index_loop _ _ s) as [[[a|]|e] s1]; try done.
    cbn [fst snd]. unfold set_time_offset, lift, update, mbind, M_bind.
    by destruct (timedelta_of hours minutes).
  - unfold get_clock_at_index, get_head, get_count, mbind, M_bind.
    cbn [advance heap head_clock clock_count ticks].
    destruct (bool_decide _ || _ || _); [done|].
    fold (advance m s). rewrite index_loop_advance.
    by destruct (index_loop _ _ s) as [[[a|]|e] s1].
Qed.

Lemma run_advance rs m s : run rs (advance m s) = advance m (run rs s).
Proof.
  revert s. induction rs as [|r rs IH]; intros s; [done|].
  cbn [run fold_left]. rewrite handle_advance. cbn [snd]. apply IH.
Qed.

Lemma registry_advance rs k m :
  advance m (registry rs k) = registry rs (k + m).
Proof. unfold registry. by rewrite <- run_advance. Qed.

Lemma registry_snoc rs r k :
  registry (rs ++ [r]) k = snd (handle r (registry rs k)).
Proof. unfold registry, run. by rewrite fold_left_app. Qed.

Lemma added_cities_app rs rs' :
  added_cities (rs ++ rs') = added_cities rs ++ added_cities rs'.
Proof. unfold added_cities. by rewrite omap_app. Qed.

Lemma registry_count rs k :
  clock_count (registry rs k) = length (added_cities rs).
Proof.
  pose proof (registry_linked rs k) as Hs.
  rewrite <- (registry_cities rs k), length_fmap.
  by rewrite (linked_ring_nodes _ Hs), (linked_count _ Hs).
Qed.

Lemma handle_SetOffset_valid s index hours minutes :
  linked s → 0 <= index < Z.of_nat (clock_count s) →
  snd (handle (SetOffset index hours minutes) s)
  = snd (set_time_offset (Z.to_nat index) hours minutes s).
Proof.
  intros Hs Hi. cbn [handle]. unfold mbind, M_bind.
  rewrite get_clock_at_index_linked by done.
  by rewrite bool_decide_true by done.
Qed.

Lemma handle_ResetOffset_valid s index :
  linked s → 0 <= index < Z.of_nat (clock_count s) →
  snd (handle (ResetOffset index) s)
  = snd (reset_time_offset (Z.to_nat index) s).
Proof.
  intros Hs Hi. cbn [handle]. unfold mbind, M_bind.
  rewrite get_clock_at_index_linked by done.
  by rewrite bool_decide_true by done.
Qed.

Lemma serve_registry rs k index h :
  0 <= index < Z.max 1 (Z.of_nat (clock_count (registry rs k))) →
  ∃ rs' k' index',
    serve h (mk_app (registry rs k) index)
    = mk_app (registry rs' k') index' ∧
    added_cities rs' = added_cities rs ∧ (k <= k')%nat ∧
    0 <= index' < Z.max 1 (Z.of_nat (clock_count (registry rs k))).
Proof.
  intros Hcur. set (s := registry rs k) in *.
  pose proof (registry_linked rs k) as Hs. fold s in Hs.
  assert (Hsame : ∃ rs' k' index',
             mk_app s index = mk_app (registry rs' k') index' ∧
             added_cities rs' = added_cities rs ∧ (k <= k')%nat ∧
             0 <= index' < Z.max 1 (Z.of_nat (clock_count s))).
  { by exists rs, k, index. }
  assert (Hadv : ∀ m index',
             0 <= index' < Z.max 1 (Z.of_nat (clock_count s)) →
             ∃ rs' k' index'',
               mk_app (advance m s) index' = mk_app (registry rs' k') index'' ∧
               added_cities rs' = added_cities rs ∧ (k <= k')%nat ∧
               0 <= index'' < Z.max 1 (Z.of_nat (clock_count s))).
  { intros m index' Hi. exists rs, (k + m)%nat, index'.
    unfold s in *. rewrite registry_advance. split_and!; try done; lia. }
  assert (Hobs : ∀ A (v : V A),
             observes v →
             ∃ rs' k' index',
               snd (v (mk_app s index)) = mk_app (registry rs' k') index' ∧
               added_cities rs' = added_cities rs ∧ (k <= k')%nat ∧
               0 <= index' < Z.max 1 (Z.of_nat (clock_count s))).
  { intros A v Hv. destruct (Hv (mk_app s index)) as [j ->].
    by apply Hadv. }
  destruct h as [| | | |i hours minutes|i|clock1 clock2|start_arg end_arg|];
    cbn [serve].
  - apply Hobs, observes_get_clocks.
  - apply Hobs, observes_get_current_clock.
  - destruct (decide (0 <= index < Z.of_nat (clock_count s))) as [Hi|Hi].
    + destruct (linked_lookup s (succ_in (clock_count s) (Z.to_nat index)) Hs)
        as (c & Hx & _); [apply succ_in_lt; lia|].
      pose proof (Z.mod_pos_bound (index + 1) (Z.of_nat (clock_count s))).
      pose proof (get_next_clock_run s index c Hs Hi Hx) as Hrun.
      cbn zeta in Hrun.
      destruct (readable (ticks s) 3 c); [|destruct Hrun as [j Hrun]];
        rewrite Hrun; apply Hadv; lia.
    + by destruct (carousel_views_no_clock s index Hs Hi) as (_ & -> & _).
  - destruct (decide (0 <= index < Z.of_nat (clock_count s))) as [Hi|Hi].
    + destruct (linked_lookup s (pred_in (clock_count s) (Z.to_nat index)) Hs)
        as (c & Hx & _); [apply pred_in_lt; lia|].
      pose proof (Z.mod_pos_bound (index - 1) (Z.of_nat (clock_count s))).
      pose proof (get_previous_clock_run s index c Hs Hi Hx) as Hrun.
      cbn zeta in Hrun.
      destruct (readable (ticks s) 3 c); [|destruct Hrun as [j Hrun]];
        rewrite Hrun; apply Hadv; lia.
    + by destruct (carousel_views_no_clock s index Hs Hi) as (_ & _ & ->).
  - destruct (decide (0 <= default index i < Z.of_nat (clock_count s)))
      as [Hi|Hi].
    + destruct (linked_lookup s (Z.to_nat (default index i)) Hs)
        as (c & Hx & _); [lia|].
      destruct (timedelta_of (default 0 hours) (default 0 minutes))
        as [td|e] eqn:Htd.
      * pose proof (update_clock_time_run s index i hours minutes c td
                      Hs Hi Hx Htd) as Hrun.
        cbn zeta in Hrun.
        assert (∃ j, snd (update_clock_time i hours minutes (mk_app s index))
                     = mk_app
                         (advance j
                            (snd (handle
                                    (SetOffset (default index i)
                                       (default 0 hours) (default 0 minutes))
                                    s)))
                         index) as [j ->].
        { rewrite (handle_SetOffset_valid s (default index i)) by done.
          destruct (readable _ 3 _); [|destruct Hrun as [j Hrun]];
            rewrite Hrun; by eexists. }
        unfold s. rewrite <- registry_snoc, registry_advance.
        eexists _, _, _. split; [done|]. rewrite added_cities_app.
        unfold s in *. split_and!; [by rewrite app_nil_r|lia..].
      * by rewrite (update_clock_time_raise s index i hours minutes e).
    + by destruct (post_views_invalid s index i hours minutes Hs Hi)
        as (-> & _).
  - destruct (decide (0 <= default index i < Z.of_nat (clock_count s)))
      as [Hi|Hi].
    + destruct (linked_lookup s (Z.to_nat (default index i)) Hs)
        as (c & Hx & _); [lia|].
      rewrite (reset_clock_time_run s index i c) by done.
      cbn [snd].
      rewrite <- (handle_ResetOffset_valid s (default index i)) by done.
      unfold s. rewrite <- registry_snoc, registry_advance.
      eexists _, _, _. split; [done|]. rewrite added_cities_app.
      unfold s in *. split_and!; [by rewrite app_nil_r|lia..].
    + by destruct (post_views_invalid s index i None None Hs Hi)
        as (_ & ->).
  - apply Hobs, observes_compare_timezones.
  - apply Hobs, observes_get_meeting_times.
  - apply Hobs, observes_get_structure.
Qed.

Lemma served_registry rs k hs :
  let ap := served rs k hs in
  ∃ rs' k',
    clock_list ap = registry rs' k' ∧
    added_cities rs' = added_cities rs ∧ (k <= k')%nat ∧
    clock_count (clock_list ap) = clock_count (registry rs k) ∧
    0 <= current_clock_index ap
    < Z.max 1 (Z.of_nat (clock_count (clock_list ap))).
Proof.
  cbn zeta. unfold served.
  assert (Hgen : ∀ rs0 k0 index0,
            added_cities rs0 = added_cities rs → (k <= k0)%nat →
            0 <= index0 < Z.max 1 (Z.of_nat (clock_count (registry rs0 k0))) →
            let ap := fold_left (fun ap h => serve h ap) hs
                        (mk_app (registry rs0 k0) index0) in
            ∃ rs' k',
              clock_list ap = registry rs' k' ∧
              added_cities rs' = added_cities rs ∧ (k <= k')%nat ∧
              clock_count (clock_list ap) = clock_count (registry rs k) ∧
              0 <= current_clock_index ap
              < Z.max 1 (Z.of_nat (clock_count (clock_list ap)))).
  { induction hs as [|h hs IH]; intros rs0 k0 index0 Hc Hk Hi.
    - exists rs0, k0. cbn [fold_left clock_list current_clock_index].
      do 3 (split; [done|]). split; [|done].
      by rewrite !registry_count, Hc.
    - cbn [fold_left].
      destruct (serve_registry rs0 k0 index0 h Hi)
        as (rs1 & k1 & index1 & -> & Hc1 & Hk1 & Hi1).
      apply IH; [congruence|lia|].
      by rewrite registry_count, Hc1, <- registry_count with (k := k0). }
  apply Hgen; [done|lia|]. rewrite registry_count. lia.
Qed.

Lemma registry_city_lookup rs k a c :
  heap (registry rs k) !! a = Some c →
  added_cities rs !! a = Some (city_name c).
Proof.
  intros Hx. rewrite <- (registry_cities rs k).
  rewrite (linked_ring_nodes _ (registry_linked rs k)).
  by rewrite list_lookup_fmap, Hx.
Qed.

Lemma succ_in_Z n index :
  0 <= index < Z.of_nat n →
  succ_in n (Z.to_nat index) = Z.to_nat ((index + 1) mod Z.of_nat n).
Proof.
  intros Hi. unfold succ_in. case_decide as E.
  - replace (index + 1) with (Z.of_nat n) by lia.
    by rewrite Z_mod_same_full.
  - rewrite Z.mod_small by lia. lia.
Qed.

Lemma pred_in_Z n index :
  0 <= index < Z.of_nat n →
  pred_in n (Z.to_nat index) = Z.to_nat ((index - 1) mod Z.of_nat n).
Proof.
  intros Hi. unfold pred_in. case_decide as E.
  - rewrite <- (Z.mod_unique (index - 1) (Z.of_nat n) (-1) (Z.of_nat n - 1))
      by lia. lia.
  - rewrite Z.mod_small by lia. lia.
Qed.

(** ** What the views answer *)

(** X11.  With the cursor on a record of a registry built by the requests,
    the view [get_next_clock] moves the cursor one step forward, around the
    end to 0, to the record [get_clock_at_index] gives there, which is the
    clock added in that position.  When the three readings of the time of
    that record are in range, the view answers with the new cursor, the
    count and the snapshot of that record: the record shown and the cursor
    stay together.  When one is not, its [OverflowError] escapes the view,
    and the cursor has moved all the same. *)
Theorem next_view_follows_ring (rs : list request) (k : nat) (index : Z) :
  let s := registry rs k in
  let index' := (index + 1) mod Z.of_nat (clock_count s) in
  0 <= index < Z.of_nat (clock_count s) →
  ∃ a c,
    get_clock_at_index index' s = (Ok (Some a), s) ∧
    heap s !! a = Some c ∧
    added_cities rs !! Z.to_nat index' = Some (city_name c) ∧
    if readable k 3 c
    then ∃ body,
           get_next_clock (mk_app s index)
           = (Return (Json body), mk_app (advance 4 s) index') ∧
           kb_index body = index' ∧
           kb_total body = clock_count s ∧
           kb_direction body = Some "next"%string ∧
           kb_clock body = snapshot k c ∧
           kb_theme body = theme_of (daytime (reading (k + 2) c)) ∧
           cd_city (kb_clock body) = city_name c
    else ∃ j,
           get_next_clock (mk_app s index)
           = (Escape (Raised OverflowError), mk_app (advance j s) index').
Proof.
  intros s index' Hi. pose proof (registry_linked rs k) as Hs. fold s in Hs.
  pose proof (Z.mod_pos_bound (index + 1) (Z.of_nat (clock_count s))
                ltac:(lia)) as Hm.
  fold index' in Hm.
  destruct (linked_lookup s (succ_in (clock_count s) (Z.to_nat index)) Hs)
    as (c & Hx & _); [apply succ_in_lt; lia|].
  pose proof (get_next_clock_run s index c Hs Hi Hx) as Hrun.
  cbn zeta in Hrun. fold index' in Hrun.
  rewrite succ_in_Z in Hx by done. fold index' in Hx.
  exists (Z.to_nat index'), c.
  rewrite (get_clock_at_index_linked s) by done.
  rewrite bool_decide_true by done. do 2 (split; [done|]).
  split; [apply (registry_city_lookup rs k _ c Hx)|].
  unfold s in Hrun at 1 2 3 4. rewrite registry_ticks in Hrun.
  destruct (readable k 3 c); [|done].
  eexists (mk_clock_body _ _ _ _ _ _).
  cbn [kb_index kb_total kb_direction kb_clock kb_theme].
  split; [exact Hrun|]. by cbn [kb_index kb_total kb_direction
    kb_clock kb_theme].
Qed.

(** X12.  With the cursor on a record of a registry built by the requests,
    the view [get_previous_clock] moves the cursor one step back, from 0
    around to the last index, to the record [get_clock_at_index] gives
    there.  When the three readings of the time of that record are in
    range, the view answers with the new cursor, the count and the snapshot
    of that record; when one is not, its [OverflowError] escapes the view,
    and the cursor has moved all the same. *)
Theorem previous_view_follows_ring (rs : list request) (k : nat)
  (index : Z) :
  let s := registry rs k in
  let index' := (index - 1) mod Z.of_nat (clock_count s) in
  0 <= index < Z.of_nat (clock_count s) →
  (index' = if index =? 0 then Z.of_nat (clock_count s) - 1
            else index - 1) ∧
  ∃ a c,
    get_clock_at_index index' s = (Ok (Some a), s) ∧
    heap s !! a = Some c ∧
    added_cities rs !! Z.to_nat index' = Some (city_name c) ∧
    if readable k 3 c
    then ∃ body,
           get_previous_clock (mk_app s index)
           = (Return (Json body), mk_app (advance 4 s) index') ∧
           kb_index body = index' ∧
           kb_total body = clock_count s ∧
           kb_direction body = Some "previous"%string ∧
           kb_clock body = snapshot k c ∧
           kb_theme body = theme_of (daytime (reading (k + 2) c)) ∧
           cd_city (kb_clock body) = city_name c
    else ∃ j,
           get_previous_clock (mk_app s index)
           = (Escape (Raised OverflowError), mk_app (advance j s) index').
Proof.
  intros s index' Hi. pose proof (registry_linked rs k) as Hs. fold s in Hs.
  pose proof (Z.mod_pos_bound (index - 1) (Z.of_nat (clock_count s))
                ltac:(lia)) as Hm.
  fold index' in Hm.
  destruct (linked_lookup s (pred_in (clock_count s) (Z.to_nat index)) Hs)
    as (c & Hx & _); [apply pred_in_lt; lia|].
  pose proof (get_previous_clock_run s index c Hs Hi Hx) as Hrun.
  cbn zeta in Hrun. fold index' in Hrun.
  pose proof (pred_in_Z (clock_count s) index Hi) as Hp. fold index' in Hp.
  rewrite Hp in Hx. split.
  { rewrite <- (Z2Nat.id index') by lia. rewrite <- Hp.
    unfold pred_in. case_decide; destruct (Z.eqb_spec index 0); lia. }
  exists (Z.to_nat index'), c.
  rewrite (get_clock_at_index_linked s) by done.
  rewrite bool_decide_true by done. do 2 (split; [done|]).
  split; [apply (registry_city_lookup rs k _ c Hx)|].
  unfold s in Hrun at 1 2 3 4. rewrite registry_ticks in Hrun.
  destruct (readable k 3 c); [|done].
  eexists (mk_clock_body _ _ _ _ _ _).
  cbn [kb_index kb_total kb_direction kb_clock kb_theme].
  split; [exact Hrun|]. by cbn [kb_index kb_total kb_direction
    kb_clock kb_theme].
Qed.

(** X13.  Whatever requests the application has served, the three views of
    the carousel answer 404 exactly when no clock was ever added, and they
    then change nothing.  Otherwise the cursor is on the record of the
    clock added in that position, and [get_current_clock] leaves it there:
    when the three readings of the time of that record are in range, it
    answers with the cursor as it is, the number of clocks added and the
    snapshot of that record; when one is not, its [OverflowError] escapes
    the view. *)
Theorem current_view_of_served_app (rs : list request) (k : nat)
  (hs : list http_request) :
  let ap := served rs k hs in
  let s := clock_list ap in
  let index := current_clock_index ap in
  match added_cities rs with
  | [] =>
      get_current_clock ap
      = (Return (JsonError "No clocks available" 404), ap) ∧
      get_next_clock ap
      = (Return (JsonError "No clocks available" 404), ap) ∧
      get_previous_clock ap
      = (Return (JsonError "No clocks available" 404), ap)
  | _ :: _ =>
      (∀ error status,
         fst (get_current_clock ap) ≠ Return (JsonError error status) ∧
         fst (get_next_clock ap) ≠ Return (JsonError error status) ∧
         fst (get_previous_clock ap) ≠ Return (JsonError error status)) ∧
      ∃ a c,
        get_clock_at_index index s = (Ok (Some a), s) ∧
        heap s !! a = Some c ∧
        added_cities rs !! Z.to_nat index = Some (city_name c) ∧
        if readable (ticks s) 3 c
        then ∃ body,
               get_current_clock ap
               = (Return (Json body), mk_app (advance 4 s) index) ∧
               kb_index body = index ∧
               kb_total body = length (added_cities rs) ∧
               kb_direction body = None ∧
               kb_clock body = snapshot (ticks s) c
        else ∃ j,
               get_current_clock ap
               = (Escape (Raised OverflowError), mk_app (advance j s) index)
  end.
Proof.
  cbn zeta.
  destruct (served_registry rs k hs) as (rs' & k' & Hreg & Hc & _ & _ & Hi).
  cbn zeta in Hreg, Hi. destruct (served rs k hs) as [s index].
  cbn [clock_list current_clock_index] in *.
  assert (Hs : linked s) by (rewrite Hreg; apply registry_linked).
  assert (Hn : clock_count s = length (added_cities rs)).
  { by rewrite Hreg, registry_count, Hc. }
  destruct (added_cities rs) as [|city cities] eqn:E.
  - apply carousel_views_no_clock; [done|].
    rewrite Hn. simpl. lia.
  - assert (Hv : 0 <= index < Z.of_nat (clock_count s)).
    { rewrite Hn in *. simpl in *. lia. }
    destruct (linked_lookup s (Z.to_nat index) Hs) as (c & Hx & _); [lia|].
    pose proof (get_current_clock_run s index c Hs Hv Hx) as Hrun.
    split.
    { intros error status.
      destruct (linked_lookup s (succ_in (clock_count s) (Z.to_nat index)) Hs)
        as (cn & Hxn & _); [apply succ_in_lt; lia|].
      destruct (linked_lookup s (pred_in (clock_count s) (Z.to_nat index)) Hs)
        as (cp & Hxp & _); [apply pred_in_lt; lia|].
      pose proof (get_next_clock_run s index cn Hs Hv Hxn) as Hnext.
      pose proof (get_previous_clock_run s index cp Hs Hv Hxp) as Hprev.
      cbn zeta in Hnext, Hprev.
      destruct (readable (ticks s) 3 c); [|destruct Hrun as [j1 Hrun]];
        (destruct (readable (ticks s) 3 cn);
           [|destruct Hnext as [j2 Hnext]]);
        (destruct (readable (ticks s) 3 cp);
           [|destruct Hprev as [j3 Hprev]]);
        by rewrite Hrun, Hnext, Hprev. }
    exists (Z.to_nat index), c.
    rewrite (get_clock_at_index_linked s) by done.
    rewrite bool_decide_true by done. do 2 (split; [done|]).
    split.
    { rewrite Hreg in Hx.
      pose proof (registry_city_lookup rs' k' _ c Hx) as Hcity.
      by rewrite Hc in Hcity. }
    destruct (readable (ticks s) 3 c); [|done].
    eexists (mk_clock_body _ _ _ _ _ _).
    cbn [kb_index kb_total kb_direction kb_clock kb_theme].
    split; [exact Hrun|]. by cbn [kb_index kb_total kb_direction
      kb_clock kb_theme].
Qed.





(** X15.  Whatever requests the application has served, its [clock_list]
    is a registry built by the calls that change one, with the clocks that
    were added at the start: no view adds or removes a record.  The cursor
    [current_clock_index] is never negative, and it is below the count
    whenever there is a record, so it always designates one. *)
Theorem views_keep_registry_and_cursor (rs : list request) (k : nat)
  (hs : list http_request) :
  let ap := served rs k hs in
  (∃ rs' k',
     clock_list ap = registry rs' k' ∧
     added_cities rs' = added_cities rs ∧ (k <= k')%nat) ∧
  clock_count (clock_list ap) = length (added_cities rs) ∧
  0 <= current_clock_index ap ∧
  (added_cities rs ≠ [] →
   current_clock_index ap < Z.of_nat (clock_count (clock_list ap))) ∧
  (added_cities rs = [] → current_clock_index ap = 0).
Proof.
  intros ap.
  destruct (served_registry rs k hs)
    as (rs' & k' & Hreg & Hc & Hk & Hn & Hi).
  fold ap in Hreg, Hn, Hi. rewrite registry_count in Hn.
  split; [by exists rs', k'|]. split; [done|]. rewrite Hn in *.
  split; [lia|]. split.
  - intros Hne. destruct (added_cities rs); [done|]. simpl in *. lia.
  - intros E. rewrite E in Hi. simpl in Hi. lia.
Qed.

(** ** The views that change or compare clocks *)

(** X16.  [update_clock_time] on a valid index, the cursor when the request
    gives none, with an offset [timedelta] accepts: the record of the clock
    added at that index then holds the offset, with the modified flag set
    exactly when one of the two numbers is not zero (a missing one counts
    as zero), and the cursor is not moved.  When the three readings of the
    new time of that record are in range, the view answers with success,
    the city in the message and in the snapshot, that flag and the offset
    entries of the total of minutes.  When one is not, its [OverflowError]
    escapes the view, and the record keeps the offset. *)
Theorem update_view_sets_offset (rs : list request) (k : nat) (current : Z)
  (index hours minutes : option Z) (td : timedelta) :
  let s := registry rs k in
  let i := default current index in
  let h := default 0 hours in
  let m := default 0 minutes in
  0 <= i < Z.of_nat (clock_count s) →
  timedelta_of h m = Ok td →
  ∃ a c c' s1,
    get_clock_at_index i s = (Ok (Some a), s) ∧
    heap s !! a = Some c ∧
    added_cities rs !! Z.to_nat i = Some (city_name c) ∧
    set_time_offset a h m s = (Ok tt, s1) ∧
    get_clock_at_index i s1 = (Ok (Some a), s1) ∧
    heap s1 !! a = Some c' ∧
    time_offset c' = td ∧
    is_modified c' = negb (h =? 0) || negb (m =? 0) ∧
    clock_count s1 = clock_count s ∧
    if readable k 3 c'
    then ∃ body,
           update_clock_time index hours minutes (mk_app s current)
           = (Return (Json body), mk_app (advance 3 s1) current) ∧
           ub_success body = true ∧
           ub_message body = "Time updated for " +:+ city_name c ∧
           ub_clock body = snapshot k c' ∧
           cd_city (ub_clock body) = city_name c ∧
           cd_is_modified (ub_clock body) = negb (h =? 0) || negb (m =? 0) ∧
           cd_offset_hours (ub_clock body) = (60 * h + m) / 60 ∧
           cd_offset_minutes (ub_clock body) = (60 * h + m) mod 60
    else ∃ j,
           update_clock_time index hours minutes (mk_app s current)
           = (Escape (Raised OverflowError), mk_app (advance j s1) current).
Proof.
  intros s i h m Hi Htd. pose proof (registry_linked rs k) as Hs.
  fold s in Hs.
  destruct (linked_lookup s (Z.to_nat i) Hs) as (c & Hx & _); [lia|].
  pose proof (update_clock_time_run s current index hours minutes c td
                Hs Hi Hx Htd) as Hrun.
  cbn zeta in Hrun. fold i h m in Hrun.
  destruct (set_time_offset_lookup s _ c _ _ td Hx Htd) as (Hset & _ & Hx').
  destruct (set_time_offset_frame (Z.to_nat i) h m s)
    as ((_ & Hcount & _) & _ & Hl).
  destruct (offset_entries _ _ _ Htd) as [Hoh Hom].
  eexists (Z.to_nat i), c, _, _.
  rewrite (get_clock_at_index_linked s) by done.
  rewrite bool_decide_true by done. do 2 (split; [done|]).
  split; [apply (registry_city_lookup rs k _ c Hx)|].
  split; [exact Hset|].
  rewrite get_clock_at_index_linked by (by apply Hl).
  rewrite Hcount. rewrite bool_decide_true by done.
  split; [done|]. split; [exact Hx'|]. do 3 (split; [done|]).
  unfold s in Hrun at 1 2 3 4. rewrite registry_ticks in Hrun.
  destruct (readable k 3 _); [|done].
  eexists (mk_update_body _ _ _ _).
  cbn [ub_success ub_clock ub_theme ub_message].
  split; [exact Hrun|]. by cbn [ub_success ub_clock ub_theme ub_message].
Qed.

(** X17.  The two POST views refuse an index that designates no record, the
    cursor included when the request gives no index: they answer 400 and
    change nothing.  When [timedelta] refuses the offset, its
    [OverflowError] escapes [update_clock_time], and nothing is changed
    either. *)
Theorem post_views_change_nothing_on_error (rs : list request) (k : nat)
  (current : Z) (index hours minutes : option Z) :
  let s := registry rs k in
  let ap := mk_app s current in
  let i := default current index in
  (¬ (0 <= i < Z.of_nat (clock_count s)) →
   update_clock_time index hours minutes ap
   = (Return (JsonError "Invalid clock index" 400), ap) ∧
   reset_clock_time index ap
   = (Return (JsonError "Invalid clock index" 400), ap)) ∧
  (0 <= i < Z.of_nat (clock_count s) →
   Z.abs ((default 0 hours * 3600 + default 0 minutes * 60) / 86400)
   > MAX_DELTA_DAYS →
   update_clock_time index hours minutes ap
   = (Escape (Raised OverflowError), ap)).
Proof.
  intros s ap i. pose proof (registry_linked rs k) as Hs. fold s in Hs.
  split.
  - intros Hi. by apply post_views_invalid.
  - intros Hi Hbig. apply update_clock_time_raise; [done..|].
    unfold timedelta_of. cbn zeta.
    destruct (Z.gtb_spec
                (Z.abs ((default 0 hours * 3600 + default 0 minutes * 60)
                        / 86400)) MAX_DELTA_DAYS); [done|lia].
Qed.

(** X18.  [reset_clock_time] on a valid index, the cursor when the request
    gives none: the view answers with success and a snapshot that is not
    modified, has zero offset entries and shows the time of the zone
    itself.  The record then holds a zero offset and no modified flag, and
    the cursor is not moved. *)
Theorem reset_view_restores_zone_time (rs : list request) (k : nat)
  (current : Z) (index : option Z) :
  let s := registry rs k in
  let i := default current index in
  0 <= i < Z.of_nat (clock_count s) →
  ∃ body s' a c c',
    reset_clock_time index (mk_app s current)
    = (Return (Json body), mk_app s' current) ∧
    ub_success body = true ∧
    ub_message body = "Time reset for " +:+ cd_city (ub_clock body) ∧
    added_cities rs !! Z.to_nat i = Some (cd_city (ub_clock body)) ∧
    cd_is_modified (ub_clock body) = false ∧
    cd_offset_hours (ub_clock body) = 0 ∧
    cd_offset_minutes (ub_clock body) = 0 ∧
    get_clock_at_index i s = (Ok (Some a), s) ∧ heap s !! a = Some c ∧
    cd_hour (ub_clock body) = Datetime.hour (datetime_now k (timezone c)) ∧
    cd_minute (ub_clock body)
    = Datetime.minute (datetime_now k (timezone c)) ∧
    cd_second (ub_clock body)
    = Datetime.second (datetime_now k (timezone c)) ∧
    get_clock_at_index i s' = (Ok (Some a), s') ∧
    heap s' !! a = Some c' ∧
    time_offset c' = timedelta_zero ∧ is_modified c' = false.
Proof.
  intros s i Hi. pose proof (registry_linked rs k) as Hs. fold s in Hs.
  destruct (linked_lookup s (Z.to_nat i) Hs) as (c & Hx & _); [lia|].
  rewrite (reset_clock_time_run s current index c) by done.
  fold i.
  destruct (reset_time_offset_lookup s _ c Hx) as (_ & _ & Hx').
  destruct (reset_time_offset_frame (Z.to_nat i) s)
    as ((_ & Hcount & _) & _ & Hl).
  assert (Hwall : ∀ t : datetime, Datetime.shift t timedelta_zero = t).
  { intros [w]. unfold Datetime.shift. cbn [Datetime.wall].
    change (total_seconds timedelta_zero) with 0. by rewrite Z.add_0_r. }
  eexists (mk_update_body _ _ _ _), _, (Z.to_nat i), c, _.
  cbn [ub_success ub_clock ub_theme ub_message].
  split; [reflexivity|]. do 2 (split; [done|]).
  split; [apply (registry_city_lookup rs k _ c Hx)|].
  do 3 (split; [done|]).
  rewrite (get_clock_at_index_linked s) by done.
  rewrite bool_decide_true by done. do 2 (split; [done|]).
  unfold snapshot, reading.
  cbn [cd_hour cd_minute cd_second with_is_modified with_time_offset
       timezone time_offset].
  rewrite Hwall. unfold s at 1 2 3. rewrite registry_ticks.
  do 3 (split; [done|]).
  rewrite get_clock_at_index_linked by (apply linked_advance; by apply Hl).
  cbn [advance clock_count heap]. rewrite Hcount.
  rewrite bool_decide_true by done. by rewrite Hx'.
Qed.



Lemma default_hours_between :
  filter (fun h => 9 <= h < 17) range24 = [9; 10; 11; 12; 13; 14; 15; 16].
Proof. by vm_compute. Qed.

(** X20.  [get_meeting_times] searches the hours from 9 to 17 where the
    request gives none.  Its [total_options] is the number of options it
    lists: none on the empty registry, and otherwise the number of hours of
    the day from the start on and before the end, so with no arguments the
    eight hours from 9 to 16.  The view reads the clock 24 times for each
    record and does not move the cursor.  All this when the times it reads
    are in range. *)
Theorem meeting_view_counts_options (rs : list request) (k : nat)
  (current : Z) (start_arg end_arg : option Z) :
  let s := registry rs k in
  let start_hour := default 9 start_arg in
  let end_hour := default 17 end_arg in
  in_time k (24 * clock_count s) s = true →
  ∃ body,
    get_meeting_times start_arg end_arg (mk_app s current)
    = (Return (Json body),
       mk_app (advance (24 * clock_count s) s) current) ∧
    find_optimal_meeting_time start_hour end_hour s
    = (Ok (optimal_times body), advance (24 * clock_count s) s) ∧
    total_options body = length (optimal_times body) ∧
    total_options body
    = (if decide (clock_count s = 0%nat) then 0%nat
       else Z.to_nat (Z.min end_hour 24 - Z.max start_hour 0)) ∧
    (start_arg = None → end_arg = None → clock_count s ≠ 0%nat →
     reference_hour <$> optimal_times body
     = [9; 10; 11; 12; 13; 14; 15; 16]).
Proof.
  intros s start_hour end_hour Ht.
  pose proof (registry_linked rs k) as Hs. fold s in Hs.
  pose proof (linked_count s Hs) as Hc.
  pose proof (linked_head s Hs) as Hh.
  assert (Ht' : in_time (ticks s) (24 * clock_count s) s = true).
  { unfold s at 1. by rewrite registry_ticks. }
  rewrite (get_meeting_times_run s current start_arg end_arg Hs Ht').
  rewrite (find_optimal_meeting_time_run s start_hour end_hour Hs Ht').
  fold start_hour end_hour.
  eexists (mk_meeting_body _ _). cbn [optimal_times total_options].
  do 3 (split; [reflexivity|]). rewrite Hh, Hc.
  case_decide as Hn; [done|].
  assert (Hnodes : heap s ≠ []) by (intros E; by rewrite E in Hn).
  pose proof (meeting_options_hours (ticks s) range24 start_hour end_hour
                (heap s) range24_bounds Hnodes) as Hhours.
  split.
  - rewrite <- hours_between_length, <- Hhours. by rewrite length_fmap.
  - intros Hs1 He1 _. rewrite Hhours. unfold start_hour, end_hour.
    rewrite Hs1, He1. apply default_hours_between.
Qed.

Lemma structure_rows_cities s :
  linked s →
  se_city <$> (structure_row s <$> seq 0 (clock_count s))
  = city_name <$> heap s.
Proof.
  intros Hs. pose proof (linked_count s Hs) as Hc.
  apply list_eq. intros i. rewrite !list_lookup_fmap.
  destruct (decide (i < clock_count s)%nat) as [Hi|Hi].
  - rewrite lookup_seq_lt by done. simpl.
    destruct (lookup_lt_is_Some_2 (heap s) i) as [c Hci]; [lia|].
    rewrite Hci. simpl. f_equal. apply linked_city_at; [done|].
    by rewrite Nat.mod_small by lia.
  - rewrite lookup_seq_ge by lia. rewrite lookup_ge_None_2 by lia. done.
Qed.

(** X21.  [get_structure] and [get_clocks] list the same clocks: both give
    one entry for each clock added, in the order they were added, and
    [total_nodes] is that number.  [get_structure] reads no time and
    changes nothing; [get_clocks], when the times it reads are in range,
    reads the clock three times for each record and once for the
    timestamp, and names the theme of [get_dominant_theme].  Neither moves
    the cursor. *)
Theorem listing_views_agree (rs : list request) (k : nat) (current : Z) :
  let s := registry rs k in
  let ap := mk_app s current in
  ∃ sbody,
    get_structure ap = (Return (Json sbody), ap) ∧
    se_city <$> sb_structure sbody = added_cities rs ∧
    total_nodes sbody = length (added_cities rs) ∧
    (in_time k (3 * clock_count s) s = true →
     ∃ cbody,
       get_clocks ap
       = (Return (Json cbody),
          mk_app (advance (3 * clock_count s + 1) s) current) ∧
       cd_city <$> cb_clocks cbody = added_cities rs ∧
       fst (get_dominant_theme (advance (2 * clock_count s) s))
       = Ok (cb_theme cbody) ∧
       cb_timestamp cbody = isoformat_now (k + 3 * clock_count s)).
Proof.
  intros s ap. pose proof (registry_linked rs k) as Hs. fold s in Hs.
  unfold ap. rewrite (get_structure_run s current Hs).
  pose proof (registry_cities rs k) as Hcities. fold s in Hcities.
  rewrite (linked_ring_nodes s Hs) in Hcities.
  eexists (mk_structure_body _ _ _).
  cbn [sb_structure total_nodes].
  split; [reflexivity|]. split; [by rewrite structure_rows_cities|].
  split; [unfold s; by rewrite registry_count|].
  intros Ht.
  assert (Ht' : in_time (ticks s) (3 * clock_count s) s = true).
  { unfold s at 1. by rewrite registry_ticks. }
  rewrite (get_clocks_run s current Hs Ht').
  eexists (mk_clocks_body _ _ _).
  cbn [cb_clocks cb_theme cb_timestamp].
  split; [reflexivity|]. split_and!.
  - by rewrite snapshots_cities.
  - rewrite get_dominant_theme_linked;
      [done|by apply linked_advance|].
    cbn [advance ticks clock_count].
    apply (in_time_weaken _ _ _ _ _ Ht'); lia.
  - unfold s. by rewrite registry_ticks.
Qed.

(** ** The report of a comparison *)

Lemma calculate_time_difference_run s index1 index2 c1 c2 :
  linked s →
  0 <= index1 < Z.of_nat (clock_count s) →
  0 <= index2 < Z.of_nat (clock_count s) →
  heap s !! Z.to_nat index1 = Some c1 →
  heap s !! Z.to_nat index2 = Some c2 →
  let time1 := reading (ticks s) c1 in
  let time2 := reading (S (ticks s)) c2 in
  calculate_time_difference index1 index2 s
  = if on_time (ticks s) c1
    then if on_time (S (ticks s)) c2
         then (text ← _format_time_difference (diff_hours time1 time2);
               Ok (Some (mk_time_difference (city_name c1) (city_name c2)
                           (Float64.round2 (diff_hours time1 time2)) text)),
               advance 2 s)
         else (Raise OverflowError, advance 2 s)
    else (Raise OverflowError, advance 1 s).
Proof.
  intros Hs Hi1 Hi2 H1 H2 time1 time2.
  unfold calculate_time_difference, mbind at 1 2, M_bind.
  rewrite !get_clock_at_index_linked by done.
  rewrite !bool_decide_true by lia.
  unfold mbind at 1 2, M_bind.
  rewrite (get_current_time_run s _ c1 H1).
  destruct (on_time (ticks s) c1); [|done].
  rewrite (get_current_time_run (advance 1 s) _ c2 H2).
  cbn [advance ticks]. rewrite Nat.add_1_r.
  destruct (on_time (S (ticks s)) c2); [|by rewrite advance_advance].
  unfold mbind at 1 2, M_bind, deref. cbn [advance heap]. rewrite H1.
  cbn [advance heap]. rewrite H2.
  fold time1 time2. fold (diff_hours time1 time2).
  unfold mbind, M_bind, lift, result_bind.
  destruct (_format_time_difference (diff_hours time1 time2));
    by rewrite advance_advance.
Qed.

(** X22.  [calculate_time_difference] at two valid indices of a registry
    built by the requests reads the time of the first record and then that
    of the second.  When both are in range it returns a report that names
    the two cities.  Its number is the difference of the hour and minute
    fields of the two times, in hours, rounded to hundredths.  Its text
    shows the whole hours of that difference, then a number of minutes
    that is the one of the difference or one less and is left out when
    zero, then "ahead" when the difference is positive and "behind"
    otherwise, a zero difference included.  When a time is out of range its
    [OverflowError] escapes the call. *)
Theorem time_difference_report_fields (rs : list request) (k : nat)
  (index1 index2 : Z) :
  let s := registry rs k in
  0 <= index1 < Z.of_nat (clock_count s) →
  0 <= index2 < Z.of_nat (clock_count s) →
  ∃ a1 a2 c1 c2,
    get_clock_at_index index1 s = (Ok (Some a1), s) ∧
    heap s !! a1 = Some c1 ∧
    get_clock_at_index index2 s = (Ok (Some a2), s) ∧
    heap s !! a2 = Some c2 ∧
    let time1 := reading k c1 in
    let time2 := reading (S k) c2 in
    let n := diff_minutes time1 time2 in
    let direction : string := if 0 <? n then "ahead" else "behind" in
    if on_time k c1 && on_time (S k) c2
    then ∃ report minutes,
           calculate_time_difference index1 index2 s
           = (Ok (Some report), advance 2 s) ∧
           td_clock1 report = city_name c1 ∧
           td_clock2 report = city_name c2 ∧
           difference_hours report
           = Float64.round2 (diff_hours time1 time2) ∧
           difference_hours report
           = Float64.int_truediv ((10 * n + 3) / 6) 100 ∧
           0 <= minutes ∧
           Z.abs n mod 60 - 1 <= minutes <= Z.abs n mod 60 ∧
           difference_text report
           = if minutes =? 0
             then str (Z.abs n / 60) +:+ " hours " +:+ direction
             else str (Z.abs n / 60) +:+ "h " +:+ str minutes +:+ "m "
                  +:+ direction
    else ∃ j,
           calculate_time_difference index1 index2 s
           = (Raise OverflowError, advance j s).
Proof.
  intros s Hi1 Hi2. pose proof (registry_linked rs k) as Hs. fold s in Hs.
  assert (Hk : ticks s = k) by apply registry_ticks.
  destruct (linked_lookup s (Z.to_nat index1) Hs) as (c1 & H1 & _); [lia|].
  destruct (linked_lookup s (Z.to_nat index2) Hs) as (c2 & H2 & _); [lia|].
  exists (Z.to_nat index1), (Z.to_nat index2), c1, c2.
  rewrite !(get_clock_at_index_linked s) by done.
  rewrite !bool_decide_true by done. do 4 (split; [done|]).
  rewrite (calculate_time_difference_run s index1 index2 c1 c2)
    by done.
  rewrite Hk. cbn zeta.
  destruct (on_time k c1); [|by eexists].
  destruct (on_time (S k) c2); [|by eexists]. cbn [andb].
  destruct (difference_fields (reading k c1) (reading (S k) c2))
    as (Hround & minutes & Hnn & Hmin & Hfmt).
  cbn zeta in Hround, Hmin, Hfmt. rewrite Hfmt.
  eexists (mk_time_difference _ _ _ _), minutes.
  cbn [mbind result_bind td_clock1 td_clock2 difference_hours
       difference_text].
  split; [reflexivity|]. by cbn [td_clock1 td_clock2 difference_hours
    difference_text].
Qed.

End Engine.

(** * The sample world

    The properties above, at the clocks of the application, and the inputs
    on which two statements of the specification fail. *)

Lemma ring_circular_and_symmetric_witness :
  let s := registry sample_timezone startup_requests 0 in
  1%nat ∈ ring_members s ∧
  Nat.iter (clock_count s) (next_of s) (Some 1%nat) = Some 1%nat ∧
  Nat.iter (clock_count s) (previous_of s) (Some 1%nat) = Some 1%nat ∧
  previous_of s (next_of s (Some 1%nat)) = Some 1%nat ∧
  next_of s (previous_of s (Some 1%nat)) = Some 1%nat.
Proof.
  intros s.
  assert (H : 1%nat ∈ ring_members s).
  { apply (proj2 (list_elem_of_lookup _ _)). exists 1%nat.
    vm_compute. reflexivity. }
  split; [exact H|].
  exact (proj2 (ring_circular_and_symmetric sample_timezone
                  startup_requests 0) 1%nat H).
Defined.

Lemma add_clock_all_or_nothing_witness :
  let s := registry sample_timezone startup_requests 0 in
  sample_timezone "Mars/Olympus" = None ∧
  add_clock sample_timezone "Olympus" "Mars/Olympus" "clock_mars.png" s
  = (Raise UnknownTimeZoneError, s).
Proof.
  intros s. split; [reflexivity|].
  exact (add_clock_all_or_nothing sample_timezone startup_requests 0
           "Olympus" "Mars/Olympus" "clock_mars.png" s).
Defined.

Lemma add_clock_inserts_before_head_witness :
  let s := registry sample_timezone startup_requests 0 in
  is_Some (sample_timezone "America/Bogota") ∧
  is_Some (sample_timezone "Europe/London") ∧
  is_Some (sample_timezone "Asia/Shanghai") ∧
  ∃ first, get_clock_at_index 0 s = (Ok first, s) ∧ is_Some first ∧
    city_of s (next_of s first) = Some "United Kingdom"%string ∧
    city_of s (previous_of s first) = Some "China"%string.
Proof.
  intros s.
  assert (H1 : is_Some (sample_timezone "America/Bogota"))
    by (exists (-18000); reflexivity).
  assert (H2 : is_Some (sample_timezone "Europe/London"))
    by (exists 0; reflexivity).
  assert (H3 : is_Some (sample_timezone "Asia/Shanghai"))
    by (exists 28800; reflexivity).
  split; [exact H1|]. split; [exact H2|]. split; [exact H3|].
  exact (proj2 (add_clock_inserts_before_head sample_timezone [] 0
                  "Colombia" "America/Bogota" "clock_colombia.png")
           "America/Bogota"%string "Europe/London"%string
           "Asia/Shanghai"%string "clock_colombia.png"%string
           "clock_uk.png"%string "clock_china.png"%string H1 H2 H3).
Defined.

Lemma is_modified_tracks_arguments_witness :
  let s := registry sample_timezone cancelling_offset_requests 0 in
  let c := mk_ClockNode "Colombia" "America/Bogota" (-18000)
             "clock_colombia.png" (Some 0%nat) (Some 0%nat)
             timedelta_zero true in
  heap s !! 0%nat = Some c ∧
  (time_offset c ≠ timedelta_zero → is_modified c = true) ∧
  ∃ s' c', set_time_offset 0%nat 2 30 s = (Ok tt, s') ∧
    heap s' !! 0%nat = Some c' ∧
    total_seconds (time_offset c') = 9000 ∧ is_modified c' = true.
Proof.
  intros s c.
  assert (H : heap s !! 0%nat = Some c) by (vm_compute; reflexivity).
  split; [exact H|].
  destruct (is_modified_tracks_arguments sample_timezone
              cancelling_offset_requests 0 0%nat c 2 30 H)
    as (Hflag & (s' & c' & Hset & Hc' & Htd & Hsec & Hmod) & _).
  split; [exact Hflag|].
  exists s', c'. split; [exact Hset|]. split; [exact Hc'|].
  split; [by rewrite Htd|exact Hmod].
Defined.

(** C2 as the specification states it fails: after
    [set_time_offset(1, -60)] the stored offset is zero and [is_modified]
    is true. *)
Lemma is_modified_iff_offset_counterexample :
  match heap (registry sample_timezone cancelling_offset_requests 0) !! 0%nat
  with
  | Some c => ¬ (is_modified c = true ↔ time_offset c ≠ timedelta_zero)
  | None => False
  end.
Proof. vm_compute. intros [H _]. exact (H eq_refl eq_refl). Qed.





(** C4.  The text of a report is not always the split of the difference
    into whole hours and rounded-down minutes.  With the clocks of the
    application and the second one put 20 minutes ahead, the first is read
    at 09:00:00 and the second at 14:20:01, a difference of 5 hours and 20
    minutes, and [calculate_time_difference] gives the text "5h 19m
    ahead".  With the second one put 1 minute ahead, a difference of 5
    hours and 1 minute, it gives "5 hours ahead": the minute is left
    out. *)
Theorem time_difference_minute_slip :
  let s20 := registry sample_timezone twenty_minutes_requests 0 in
  let s1 := registry sample_timezone one_minute_requests 0 in
  (∃ c1 c2 report,
     heap s20 !! 0%nat = Some c1 ∧ heap s20 !! 1%nat = Some c2 ∧
     diff_minutes (reading sample_clock 0 c1) (reading sample_clock 1 c2)
     = 320 ∧
     fst (calculate_time_difference sample_clock 0 1 s20)
     = Ok (Some report) ∧
     difference_text report = "5h 19m ahead"%string) ∧
  (∃ c1 c2 report,
     heap s1 !! 0%nat = Some c1 ∧ heap s1 !! 1%nat = Some c2 ∧
     diff_minutes (reading sample_clock 0 c1) (reading sample_clock 1 c2)
     = 301 ∧
     fst (calculate_time_difference sample_clock 0 1 s1)
     = Ok (Some report) ∧
     difference_text report = "5 hours ahead"%string).
Proof.
  intros s20 s1. split.
  - do 3 eexists. split; [vm_compute; reflexivity|].
    split; [vm_compute; reflexivity|]. split; [vm_compute; reflexivity|].
    split; vm_compute; reflexivity.
  - do 3 eexists. split; [vm_compute; reflexivity|].
    split; [vm_compute; reflexivity|]. split; [vm_compute; reflexivity|].
    split; vm_compute; reflexivity.
Qed.

Lemma clock_hand_angles_witness :
  let t := Datetime.mk_datetime (3600 * 10 + 60 * 20 + 30) in
  (0 <= 10 < 24 ∧ 0 <= 20 < 60 ∧ 0 <= 30 < 60) ∧
  (Float64.to_Q (calculate_hour_angle t) == 310)%Q ∧
  calculate_minute_angle t = 120 ∧ calculate_second_angle t = 180.
Proof.
  intros t. split; [lia|].
  destruct (proj2 (clock_hand_angles 10 20 30 ltac:(lia) ltac:(lia)
                     ltac:(lia)) t eq_refl eq_refl eq_refl)
    as (_ & Hq & _ & _ & Hm & _ & Hs & _).
  split; [|split; [exact Hm|exact Hs]].
  rewrite Hq. reflexivity.
Defined.

Lemma offset_entries_floor_witness :
  let s := registry sample_timezone negative_offset_requests 0 in
  let c := mk_ClockNode "Colombia" "America/Bogota" (-18000)
             "clock_colombia.png" (Some 0%nat) (Some 0%nat)
             (mk_timedelta (-1) 81000 0) true in
  (heap s !! 0%nat = Some c ∧ readable sample_clock 0 2 c = true) ∧
  ∃ d,
    get_clock_data sample_clock sample_strftime 0%nat s
    = (Ok d, advance 2 s) ∧
    cd_offset_hours d * 60 + cd_offset_minutes d = -90 ∧
    0 <= cd_offset_minutes d < 60.
Proof.
  intros s c.
  assert (H : heap s !! 0%nat = Some c) by (vm_compute; reflexivity).
  assert (Ht : readable sample_clock 0 2 c = true)
    by (vm_compute; reflexivity).
  split; [exact (conj H Ht)|].
  destruct (offset_entries_floor sample_timezone sample_clock sample_strftime
              negative_offset_requests 0 0%nat c H Ht)
    as (d & Hget & _ & Hsum & _ & Hmin & _).
  exists d. split; [exact Hget|]. split; [exact Hsum|exact Hmin].
Defined.

(** C1 as the specification states it fails: after
    [set_time_offset(-1, -30)] the offset is negative, and the snapshot
    gives [offset_hours = -2] and [offset_minutes = 30], a positive number
    of minutes. *)
Lemma offset_entries_sign_counterexample :
  let s := registry sample_timezone negative_offset_requests 0 in
  match heap s !! 0%nat,
        fst (get_clock_data sample_clock sample_strftime 0%nat s) with
  | Some c, Ok d =>
      total_seconds (time_offset c) = -5400 ∧
      cd_offset_hours d = -2 ∧ cd_offset_minutes d = 30 ∧
      ¬ (total_seconds (time_offset c) < 0 →
         cd_offset_hours d <= 0 ∧ cd_offset_minutes d <= 0)
  | _, _ => False
  end.
Proof.
  vm_compute. split; [reflexivity|]. split; [reflexivity|].
  split; [reflexivity|]. intros H. destruct (H eq_refl) as [_ H']. exact (H' eq_refl).
Qed.

(** ** The rest of the program in the sample world *)

(** Take the branch of a conditional in [H] that computation selects. *)
Ltac take_branch H :=
  match type of H with
  | if ?b then _ else _ =>
      let Hb := fresh "Hb" in
      first [ assert (Hb : b = true) by (vm_compute; reflexivity)
            | assert (Hb : b = false) by (vm_compute; reflexivity) ];
      rewrite Hb in H; clear Hb
  end.

Lemma all_clocks_in_insertion_order_witness :
  let s := registry sample_timezone startup_requests 0 in
  let c := mk_ClockNode "United Kingdom" "Europe/London" 0 "clock_uk.png"
             (Some 2%nat) (Some 0%nat) timedelta_zero false in
  (in_time sample_clock 0 (2 * clock_count s) s = true ∧
   ring_nodes s !! 1%nat = Some c) ∧
  ∃ clocks_data d,
    fst (get_all_clocks_data sample_clock sample_strftime s)
    = Ok clocks_data ∧
    cd_city <$> clocks_data = ["Colombia"; "United Kingdom"; "China"]%string ∧
    clocks_data !! 1%nat = Some d ∧
    cd_city d = "United Kingdom"%string ∧ cd_hour d = 14.
Proof.
  intros s c.
  assert (Ht : in_time sample_clock 0 (2 * clock_count s) s = true)
    by (vm_compute; reflexivity).
  assert (H : ring_nodes s !! 1%nat = Some c) by (vm_compute; reflexivity).
  split; [exact (conj Ht H)|].
  destruct (all_clocks_in_insertion_order sample_timezone sample_clock
              sample_strftime startup_requests 0 Ht)
    as (clocks_data & Hrun & _ & Hcities & _ & Hrec).
  fold s in Hrun, Hrec.
  destruct (Hrec 1%nat c H) as (d & Hd & Hcity & _ & _ & _ & _ & _ & Hhour).
  exists clocks_data, d. split; [by rewrite Hrun|].
  split; [by rewrite Hcities|]. split; [exact Hd|]. split; [exact Hcity|].
  rewrite Hhour. vm_compute. reflexivity.
Defined.

Lemma list_structure_shows_ring_witness :
  let s := registry sample_timezone startup_requests 0 in
  ∃ structure e,
    get_list_structure s = (Ok structure, s) ∧
    structure !! 0%nat = Some e ∧
    se_city e = "Colombia"%string ∧ se_next e = "United Kingdom"%string ∧
    se_previous e = "China"%string ∧ se_is_head e = true.
Proof.
  intros s.
  destruct (list_structure_shows_ring sample_timezone startup_requests 0)
    as (structure & Hrun & _ & _ & Hrows).
  fold s in Hrun, Hrows.
  assert (He : ∃ e, structure !! 0%nat = Some e).
  { pose proof Hrun as Hc. vm_compute in Hc. injection Hc as <-.
    eexists. reflexivity. }
  destruct He as [e He].
  destruct (Hrows 0%nat e He) as (_ & Hcity & Hnext & Hprev & Hhead).
  exists structure, e. split; [exact Hrun|]. split; [exact He|].
  assert (H0 : city_at s 0%nat = Some "Colombia"%string)
    by (vm_compute; reflexivity).
  assert (H1 : city_at s 1%nat = Some "United Kingdom"%string)
    by (vm_compute; reflexivity).
  assert (H2 : city_at s (0 + pred (clock_count s))%nat
               = Some "China"%string) by (vm_compute; reflexivity).
  rewrite H0 in Hcity. rewrite H1 in Hnext. rewrite H2 in Hprev.
  injection Hcity as ->. injection Hnext as ->. injection Hprev as ->.
  split; [reflexivity|]. split; [reflexivity|]. split; [reflexivity|].
  exact (proj2 Hhead eq_refl).
Defined.


Lemma meeting_times_count_witness :
  let s := registry sample_timezone startup_requests 0 in
  (head_clock s ≠ None ∧
   in_time sample_clock 0 (24 * clock_count s) s = true) ∧
  ∃ result,
    fst (find_optimal_meeting_time sample_clock sample_strftime 22 30 s)
    = Ok result ∧ length result = 2%nat.
Proof.
  intros s.
  assert (H : head_clock s ≠ None) by (vm_compute; discriminate).
  assert (Ht : in_time sample_clock 0 (24 * clock_count s) s = true)
    by (vm_compute; reflexivity).
  split; [exact (conj H Ht)|].
  destruct (meeting_times_count sample_timezone sample_clock sample_strftime
              startup_requests 0 22 30 H Ht) as (result & Hrun & Hlen & _).
  fold s in Hrun. exists result. split; [by rewrite Hrun|exact Hlen].
Defined.

Lemma set_then_reset_restores_witness :
  let s := registry sample_timezone startup_requests 0 in
  let c := mk_ClockNode "Colombia" "America/Bogota" (-18000)
             "clock_colombia.png" (Some 1%nat) (Some 2%nat)
             timedelta_zero false in
  heap s !! 0%nat = Some c ∧ is_modified c = false ∧
  snd (reset_time_offset 0%nat (snd (set_time_offset 0%nat 5 30 s))) = s.
Proof.
  intros s c.
  assert (H : heap s !! 0%nat = Some c) by (vm_compute; reflexivity).
  split; [exact H|]. split; [reflexivity|].
  exact (set_then_reset_restores sample_timezone startup_requests 0 0%nat c
           5 30 H eq_refl).
Defined.

Lemma snapshot_offset_round_trip_witness :
  let s := registry sample_timezone negative_offset_requests 0 in
  let c := mk_ClockNode "Colombia" "America/Bogota" (-18000)
             "clock_colombia.png" (Some 0%nat) (Some 0%nat)
             (mk_timedelta (-1) 81000 0) true in
  (heap s !! 0%nat = Some c ∧ readable sample_clock 0 2 c = true) ∧
  ∃ d s1 s2 c',
    get_clock_data sample_clock sample_strftime 0%nat s = (Ok d, s1) ∧
    cd_offset_hours d = -2 ∧ cd_offset_minutes d = 30 ∧
    set_time_offset 0%nat (-2) 30 s1 = (Ok tt, s2) ∧
    heap s2 !! 0%nat = Some c' ∧
    time_offset c' = mk_timedelta (-1) 81000 0 ∧ is_modified c' = true.
Proof.
  intros s c.
  assert (H : heap s !! 0%nat = Some c) by (vm_compute; reflexivity).
  assert (Ht : readable sample_clock 0 2 c = true)
    by (vm_compute; reflexivity).
  split; [exact (conj H Ht)|].
  destruct (snapshot_offset_round_trip sample_timezone sample_clock
              sample_strftime negative_offset_requests 0 0%nat c H Ht)
    as (d & s1 & s2 & c' & Hget & Hset & Hc' & Htd & Hmod).
  fold s in Hget, Hset.
  assert (Hh : cd_offset_hours d = -2).
  { pose proof Hget as Hv. vm_compute in Hv. injection Hv as <- _.
    reflexivity. }
  assert (Hm : cd_offset_minutes d = 30).
  { pose proof Hget as Hv. vm_compute in Hv. injection Hv as <- _.
    reflexivity. }
  exists d, s1, s2, c'. split; [exact Hget|]. split; [exact Hh|].
  split; [exact Hm|]. rewrite Hh, Hm in Hset. split; [exact Hset|].
  split; [exact Hc'|]. split; [exact Htd|].
  apply (proj2 Hmod). discriminate.
Defined.

Lemma offset_shifts_displayed_time_witness :
  let s := registry sample_timezone startup_requests 0 in
  let c := mk_ClockNode "Colombia" "America/Bogota" (-18000)
             "clock_colombia.png" (Some 1%nat) (Some 2%nat)
             timedelta_zero false in
  (heap s !! 0%nat = Some c ∧
   timedelta_of 2 45 = Ok (mk_timedelta 0 9900 0)) ∧
  ∃ s1 t,
    set_time_offset 0%nat 2 45 s = (Ok tt, s1) ∧
    get_current_time sample_clock 0%nat s1 = (Ok t, advance 1 s1) ∧
    Datetime.hour t = 11 ∧ Datetime.minute t = 45 ∧ Datetime.second t = 0.
Proof.
  intros s c.
  assert (H : heap s !! 0%nat = Some c) by (vm_compute; reflexivity).
  assert (Htd : timedelta_of 2 45 = Ok (mk_timedelta 0 9900 0))
    by (vm_compute; reflexivity).
  split; [exact (conj H Htd)|].
  destruct (offset_shifts_displayed_time sample_timezone sample_clock
              startup_requests 0 0%nat c 2 45 _ H Htd)
    as (s1 & Hset & Hrest).
  fold s in Hset. cbn zeta in Hrest. take_branch Hrest.
  destruct Hrest as (t & Hget & Hsec & Hmin & Hhour).
  exists s1, t. split; [exact Hset|]. split; [exact Hget|].
  rewrite Hhour, Hmin, Hsec. vm_compute. repeat split; reflexivity.
Defined.

Lemma add_clock_then_lookup_witness :
  let s := registry sample_timezone startup_requests 0 in
  sample_timezone "Europe/London" = Some 0 ∧
  ∃ s' new c,
    add_clock sample_timezone "Greenwich" "Europe/London" "clock_gmt.png" s
    = (Ok tt, s') ∧
    get_clock_at_index 3 s' = (Ok (Some new), s') ∧
    heap s' !! new = Some c ∧ city_name c = "Greenwich"%string ∧
    get_clock_at_index 4 s' = (Ok None, s').
Proof.
  intros s.
  assert (H : sample_timezone "Europe/London" = Some 0) by reflexivity.
  split; [exact H|].
  destruct (add_clock_then_lookup sample_timezone startup_requests 0
              "Greenwich" "Europe/London" "clock_gmt.png" 0 H)
    as (s' & new & c & Hadd & Hget & Hc & Hdata & Hnone & _).
  fold s in Hadd, Hget, Hnone.
  change (clock_count s) with 3%nat in Hget, Hnone.
  exists s', new, c. split; [exact Hadd|]. split; [exact Hget|].
  split; [exact Hc|]. split; [exact (proj1 Hdata)|exact Hnone].
Defined.

Lemma index_lookup_one_to_one_witness :
  let s := registry sample_timezone startup_requests 0 in
  2%nat ∈ ring_members s ∧
  ∃ i, 0 <= i < 3 ∧ get_clock_at_index i s = (Ok (Some 2%nat), s) ∧
       ∀ j, get_clock_at_index j s = (Ok (Some 2%nat), s) → i = j.
Proof.
  intros s.
  assert (H : 2%nat ∈ ring_members s).
  { apply (proj2 (list_elem_of_lookup _ _)). exists 2%nat.
    vm_compute. reflexivity. }
  split; [exact H|].
  destruct (index_lookup_one_to_one sample_timezone startup_requests 0)
    as (Hinj & Hsurj).
  fold s in Hinj, Hsurj.
  destruct (Hsurj 2%nat H) as (i & Hi & Hget).
  change (clock_count s) with 3%nat in Hi.
  exists i. split; [exact Hi|]. split; [exact Hget|].
  intros j Hj. exact (Hinj i j 2%nat Hget Hj).
Defined.

Lemma next_view_follows_ring_witness :
  let s := registry sample_timezone startup_requests 0 in
  0 <= 2 < Z.of_nat (clock_count s) ∧
  ∃ body,
    get_next_clock sample_clock sample_strftime sample_isoformat (mk_app s 2)
    = (Return (Json body), mk_app (advance 4 s) 0) ∧
    kb_index body = 0 ∧ kb_total body = 3%nat ∧
    cd_city (kb_clock body) = "Colombia"%string.
Proof.
  intros s.
  assert (H : 0 <= 2 < Z.of_nat (clock_count s))
    by (vm_compute; split; congruence).
  split; [exact H|].
  destruct (next_view_follows_ring sample_timezone sample_clock
              sample_strftime sample_isoformat startup_requests 0 2 H)
    as (a & c & Hget & Hc & _ & Hrun).
  fold s in Hget, Hc, Hrun.
  change (clock_count s) with 3%nat in Hget, Hrun.
  change ((2 + 1) mod Z.of_nat 3) with 0 in Hget, Hrun.
  vm_compute in Hget. injection Hget as <-.
  vm_compute in Hc. injection Hc as <-.
  take_branch Hrun.
  destruct Hrun as (body & Hrun & Hi & Htotal & _ & _ & _ & Hcity).
  exists body. split; [exact Hrun|]. split; [exact Hi|].
  split; [exact Htotal|exact Hcity].
Defined.

Lemma previous_view_follows_ring_witness :
  let s := registry sample_timezone startup_requests 0 in
  0 <= 0 < Z.of_nat (clock_count s) ∧
  ∃ body,
    get_previous_clock sample_clock sample_strftime sample_isoformat
      (mk_app s 0)
    = (Return (Json body), mk_app (advance 4 s) 2) ∧
    kb_index body = 2 ∧ kb_total body = 3%nat ∧
    cd_city (kb_clock body) = "China"%string.
Proof.
  intros s.
  assert (H : 0 <= 0 < Z.of_nat (clock_count s))
    by (vm_compute; split; congruence).
  split; [exact H|].
  destruct (previous_view_follows_ring sample_timezone sample_clock
              sample_strftime sample_isoformat startup_requests 0 0 H)
    as (_ & a & c & Hget & Hc & _ & Hrun).
  fold s in Hget, Hc, Hrun.
  change (clock_count s) with 3%nat in Hget, Hrun.
  change ((0 - 1) mod Z.of_nat 3) with 2 in Hget, Hrun.
  vm_compute in Hget. injection Hget as <-.
  vm_compute in Hc. injection Hc as <-.
  take_branch Hrun.
  destruct Hrun as (body & Hrun & Hi & Htotal & _ & _ & _ & Hcity).
  exists body. split; [exact Hrun|]. split; [exact Hi|].
  split; [exact Htotal|exact Hcity].
Defined.


Lemma views_keep_registry_and_cursor_witness :
  let hs := [GetNextClock; GetNextClock; GetNextClock;
             UpdateClockTime None (Some 2) None; GetPreviousClock;
             GetClocks; ResetClockTime (Some 7)] in
  let ap := served sample_timezone sample_clock sample_strftime
              sample_isoformat startup_requests 0 hs in
  added_cities sample_timezone startup_requests ≠ [] ∧
  clock_count (clock_list ap) = 3%nat ∧
  0 <= current_clock_index ap < 3.
Proof.
  intros hs ap.
  assert (H : added_cities sample_timezone startup_requests ≠ [])
    by (vm_compute; discriminate).
  split; [exact H|].
  destruct (views_keep_registry_and_cursor sample_timezone sample_clock
              sample_strftime sample_isoformat startup_requests 0 hs)
    as (_ & Hcount & Hlow & Hhigh & _).
  fold ap in Hcount, Hlow, Hhigh. specialize (Hhigh H).
  rewrite Hcount in Hhigh. split; [exact Hcount|].
  split; [exact Hlow|exact Hhigh].
Defined.

Lemma update_view_sets_offset_witness :
  let s := registry sample_timezone startup_requests 0 in
  (0 <= 1 < Z.of_nat (clock_count s) ∧
   timedelta_of 2 0 = Ok (mk_timedelta 0 7200 0)) ∧
  ∃ body s1,
    update_clock_time sample_clock sample_strftime None (Some 2) None
      (mk_app s 1)
    = (Return (Json body), mk_app (advance 3 s1) 1) ∧
    ub_message body = "Time updated for United Kingdom"%string ∧
    cd_is_modified (ub_clock body) = true ∧
    cd_offset_hours (ub_clock body) = 2 ∧
    cd_offset_minutes (ub_clock body) = 0.
Proof.
  intros s.
  assert (H : 0 <= 1 < Z.of_nat (clock_count s))
    by (vm_compute; split; congruence).
  assert (Htd : timedelta_of 2 0 = Ok (mk_timedelta 0 7200 0))
    by (vm_compute; reflexivity).
  split; [exact (conj H Htd)|].
  destruct (update_view_sets_offset sample_timezone sample_clock
              sample_strftime startup_requests 0 1 None (Some 2) None _
              H Htd)
    as (a & c & c' & s1 & Hget & Hc & _ & Hset & _ & Hc' & _ & _ & _ & Hrun).
  fold s in Hget, Hc, Hset, Hrun.
  vm_compute in Hget. injection Hget as <-.
  vm_compute in Hc. injection Hc as <-.
  vm_compute in Hset. injection Hset as <-.
  vm_compute in Hc'. injection Hc' as <-.
  take_branch Hrun.
  destruct Hrun as (body & Hrun & _ & Hmsg & _ & _ & Hmod & Hh & Hm).
  exists body. eexists. split; [exact Hrun|].
  split; [exact Hmsg|]. split; [exact Hmod|]. split; [exact Hh|exact Hm].
Defined.

Lemma post_views_change_nothing_on_error_witness :
  let s := registry sample_timezone startup_requests 0 in
  let ap := mk_app s 1 in
  ¬ (0 <= 7 < Z.of_nat (clock_count s)) ∧
  (0 <= 1 < Z.of_nat (clock_count s) ∧
   Z.abs ((24000000000 * 3600 + 0 * 60) / 86400) > MAX_DELTA_DAYS) ∧
  update_clock_time sample_clock sample_strftime (Some 7) (Some 2) None ap
  = (Return (JsonError "Invalid clock index" 400), ap) ∧
  reset_clock_time sample_clock sample_strftime (Some 7) ap
  = (Return (JsonError "Invalid clock index" 400), ap) ∧
  update_clock_time sample_clock sample_strftime None (Some 24000000000) None
    ap
  = (Escape (Raised OverflowError), ap).
Proof.
  intros s ap.
  assert (H7 : ¬ (0 <= 7 < Z.of_nat (clock_count s)))
    by (vm_compute; intros [_ H]; discriminate H).
  assert (H1 : 0 <= 1 < Z.of_nat (clock_count s))
    by (vm_compute; split; congruence).
  assert (Hbig : Z.abs ((24000000000 * 3600 + 0 * 60) / 86400)
                 > MAX_DELTA_DAYS) by (vm_compute; reflexivity).
  split; [exact H7|]. split; [exact (conj H1 Hbig)|].
  destruct (proj1 (post_views_change_nothing_on_error sample_timezone
                     sample_clock sample_strftime startup_requests 0 1
                     (Some 7) (Some 2) None) H7) as [Hu Hr].
  split; [exact Hu|]. split; [exact Hr|].
  exact (proj2 (post_views_change_nothing_on_error sample_timezone
                  sample_clock sample_strftime startup_requests 0 1
                  None (Some 24000000000) None) H1 Hbig).
Defined.

Lemma reset_view_restores_zone_time_witness :
  let s := registry sample_timezone
             (startup_requests ++ [SetOffset 2 3 15]) 0 in
  0 <= 2 < Z.of_nat (clock_count s) ∧
  ∃ body s',
    reset_clock_time sample_clock sample_strftime None (mk_app s 2)
    = (Return (Json body), mk_app s' 2) ∧
    ub_message body = "Time reset for China"%string ∧
    cd_is_modified (ub_clock body) = false ∧
    cd_hour (ub_clock body) = 22 ∧ cd_minute (ub_clock body) = 0.
Proof.
  intros s.
  assert (H : 0 <= 2 < Z.of_nat (clock_count s)) by (vm_compute; split; congruence).
  split; [exact H|].
  destruct (reset_view_restores_zone_time sample_timezone sample_clock
              sample_strftime
              (startup_requests ++ [SetOffset 2 3 15]) 0 2 None H)
    as (body & s' & a & c & c' & Hrun & _ & Hmsg & Hcity & Hmod & _ & _
        & Hget & Hc & Hhour & Hmin & _).
  fold s in Hrun, Hget, Hc. exists body, s'. split; [exact Hrun|].
  assert (Hl : added_cities sample_timezone
                 (startup_requests ++ [SetOffset 2 3 15])
                 !! Z.to_nat (default 2 None)
               = Some "China"%string) by (vm_compute; reflexivity).
  rewrite Hl in Hcity. injection Hcity as Hcity.
  vm_compute in Hget. injection Hget as <-.
  vm_compute in Hc. injection Hc as <-.
  rewrite Hmsg, <- Hcity. split; [reflexivity|]. split; [exact Hmod|].
  rewrite Hhour, Hmin. split; vm_compute; reflexivity.
Defined.


Lemma meeting_view_counts_options_witness :
  let s := registry sample_timezone startup_requests 0 in
  (in_time sample_clock 0 (24 * clock_count s) s = true ∧
   clock_count s ≠ 0%nat) ∧
  ∃ body ap',
    get_meeting_times sample_clock sample_strftime None None (mk_app s 0)
    = (Return (Json body), ap') ∧
    total_options body = 8%nat ∧
    reference_hour <$> optimal_times body = [9; 10; 11; 12; 13; 14; 15; 16].
Proof.
  intros s.
  assert (Ht : in_time sample_clock 0 (24 * clock_count s) s = true)
    by (vm_compute; reflexivity).
  assert (H : clock_count s ≠ 0%nat) by (vm_compute; discriminate).
  split; [exact (conj Ht H)|].
  destruct (meeting_view_counts_options sample_timezone sample_clock
              sample_strftime startup_requests 0 0 None None Ht)
    as (body & Hrun & _ & _ & Htotal & Hhours).
  fold s in Hrun, Htotal, Hhours. exists body. eexists.
  split; [exact Hrun|]. split; [|exact (Hhours eq_refl eq_refl H)].
  rewrite Htotal. vm_compute. reflexivity.
Defined.

Lemma listing_views_agree_witness :
  let s := registry sample_timezone startup_requests 0 in
  in_time sample_clock 0 (3 * clock_count s) s = true ∧
  ∃ cbody,
    get_clocks sample_clock sample_strftime sample_isoformat (mk_app s 0)
    = (Return (Json cbody), mk_app (advance 10 s) 0) ∧
    cd_city <$> cb_clocks cbody
    = ["Colombia"; "United Kingdom"; "China"]%string.
Proof.
  intros s.
  assert (Ht : in_time sample_clock 0 (3 * clock_count s) s = true)
    by (vm_compute; reflexivity).
  split; [exact Ht|].
  destruct (listing_views_agree sample_timezone sample_clock sample_strftime
              sample_isoformat startup_requests 0 0)
    as (sbody & _ & _ & _ & Hclocks).
  destruct (Hclocks Ht) as (cbody & Hrun & Hcities & _).
  fold s in Hrun. change (clock_count s) with 3%nat in Hrun.
  exists cbody. split; [exact Hrun|]. rewrite Hcities.
  vm_compute. reflexivity.
Defined.

Lemma time_difference_report_fields_witness :
  let s := registry sample_timezone startup_requests 0 in
  (0 <= 0 < Z.of_nat (clock_count s) ∧ 0 <= 2 < Z.of_nat (clock_count s)) ∧
  ∃ report,
    calculate_time_difference sample_clock 0 2 s
    = (Ok (Some report), advance 2 s) ∧
    td_clock1 report = "Colombia"%string ∧
    td_clock2 report = "China"%string ∧
    difference_text report = "13 hours ahead"%string.
Proof.
  intros s.
  assert (H1 : 0 <= 0 < Z.of_nat (clock_count s))
    by (vm_compute; split; congruence).
  assert (H2 : 0 <= 2 < Z.of_nat (clock_count s))
    by (vm_compute; split; congruence).
  split; [exact (conj H1 H2)|].
  destruct (time_difference_report_fields sample_timezone sample_clock
              startup_requests 0 0 2 H1 H2)
    as (a1 & a2 & c1 & c2 & Hg1 & Hc1 & Hg2 & Hc2 & Hrun).
  fold s in Hg1, Hc1, Hg2, Hc2, Hrun. cbn zeta in Hrun.
  vm_compute in Hg1. injection Hg1 as <-.
  vm_compute in Hc1. injection Hc1 as <-.
  vm_compute in Hg2. injection Hg2 as <-.
  vm_compute in Hc2. injection Hc2 as <-.
  take_branch Hrun.
  destruct Hrun
    as (report & minutes & Hrun & Ht1 & Ht2 & _ & _ & Hnn & Hmin & Htext).
  match type of Hmin with
  | context [diff_minutes ?t1 ?t2] =>
      assert (Hn : diff_minutes t1 t2 = 780) by (vm_compute; reflexivity);
      rewrite Hn in Hmin, Htext
  end.
  change (Z.abs 780 mod 60) with 0 in Hmin.
  assert (Hz : minutes = 0) by lia. rewrite Hz in Htext.
  exists report. split; [exact Hrun|]. split; [exact Ht1|].
  split; [exact Ht2|exact Htext].
Defined.
